(** * Deployment decision workflow of the App Service extension

    A shallow embedding of [src/util.ts] ([parseAzureResourceId]),
    [src/commands/deploy/setPreDeployTaskForDotnet.ts] and
    [src/commands/deploy/deploy.ts], with the properties the specification
    states about them.

    JavaScript strings are embedded as [string] (sequences of 8-bit code
    units); objects used as dictionaries are finite maps ([gmap]); code that
    awaits collaborators is written in a state-and-exception monad whose
    state carries the persisted settings, the task file, the telemetry bag
    and a log of every call that leaves the function. *)

From Stdlib Require Import Ascii String.
From stdpp Require Import base strings pretty gmap list.

Local Open Scope string_scope.
Local Open Scope list_scope.

(** ** Exceptions *)

(** [new Error(msg)], the [UserCancelledError] of the UI package, and a
    rejection coming from a collaborator (identified by a tag). *)
Inductive exn : Type :=
  | Error (msg : string)
  | UserCancelledError
  | Rejected (tag : string).

Global Instance exn_eq_dec : EqDecision exn.
Proof. solve_decision. Defined.

(** ** JavaScript string primitives *)

Module Js.

Definition dquote : string := String (ascii_of_nat 34) EmptyString.
Definition newline : string := String (ascii_of_nat 10) EmptyString.

(** [s.split(sep)] for a one-character separator. *)
Fixpoint split (sep : ascii) (s : string) : list string :=
  match s with
  | EmptyString => [EmptyString]
  | String c s' =>
      if Ascii.eqb c sep then EmptyString :: split sep s'
      else match split sep s' with
           | [] => [String c EmptyString]
           | seg :: segs => String c seg :: segs
           end
  end.

(** [s.substring(n)]. *)
Definition substring_from (n : nat) (s : string) : string :=
  String.substring n (String.length s - n) s.

(** [s.charAt(i)]: the empty string when out of range. *)
Definition charAt (i : nat) (s : string) : string :=
  match String.get i s with
  | Some c => String c EmptyString
  | None => EmptyString
  end.

(** Truthiness of a string value: only [''] is falsy. *)
Definition truthy_str (s : string) : bool := negb (String.eqb s EmptyString).

(** Truthiness of a [string | undefined]. *)
Definition truthy_opt (o : option string) : bool :=
  match o with
  | Some s => truthy_str s
  | None => false
  end.

(** [a === b] for a [string | undefined] and a string. *)
Definition strict_eq_str (a : option string) (b : string) : bool :=
  match a with
  | Some s => String.eqb s b
  | None => false
  end.

(** [a !== b] for an object reference [a] and a primitive string [b]:
    values of different types are never strictly equal. *)
Definition strict_neq_object_string {A : Type} (a : A) (b : string) : bool := true.

(** [c.toLowerCase()] on one 8-bit code unit: the letters A-Z and the
    Latin-1 capitals (all of 192-222 but the multiplication sign). *)
Definition lower (c : ascii) : ascii :=
  let n := nat_of_ascii c in
  if ((65 <=? n) && (n <=? 90))%nat then ascii_of_nat (n + 32)
  else if ((192 <=? n) && (n <=? 222) && negb (n =? 215))%nat then ascii_of_nat (n + 32)
  else c.

Fixpoint toLowerCase (s : string) : string :=
  match s with
  | EmptyString => EmptyString
  | String c s' => String (lower c) (toLowerCase s')
  end.

(** [s.startsWith(p)]. *)
Definition startsWith (s p : string) : bool := String.prefix p s.

End Js.

(** ** [util.ts]: [parseAzureResourceId] *)

Definition invalidIdErr : exn := Error "Invalid web app ID.".

(** [result[key] = value] on an object created by [{}], whose own
    properties are the entries of the map: the assignment defines an own
    property, except for the key [__proto__], which [Object.prototype]
    answers with a setter; called with a string, that setter does nothing
    and the object is left as it was. *)
Definition assign (key value : string) (result : gmap string string) : gmap string string :=
  if String.eqb key "__proto__" then result else <[key := value]> result.

(** The [for (let i = 0; i < parts.length; i += 2)] loop, consuming
    [parts[i]] and [parts[i + 1]] at each round.  The length of [parts] is
    even when the loop is entered, so the one-element tail never occurs. *)
Fixpoint parse_pairs (parts : list string) (result : gmap string string)
  : exn + gmap string string :=
  match parts with
  | key :: value :: rest =>
      if String.eqb key EmptyString || String.eqb value EmptyString then inl invalidIdErr
      else parse_pairs rest (assign key value result)
  | _ => inr result
  end.

Definition parseAzureResourceId (resourceId : string) : exn + gmap string string :=
  if negb (Js.truthy_str resourceId)
     || (String.length resourceId <? 2)%nat
     || negb (String.eqb (Js.charAt 0 resourceId) "/")
  then inl invalidIdErr
  else
    let parts := Js.split "/" (Js.substring_from 1 resourceId) in
    if negb (length parts mod 2 =? 0)%nat then inl invalidIdErr
    else parse_pairs parts ∅.

(** ** Data of the workflow *)

(** A value held by the workspace preference store; an absent key reads as
    [undefined], embedded as [None]. *)
Inductive setting : Type :=
  | SBool (b : bool)
  | SStr (s : string).

Global Instance setting_eq_dec : EqDecision setting.
Proof. solve_decision. Defined.

(** JavaScript truthiness of a value read from the store. *)
Definition truthy (v : option setting) : bool :=
  match v with
  | None => false
  | Some (SBool b) => b
  | Some (SStr s) => Js.truthy_str s
  end.

Record MessageItem : Type := { title : string }.

Global Instance MessageItem_eq_dec : EqDecision MessageItem.
Proof. solve_decision. Defined.

(** The dialog buttons exported by the UI package. *)
Module DialogResponses.
Definition yes : MessageItem := {| title := "Yes" |}.
Definition cancel : MessageItem := {| title := "Cancel" |}.
End DialogResponses.

Record WorkspaceFolder : Type := {
  uri_fsPath : string;
  name : string
}.

Global Instance WorkspaceFolder_eq_dec : EqDecision WorkspaceFolder.
Proof. solve_decision. Defined.

(** A task definition of [tasks.json]; a task written by hand may lack a
    label. *)
Record ITask : Type := {
  label : option string;
  command : string;
  type : string;
  args : list string;
  problemMatcher : string
}.

Global Instance ITask_eq_dec : EqDecision ITask.
Proof. solve_decision. Defined.

(** The remote configuration of a site, with the two fields the workflow
    reads. *)
Record SiteConfigResource : Type := {
  linuxFxVersion : option string;
  scmType : option string
}.

Record SiteTreeItem : Type := {
  fullId : string;
  client_fullName : string
}.

Global Instance SiteTreeItem_eq_dec : EqDecision SiteTreeItem.
Proof. solve_decision. Defined.

(** The [target] argument of [deploy]:
    [vscode.Uri | SiteTreeItem | undefined]. *)
Inductive Target : Type :=
  | TUri (fsPath : string)
  | TNode (item : SiteTreeItem)
  | TUndefined.

(** ** Calls that leave the extension *)

(** Every call to a collaborator is recorded, in order, with its
    arguments.  A call that is started but not awaited is recorded at the
    point where it is started. *)
Inductive Event : Type :=
  (* file system *)
  | FsReaddirSync (p : string)
  | FsReaddir (p : string)
  | FsExistsSync (p : string)
  | FsStat (p : string)
  | FsReadFile (p : string)
  | FsPathExists (p : string)
  (* prompt surface *)
  | ShowWarningMessage (message : string) (items : list MessageItem)
  | ShowQuickPick (placeHolder : string)
  | ShowInformationMessage (message : string) (items : list MessageItem)
  | Delay (ms : nat)
  (* editor *)
  | OpenTextDocument (p : string)
  | ShowTextDocument (p : string)
  | ExecuteCommand (cmd : string)
  | OutputAppendLine (line : string)
  (* workspace preference store and task registry *)
  | UpdateWorkspaceSetting (key : string) (value : setting) (fsPath : string)
  | UpdateTasks (folder : WorkspaceFolder) (tasks : list ITask)
  (* target store *)
  | OnTreeItemCreate
  | DisposeListener
  | GetDefaultWebAppToDeploy
  | ShowTreeItemPicker (contextValue : string)
  | GetDeployFsPath (target : Target) (javaFileExtension : option string)
  | FindFilesByFileExtension (fsPath ext : string)
  | PromptToSaveDeployDefaults (item : SiteTreeItem) (workspacePath deployPath : string)
  (* remote site *)
  | GetSiteConfig (item : SiteTreeItem)
  | ConfigureJavaSEAppSettings (item : SiteTreeItem)
  | PromptScmDoBuildDeploy (item : SiteTreeItem) (fsPath runtime : string)
  | RunPreDeployTask (deployPath : string) (scm : option string) (prefix : string)
  | CancelWebsiteValidation (item : SiteTreeItem)
  | AppserviceDeploy (item : SiteTreeItem) (deployPath : string)
  | ValidateWebSite (correlationId : string) (item : SiteTreeItem)
  (* a call that is started and not awaited *)
  | Detached (call : Event).

(** Calls answered by the remote service. *)
Fixpoint is_remote (e : Event) : bool :=
  match e with
  | ShowTreeItemPicker _ | GetDefaultWebAppToDeploy
  | GetSiteConfig _ | ConfigureJavaSEAppSettings _ | PromptScmDoBuildDeploy _ _ _
  | AppserviceDeploy _ _ | ValidateWebSite _ _ => true
  | Detached call => is_remote call
  | _ => false
  end.

Definition is_fs (e : Event) : bool :=
  match e with
  | FsReaddirSync _ | FsReaddir _ | FsExistsSync _ | FsStat _ | FsReadFile _
  | FsPathExists _ => true
  | _ => false
  end.

Definition is_prompt (e : Event) : bool :=
  match e with
  | ShowWarningMessage _ _ | ShowQuickPick _ => true
  | _ => false
  end.

Definition is_write (e : Event) : bool :=
  match e with
  | UpdateWorkspaceSetting _ _ _ | UpdateTasks _ _ => true
  | _ => false
  end.

Definition writes_setting (key : string) (e : Event) : bool :=
  match e with
  | UpdateWorkspaceSetting k _ _ => String.eqb k key
  | _ => false
  end.

Definition is_confirmation (e : Event) : bool :=
  match e with
  | ShowWarningMessage _ _ => true
  | _ => false
  end.

(** ** State *)

(** The mutable data the two functions share with their callers: the
    workspace preference store (keyed by workspace path and setting name),
    the task file of each workspace folder, the telemetry property bag,
    and the two mutable fields of the wizard context. *)
Record St : Type := {
  settings : gmap (string * string) setting;
  tasksJson : gmap string (list ITask);
  telemetry : gmap string string;
  deployFsPath : string;
  deployedWithConfigs : bool
}.

Definition set_settings (f : gmap (string * string) setting -> gmap (string * string) setting)
  (s : St) : St :=
  {| settings := f (settings s); tasksJson := tasksJson s; telemetry := telemetry s;
     deployFsPath := deployFsPath s; deployedWithConfigs := deployedWithConfigs s |}.

Definition set_tasksJson (f : gmap string (list ITask) -> gmap string (list ITask))
  (s : St) : St :=
  {| settings := settings s; tasksJson := f (tasksJson s); telemetry := telemetry s;
     deployFsPath := deployFsPath s; deployedWithConfigs := deployedWithConfigs s |}.

Definition set_telemetry (f : gmap string string -> gmap string string) (s : St) : St :=
  {| settings := settings s; tasksJson := tasksJson s; telemetry := f (telemetry s);
     deployFsPath := deployFsPath s; deployedWithConfigs := deployedWithConfigs s |}.

Definition set_deployFsPath (p : string) (s : St) : St :=
  {| settings := settings s; tasksJson := tasksJson s; telemetry := telemetry s;
     deployFsPath := p; deployedWithConfigs := deployedWithConfigs s |}.

Definition set_deployedWithConfigs (b : bool) (s : St) : St :=
  {| settings := settings s; tasksJson := tasksJson s; telemetry := telemetry s;
     deployFsPath := deployFsPath s; deployedWithConfigs := b |}.

(** ** The monad of asynchronous functions *)

(** An [async] function maps the state at its call to the calls it made,
    the state it left, and either the exception it rejected with or the
    value it resolved to. *)
Record Outcome (A : Type) : Type := {
  trace : list Event;
  final : St;
  result : exn + A
}.
Arguments trace {A} _.
Arguments final {A} _.
Arguments result {A} _.
Arguments Build_Outcome {A} _ _ _.

Definition M (A : Type) : Type := St -> Outcome A.

Global Instance M_ret : MRet M := fun A (a : A) s =>
  {| trace := []; final := s; result := inr a |}.

Global Instance M_bind : MBind M := fun A B (k : A -> M B) (m : M A) s =>
  let o := m s in
  match result o with
  | inl e => {| trace := trace o; final := final o; result := inl e |}
  | inr a =>
      let o' := k a (final o) in
      {| trace := (trace o ++ trace o')%list; final := final o'; result := result o' |}
  end.

Definition throw {A : Type} (e : exn) : M A := fun s =>
  {| trace := []; final := s; result := inl e |}.

Definition emit (e : Event) : M unit := fun s =>
  {| trace := [e]; final := s; result := inr tt |}.

Definition gets {A : Type} (f : St -> A) : M A := fun s =>
  {| trace := []; final := s; result := inr (f s) |}.

Definition modify (f : St -> St) : M unit := fun s =>
  {| trace := []; final := f s; result := inr tt |}.

(** [try { body } catch (err) { handler(err) }]. *)
Definition try_catch {A : Type} (body : M A) (handler : exn -> M A) : M A := fun s =>
  let o := body s in
  match result o with
  | inl e =>
      let o' := handler e (final o) in
      {| trace := (trace o ++ trace o')%list; final := final o'; result := result o' |}
  | inr a => o
  end.

(** [try { body } finally { cleanup }], for a cleanup that does not throw. *)
Definition try_finally {A : Type} (body : M A) (cleanup : M unit) : M A := fun s =>
  let o := body s in
  let o' := cleanup (final o) in
  {| trace := trace o ++ trace o'; final := final o'; result := result o |}.

(** Awaiting a collaborator whose answer is [r]. *)
Definition await {A : Type} (e : Event) (r : exn + A) : M A :=
  emit e;;
  match r with
  | inl err => throw err
  | inr a => mret a
  end.

(** Awaiting a collaborator that resolves to nothing or rejects. *)
Definition await_unit (e : Event) (r : option exn) : M unit :=
  emit e;;
  match r with
  | Some err => throw err
  | None => mret tt
  end.

(** ** Collaborators *)

(** The constants of [constants.ts] (and of the [vscode-azureappservice]
    package) that the two functions read.  The module is not among the
    sources, so its values are parameters. *)
Record Constants : Type := {
  configurationSettings_deploySubpath : string;
  configurationSettings_showBuildDuringDeployPrompt : string;
  configurationSettings_defaultWebAppToDeploy : string;
  deploymentFileName : string;
  ScmType_LocalGit : string;
  ScmType_GitHub : string;
  AppServiceDialogResponses_deploy : MessageItem;
  AppServiceDialogResponses_viewOutput : MessageItem;
  extensionPrefix : string;
  showOutputChannelCommandId : string;
  WebAppTreeItem_contextValue : string;
  LinuxRuntimes_node : string;
  LinuxRuntimes_python : string
}.

(** What a target selection answers: the tree items it created while the
    creation listener was registered, and the item it resolved to or the
    exception it rejected with. *)
Record Selection (A : Type) : Type := {
  created : list SiteTreeItem;
  picked : exn + A
}.
Arguments created {A} _.
Arguments picked {A} _.

(** Everything outside the two functions: Node's [path] module, the file
    system, the user, the helper modules of the extension that are not
    among the sources, and the remote service.  An answer of [None] (or
    [inl]) where a value is expected stands for a rejected promise or a
    thrown exception. *)
Record World : Type := {
  constants : Constants;
  (* Node's path module *)
  path_join : list string -> string;
  path_posix_join : list string -> string;
  path_dirname : string -> string;
  path_relative : string -> string -> string;
  (* fs-extra *)
  fs_readdir : string -> option (list string);
  fs_existsSync : string -> bool;
  fs_stat_isDirectory : string -> option bool;
  fs_readFile : string -> option string;
  fs_pathExists : string -> bool;
  (* the user: index of the button pressed, None when the dialog is dismissed *)
  ui_warning : string -> list MessageItem -> option nat;
  ui_quickPick : list string -> string -> exn + string;
  (* helper modules of the extension *)
  isPathEqual : string -> string -> bool;
  isJavaRuntime : option string -> bool;
  getArtifactTypeByJavaRuntime : option string -> string;
  getDeployFsPath : Target -> option string -> exn + string;
  getContainingWorkspace : string -> option WorkspaceFolder;
  getDefaultWebAppToDeploy : WorkspaceFolder -> string -> Selection (option SiteTreeItem * bool);
  showTreeItemPicker : string -> Selection SiteTreeItem;
  getRandomHexString : string;
  findFilesByFileExtension : string -> string -> exn + list string;
  openTextDocument : string -> option exn;
  executeCommand : string -> option exn;
  (* the workspace preference store: a write is accepted or rejected *)
  settings_update : string -> setting -> string -> option exn;
  (* the remote site *)
  getSiteConfig : SiteTreeItem -> exn + SiteConfigResource;
  configureJavaSEAppSettings : SiteTreeItem -> option exn;
  promptScmDoBuildDeploy : SiteTreeItem -> string -> string -> option exn;
  runPreDeployTask : string -> option string -> string -> option exn;
  appservice_deploy : SiteTreeItem -> string -> option exn
}.

Definition fs_error : exn := Rejected "fs".

Definition of_option {A : Type} (o : option A) : exn + A :=
  match o with
  | Some a => inr a
  | None => inl fs_error
  end.

(** Modelled from the spec: the workspace preference store
    ([vsCodeConfig/settings.ts] is not among the sources),
    [get(key, scope) -> value?] and [set(key, value, scope) -> void],
    scoped per workspace root.  A write may fail (the specification has
    persistence writes best-effort); the callers await it without a
    handler, so a rejected write ends the caller with the error of the
    store, and the preference is left as it was. *)
Definition getWorkspaceSetting (key fsPath : string) : M (option setting) :=
  gets (fun s => settings s !! (fsPath, key)).

Definition updateWorkspaceSetting (w : World) (key : string) (value : setting)
  (fsPath : string) : M unit :=
  await_unit (UpdateWorkspaceSetting key value fsPath) (settings_update w key value fsPath);;
  modify (set_settings (<[(fsPath, key) := value]>)).

(** Modelled from the spec: the task registry ([vsCodeConfig/tasks.ts] is
    not among the sources), [listTasks(workspace) -> Task[]] and
    [replaceTasks(workspace, Task[])]. *)
Definition getTasks (folder : WorkspaceFolder) : M (list ITask) :=
  gets (fun s => default [] (tasksJson s !! uri_fsPath folder)).

Definition updateTasks (folder : WorkspaceFolder) (tasks : list ITask) : M unit :=
  emit (UpdateTasks folder tasks);;
  modify (set_tasksJson (<[uri_fsPath folder := tasks]>)).

(** Modelled from the spec: the prompt surface ([ext.ui] is not among the
    sources) returns the user's selection or a cancellation signal; the
    signal is raised when the dialog is dismissed or its Cancel button is
    pressed. *)
Definition chosen (w : World) (message : string) (items : list MessageItem)
  : option MessageItem :=
  match ui_warning w message items with
  | None => None
  | Some i =>
      match items !! i with
      | None => None
      | Some item => if decide (item = DialogResponses.cancel) then None else Some item
      end
  end.

Definition showWarningMessage (w : World) (message : string) (items : list MessageItem)
  : M MessageItem :=
  emit (ShowWarningMessage message items);;
  match chosen w message items with
  | None => throw UserCancelledError
  | Some item => mret item
  end.

Definition set_property (key value : string) : M unit :=
  modify (set_telemetry (<[key := value]>)).

(** ** The two regular expressions of [setPreDeployTaskForDotnet.ts] *)

Module Regex.

(** Case folding of the [i] flag, on the letters the patterns contain. *)
Definition fold_case (c : ascii) : ascii :=
  let n := nat_of_ascii c in
  if ((65 <=? n) && (n <=? 90))%nat then ascii_of_nat (n + 32) else c.

Fixpoint eqb_ci (a b : string) : bool :=
  match a, b with
  | EmptyString, EmptyString => true
  | String x a', String y b' => Ascii.eqb (fold_case x) (fold_case y) && eqb_ci a' b'
  | _, _ => false
  end.

(** [/\.csproj$/i.test(f)]: the pattern is tried at each position of [f]
    and has to reach the end of the input. *)
Fixpoint test_csproj (f : string) : bool :=
  match f with
  | EmptyString => false
  | String _ f' => eqb_ci f ".csproj" || test_csproj f'
  end.

(** The characters [.] does not match: line feed and carriage return
    (the two line terminators among 8-bit code units). *)
Definition is_line_terminator (c : ascii) : bool :=
  let n := nat_of_ascii c in ((n =? 10) || (n =? 13))%nat.

(** [strip p s] is the rest of [s] after the literal [p], if [s] starts
    with it. *)
Fixpoint strip (p s : string) : option string :=
  match p, s with
  | EmptyString, _ => Some s
  | String x p', String y s' => if Ascii.eqb x y then strip p' s' else None
  | String _ _, EmptyString => None
  end.

(** The capture group followed by the literal [close], matched at the
    start of [s]: the greedy star takes the longest run of non-terminator
    characters after which [close] follows. *)
Fixpoint greedy_until (close s : string) : option string :=
  let here := match strip close s with Some _ => Some EmptyString | None => None end in
  match s with
  | EmptyString => here
  | String c s' =>
      if is_line_terminator c then here
      else match greedy_until close s' with
           | Some captured => Some (String c captured)
           | None => here
           end
  end.

Definition match_at (s : string) : option string :=
  match strip "<TargetFramework>" s with
  | Some rest => greedy_until "</TargetFramework>" rest
  | None => None
  end.

(** [s.match] with the pattern that captures what stands between
    [<TargetFramework>] and [</TargetFramework>]: the capture group of the
    leftmost match, [None] for [null]. *)
Fixpoint match_TargetFramework (s : string) : option string :=
  match match_at s with
  | Some captured => Some captured
  | None =>
      match s with
      | EmptyString => None
      | String _ s' => match_TargetFramework s'
      end
  end.

End Regex.

(** ** [setPreDeployTaskForDotnet.ts] *)

(** The nested function [checkFolderForCsproj] of [tryGetCsprojFile]. *)
Definition checkFolderForCsproj (w : World) (filePath : string) : M (list string) :=
  files ← await (FsReaddirSync filePath) (of_option (fs_readdir w filePath));
  let filePaths := map (fun f => path_join w [filePath; f]) files in
  mret (List.filter Regex.test_csproj filePaths).

(** The callbacks of [Promise.all(subfolders.map(async folder => ...))].
    Each callback only reads the file system and appends what it found to
    [projectFiles]; once its [stat] has completed it runs to its assignment
    without another callback in between, so the callbacks act one after the
    other, in the order in which their [stat]s complete.  That order is
    taken to be the order of the listing; the answer does not depend on it
    (lemma [scanSubfolders_any_order]). *)
Fixpoint scanSubfolders (w : World) (projectPath : string) (subfolders : list string)
  (projectFiles : list string) : M (list string) :=
  match subfolders with
  | [] => mret projectFiles
  | folder :: rest =>
      let filePath := path_join w [projectPath; folder] in
      emit (FsExistsSync filePath);;
      projectFiles' ←
        (if fs_existsSync w filePath then
           isDirectory ← await (FsStat filePath) (of_option (fs_stat_isDirectory w filePath));
           if isDirectory : bool then
             found ← checkFolderForCsproj w filePath;
             mret (projectFiles ++ found)%list
           else mret projectFiles
         else mret projectFiles);
      scanSubfolders w projectPath rest projectFiles'
  end.

(** Lines 80 to 91 of [tryGetCsprojFile]: the value of [projectFiles] once
    the root and, if need be, its subfolders have been listed. *)
Definition findCsprojFiles (w : World) (projectPath : string) : M (list string) :=
  projectFiles ← checkFolderForCsproj w projectPath;
  if (length projectFiles =? 0)%nat then
    subfolders ← await (FsReaddir projectPath) (of_option (fs_readdir w projectPath));
    scanSubfolders w projectPath subfolders projectFiles
  else mret projectFiles.

Definition tryGetCsprojFile (w : World) (projectPath : string) : M (option string) :=
  projectFiles ← findCsprojFiles w projectPath;
  set_property "numOfCsprojFiles" (pretty (length projectFiles));;
  mret (if (length projectFiles =? 1)%nat then projectFiles !! 0%nat else None).

Definition tryGetTargetFramework (w : World) (projFilePath : string) : M (option string) :=
  projContents ← await (FsReadFile projFilePath) (of_option (fs_readFile w projFilePath));
  mret (Regex.match_TargetFramework projContents).

Definition generateDotnetTasks (w : World) (subfolder : string) : list ITask :=
  let cwd := path_posix_join w ["${workspaceFolder}"; subfolder] in
  let buildTask :=
    {| label := Some "build"; command := "dotnet"; type := "process";
       args := ["build"; cwd; "/property:GenerateFullPaths=true";
                "/consoleloggerparameters:NoSummary"];
       problemMatcher := "$msCompile" |} in
  let publishTask :=
    {| label := Some "publish"; command := "dotnet"; type := "process";
       args := ["publish"; cwd; "/property:GenerateFullPaths=true";
                "/consoleloggerparameters:NoSummary"];
       problemMatcher := "$msCompile" |} in
  let watchTask :=
    {| label := Some "watch"; command := "dotnet"; type := "process";
       args := ["watch"; "run"; cwd; "/property:GenerateFullPaths=true";
                "/consoleloggerparameters:NoSummary"];
       problemMatcher := "$msCompile" |} in
  [buildTask; publishTask; watchTask].

(** [t1.label === t2.label]. *)
Definition same_label (t1 t2 : ITask) : bool := bool_decide (label t1 = label t2).

Definition preDeployTaskSetting : string := "preDeployTask".
Definition showPreDeployWarningSetting : string := "showPreDeployWarning".
Definition dontShowAgainButton : MessageItem := {| title := "No, and don't show again" |}.

(** [context] is the wizard context: its [workspace] is the argument, its
    [deployFsPath] and its telemetry live in the state. *)
Definition setPreDeployTaskForDotnet (w : World) (context_workspace : WorkspaceFolder)
  : M unit :=
  let workspaceFspath := uri_fsPath context_workspace in
  showPreDeployWarning ← getWorkspaceSetting showPreDeployWarningSetting workspaceFspath;
  preDeployTask ← getWorkspaceSetting preDeployTaskSetting workspaceFspath;
  deploySubpathSetting ←
    getWorkspaceSetting (configurationSettings_deploySubpath (constants w)) workspaceFspath;
  if negb (truthy showPreDeployWarning) || truthy preDeployTask || truthy deploySubpathSetting
  then mret tt
  else
    context_deployFsPath ← gets deployFsPath;
    if negb (isPathEqual w context_deployFsPath workspaceFspath) then mret tt
    else
      csprojFile ← tryGetCsprojFile w workspaceFspath;
      match csprojFile with
      | Some csprojFile =>
          if Js.truthy_str csprojFile then
            targetFramework ← tryGetTargetFramework w csprojFile;
            set_property "tfw"
              (if Js.truthy_opt targetFramework then default EmptyString targetFramework else "N/A");;
            match targetFramework with
            | Some targetFramework =>
                if negb (Js.truthy_str targetFramework) then mret tt
                else
                  let notConfiguredForDeploy :=
                    "Required assets to build and deploy are missing from " +:+ Js.dquote
                    +:+ name context_workspace +:+ Js.dquote +:+ "? Add them?" in
                  input ← showWarningMessage w notConfiguredForDeploy
                            [DialogResponses.yes; dontShowAgainButton];
                  if decide (input = dontShowAgainButton) then
                    updateWorkspaceSetting w showPreDeployWarningSetting (SBool false)
                      workspaceFspath
                  else
                    let subfolder :=
                      path_dirname w (path_relative w workspaceFspath csprojFile) in
                    let deploySubpath :=
                      path_posix_join w
                        [subfolder; "bin"; "Release"; targetFramework; "publish"] in
                    updateWorkspaceSetting w preDeployTaskSetting (SStr "publish")
                      workspaceFspath;;
                    updateWorkspaceSetting w
                      (configurationSettings_deploySubpath (constants w))
                      (SStr deploySubpath) workspaceFspath;;
                    modify (set_deployFsPath (path_join w [workspaceFspath; deploySubpath]));;
                    existingTasks ← getTasks context_workspace;
                    let dotnetTasks := generateDotnetTasks w subfolder in
                    let dotnetTasks :=
                      List.filter
                        (fun t1 => negb (bool_decide
                           (is_Some (List.find (fun t2 => same_label t1 t2) existingTasks))))
                        dotnetTasks in
                    let newTasks := (existingTasks ++ dotnetTasks)%list in
                    updateTasks context_workspace newTasks
            | None => mret tt
            end
          else mret tt
      | None => mret tt
      end.

(** ** [deploy.ts] *)

Definition NoWorkspaceFound : exn :=
  Error "Failed to deploy because the path is not part of an open workspace. Open in a workspace and try again.".

Definition resetDefault : MessageItem := {| title := "Reset default" |}.
Definition browseWebsite : MessageItem := {| title := "Browse Website" |}.
Definition streamLogs : MessageItem := {| title := "Stream Logs" |}.

(** [parseError(err).isUserCancelledError]. *)
Definition isUserCancelledError (err : exn) : bool :=
  match err with
  | UserCancelledError => true
  | _ => false
  end.

(** [getDefaultWebAppToDeploy(deployContext) || showTreeItemPicker(...)],
    with the listener of [onTreeItemCreate] pushing every created item on
    [newNodes].  The default lookup receives the wizard context and decides
    its [deployedWithConfigs] field. *)
Definition selectTarget (w : World) (workspace : WorkspaceFolder) (fsPath : string)
  : M (SiteTreeItem * list SiteTreeItem) :=
  let byDefault := getDefaultWebAppToDeploy w workspace fsPath in
  '(defaultNode, withConfigs) ← await GetDefaultWebAppToDeploy (picked byDefault);
  modify (set_deployedWithConfigs withConfigs);;
  match defaultNode with
  | Some node => mret (node, created byDefault)
  | None =>
      let contextValue := WebAppTreeItem_contextValue (constants w) in
      let byPicker := showTreeItemPicker w contextValue in
      node ← await (ShowTreeItemPicker contextValue) (picked byPicker);
      mret (node, (created byDefault ++ created byPicker)%list)
  end.

(** The loop [for (const newApp of newNodes)]: the result is the value of
    [confirmDeployment] after the loop. *)
Fixpoint stifleForNewNodes (node : SiteTreeItem) (newNodes : list SiteTreeItem)
  (confirmDeployment : bool) : M bool :=
  match newNodes with
  | [] => mret confirmDeployment
  | newApp :: rest =>
      if String.eqb (fullId newApp) (fullId node) then
        emit (Detached (GetSiteConfig newApp));;
        stifleForNewNodes node rest false
      else stifleForNewNodes node rest confirmDeployment
  end.

(** Lines 125 to 150; the result tells whether the function returned from
    inside the block. *)
Definition confirmationGate (w : World) (confirmDeployment : bool)
  (siteConfig : SiteConfigResource) (node : SiteTreeItem) (workspace : WorkspaceFolder)
  : M bool :=
  if confirmDeployment
     && negb (Js.strict_eq_str (scmType siteConfig) (ScmType_LocalGit (constants w)))
     && Js.strict_neq_object_string siteConfig (ScmType_GitHub (constants w))
  then
    let warning :=
      "Are you sure you want to deploy to " +:+ Js.dquote +:+ client_fullName node
      +:+ Js.dquote
      +:+ "? This will overwrite any previous deployment and cannot be undone." in
    set_property "cancelStep" "confirmDestructiveDeployment";;
    withConfigs ← gets deployedWithConfigs;
    let items :=
      ([AppServiceDialogResponses_deploy (constants w)]
       ++ (if withConfigs : bool then [resetDefault] else [])
       ++ [DialogResponses.cancel])%list in
    emit (Delay 500);;
    result ← showWarningMessage w warning items;
    if decide (result = resetDefault) then
      let settingsPath := path_join w [uri_fsPath workspace; ".vscode"; "settings.json"] in
      await_unit (OpenTextDocument settingsPath) (openTextDocument w settingsPath);;
      emit (Detached (ShowTextDocument settingsPath));;
      updateWorkspaceSetting w (configurationSettings_defaultWebAppToDeploy (constants w))
        (SStr EmptyString) (uri_fsPath workspace);;
      await_unit (ExecuteCommand "appService.Deploy") (executeCommand w "appService.Deploy");;
      mret true
    else
      set_property "cancelStep" EmptyString;;
      mret false
  else mret false.

(** Lines 110 to 123. *)
Definition buildDuringDeployPrompt (w : World) (siteConfig : SiteConfigResource)
  (node : SiteTreeItem) (workspace : WorkspaceFolder) : M unit :=
  let fsPath := uri_fsPath workspace in
  showPrompt ←
    getWorkspaceSetting (configurationSettings_showBuildDuringDeployPrompt (constants w)) fsPath;
  if truthy showPrompt then
    if Js.truthy_opt (linuxFxVersion siteConfig) && Js.strict_eq_str (scmType siteConfig) "None"
    then
      let deploymentFile := path_join w [fsPath; deploymentFileName (constants w)] in
      emit (FsPathExists deploymentFile);;
      if negb (fs_pathExists w deploymentFile) then
        let linuxFxVersion := Js.toLowerCase (default EmptyString (linuxFxVersion siteConfig)) in
        if Js.startsWith linuxFxVersion (LinuxRuntimes_node (constants w)) then
          await_unit (PromptScmDoBuildDeploy node fsPath (LinuxRuntimes_node (constants w)))
            (promptScmDoBuildDeploy w node fsPath (LinuxRuntimes_node (constants w)))
        else if Js.startsWith linuxFxVersion (LinuxRuntimes_python (constants w)) then
          await_unit (PromptScmDoBuildDeploy node fsPath (LinuxRuntimes_python (constants w)))
            (promptScmDoBuildDeploy w node fsPath (LinuxRuntimes_python (constants w)))
        else mret tt
      else mret tt
    else mret tt
  else mret tt.

(** Lines 100 to 108. *)
Definition javaArtifact (w : World) (siteConfig : SiteConfigResource) (node : SiteTreeItem)
  : M unit :=
  if isJavaRuntime w (linuxFxVersion siteConfig) then
    let extension := getArtifactTypeByJavaRuntime w (linuxFxVersion siteConfig) in
    fsPath ← gets deployFsPath;
    javaArtifactFiles ←
      await (FindFilesByFileExtension fsPath extension)
        (findFilesByFileExtension w fsPath extension);
    (if (0 <? length javaArtifactFiles)%nat then
       let placeHolder := "Select the " +:+ extension +:+ " file to deploy..." in
       data ← await (ShowQuickPick placeHolder) (ui_quickPick w javaArtifactFiles placeHolder);
       modify (set_deployFsPath data)
     else mret tt);;
    await_unit (ConfigureJavaSEAppSettings node) (configureJavaSEAppSettings w node)
  else mret tt.

(** Lines 152 to 187. *)
Definition transfer (w : World) (siteConfig : SiteConfigResource) (node : SiteTreeItem)
  (workspace : WorkspaceFolder) (correlationId : string) : M unit :=
  withConfigs ← gets deployedWithConfigs;
  (if negb (withConfigs : bool) then
     fsPath ← gets deployFsPath;
     emit (Detached (PromptToSaveDeployDefaults node (uri_fsPath workspace) fsPath))
   else mret tt);;
  fsPath ← gets deployFsPath;
  await_unit (RunPreDeployTask fsPath (scmType siteConfig) (extensionPrefix (constants w)))
    (runPreDeployTask w fsPath (scmType siteConfig) (extensionPrefix (constants w)));;
  emit (CancelWebsiteValidation node);;
  fsPath ← gets deployFsPath;
  await_unit (AppserviceDeploy node fsPath) (appservice_deploy w node fsPath);;
  let deployComplete :=
    "Deployment to " +:+ Js.dquote +:+ client_fullName node +:+ Js.dquote +:+ " completed." in
  emit (OutputAppendLine deployComplete);;
  emit (Detached (ShowInformationMessage deployComplete
          [browseWebsite; streamLogs; AppServiceDialogResponses_viewOutput (constants w)]));;
  emit (Detached (ValidateWebSite correlationId node)).

(** Lines 37 to 41: [node] and [siteConfig] as the entry point leaves
    them. *)
Definition entryPoint (w : World) (target : Target)
  : M (option SiteTreeItem * option SiteConfigResource) :=
  match target with
  | TNode item =>
      siteConfig ← await (GetSiteConfig item) (getSiteConfig w item);
      mret (Some item, Some siteConfig)
  | _ => mret (None, None)
  end.

(** Lines 59 to 75: the target and the items created while it was
    selected. *)
Definition resolveNode (w : World) (node : option SiteTreeItem)
  (workspace : WorkspaceFolder) (fsPath : string) : M (SiteTreeItem * list SiteTreeItem) :=
  match node with
  | Some node => mret (node, [])
  | None =>
      emit OnTreeItemCreate;;
      try_finally
        (try_catch (selectTarget w workspace fsPath)
           (fun err2 =>
              (if isUserCancelledError err2 then
                 set_property "cancelStep"
                   ("showTreeItemPicker:" +:+ WebAppTreeItem_contextValue (constants w))
               else mret tt);;
              throw err2))
        (emit DisposeListener)
  end.

(** Lines 77 to 188: what [deploy] does once the target is resolved. *)
Definition deployTo (w : World) (confirmDeployment : bool) (node : SiteTreeItem)
  (newNodes : list SiteTreeItem) (siteConfig : option SiteConfigResource)
  (workspace : WorkspaceFolder) : M unit :=
  confirmDeployment ←
    (if (0 <? length newNodes)%nat
     then stifleForNewNodes node newNodes confirmDeployment
     else mret confirmDeployment);
  let correlationId := getRandomHexString w in
  set_property "correlationId" correlationId;;
  siteConfig ←
    match siteConfig with
    | Some siteConfig => mret siteConfig
    | None => await (GetSiteConfig node) (getSiteConfig w node)
    end;
  javaArtifact w siteConfig node;;
  buildDuringDeployPrompt w siteConfig node workspace;;
  returned ← confirmationGate w confirmDeployment siteConfig node workspace;
  if returned : bool then mret tt
  else transfer w siteConfig node workspace correlationId.

(** Lines 43 to 46: the value of [javaFileExtension]. *)
Definition javaFileExtensionOf (w : World) (siteConfig : option SiteConfigResource)
  : option string :=
  match siteConfig with
  | Some siteConfig =>
      if isJavaRuntime w (linuxFxVersion siteConfig)
      then Some (getArtifactTypeByJavaRuntime w (linuxFxVersion siteConfig))
      else None
  | None => None
  end.

Definition deploy (w : World) (confirmDeployment : bool) (target : Target) : M unit :=
  set_property "deployedWithConfigs" "false";;
  '(node, siteConfig) ← entryPoint w target;
  let javaFileExtension := javaFileExtensionOf w siteConfig in
  fsPath ← await (GetDeployFsPath target javaFileExtension)
             (getDeployFsPath w target javaFileExtension);
  match getContainingWorkspace w fsPath with
  | None => throw NoWorkspaceFound
  | Some workspace =>
      modify (set_deployFsPath fsPath);;
      modify (set_deployedWithConfigs false);;
      '(node, newNodes) ← resolveNode w node workspace fsPath;
      deployTo w confirmDeployment node newNodes siteConfig workspace
  end.

(** ** A concrete world *)

(** Node's [path.posix], on the paths the examples use. *)
Module PosixPath.

(** The segments of a path with [.] and empty segments dropped and [..]
    resolved against the segment before it. *)
Definition push_segment (stack : list string) (seg : string) : list string :=
  if String.eqb seg EmptyString || String.eqb seg "." then stack
  else if String.eqb seg ".." then
    match stack with
    | [] => [".."]
    | top :: below => if String.eqb top ".." then seg :: stack else below
    end
  else seg :: stack.

Definition segments (p : string) : list string :=
  rev (fold_left push_segment (Js.split "/" p) []).

Definition normalize (p : string) : string :=
  let body := String.concat "/" (segments p) in
  if Js.startsWith p "/" then "/" +:+ body
  else if String.eqb body EmptyString then "." else body.

Definition join (parts : list string) : string :=
  normalize (String.concat "/" (List.filter Js.truthy_str parts)).

Definition dirname (p : string) : string :=
  match rev (segments p) with
  | [] => if Js.startsWith p "/" then "/" else "."
  | _ :: above =>
      let body := String.concat "/" (rev above) in
      if Js.startsWith p "/" then "/" +:+ body
      else if String.eqb body EmptyString then "." else body
  end.

Fixpoint strip_common (a b : list string) : list string * list string :=
  match a, b with
  | x :: a', y :: b' => if String.eqb x y then strip_common a' b' else (a, b)
  | _, _ => (a, b)
  end.

Definition relative (from to : string) : string :=
  let '(up, down) := strip_common (segments from) (segments to) in
  String.concat "/" (map (fun _ => "..") up ++ down)%list.

End PosixPath.

Definition demoConstants : Constants := {|
  configurationSettings_deploySubpath := "deploySubpath";
  configurationSettings_showBuildDuringDeployPrompt := "showBuildDuringDeployPrompt";
  configurationSettings_defaultWebAppToDeploy := "defaultWebAppToDeploy";
  deploymentFileName := ".deployment";
  ScmType_LocalGit := "LocalGit";
  ScmType_GitHub := "GitHub";
  AppServiceDialogResponses_deploy := {| title := "Deploy" |};
  AppServiceDialogResponses_viewOutput := {| title := "View Output" |};
  extensionPrefix := "appService";
  showOutputChannelCommandId := "appService.showOutputChannel";
  WebAppTreeItem_contextValue := "appService";
  LinuxRuntimes_node := "node";
  LinuxRuntimes_python := "python"
|}.

Definition demoWorkspace : WorkspaceFolder := {| uri_fsPath := "/ws"; name := "ws" |}.

Definition demoSite : SiteTreeItem :=
  {| fullId := "/subscriptions/s1/resourceGroups/rg/providers/Microsoft.Web/sites/app";
     client_fullName := "app" |}.

Definition demoCsproj : string :=
  "<Project Sdk='Microsoft.NET.Sdk.Web'>" +:+ Js.newline +:+
  "  <PropertyGroup>" +:+ Js.newline +:+
  "    <TargetFramework>net6.0</TargetFramework>" +:+ Js.newline +:+
  "  </PropertyGroup>" +:+ Js.newline +:+
  "</Project>".

(** A workspace [/ws] whose root lists [rootFiles], among them the project
    file [App.csproj] and the folder [src]; a site whose configuration is
    fetched with source control type [scm]; a user who presses the button
    of index [button] in every modal dialog; a default target [byDefault]
    and a target picker that answers [selection]; a deployment path
    [deployPath] when the target is not a file. *)
Definition demoWorld (scm : option string) (button : option nat)
  (rootFiles : list string) (selection : Selection SiteTreeItem)
  (byDefault : option SiteTreeItem) (deployPath : string) : World := {|
  constants := demoConstants;
  path_join := PosixPath.join;
  path_posix_join := PosixPath.join;
  path_dirname := PosixPath.dirname;
  path_relative := PosixPath.relative;
  fs_readdir := fun p =>
    if String.eqb p "/ws" then Some rootFiles
    else if String.eqb p "/ws/src" then Some ["Program.cs"; "Api.csproj"]
    else None;
  fs_existsSync := fun p => String.eqb p "/ws/src" || String.eqb p "/ws/App.csproj";
  fs_stat_isDirectory := fun p =>
    if String.eqb p "/ws/src" then Some true
    else if String.eqb p "/ws/App.csproj" then Some false
    else None;
  fs_readFile := fun p =>
    if String.eqb p "/ws/App.csproj" || String.eqb p "/ws/src/Api.csproj"
    then Some demoCsproj else None;
  fs_pathExists := fun _ => false;
  ui_warning := fun _ _ => button;
  ui_quickPick := fun _ _ => inl UserCancelledError;
  isPathEqual := String.eqb;
  isJavaRuntime := fun _ => false;
  getArtifactTypeByJavaRuntime := fun _ => "jar";
  getDeployFsPath := fun target _ =>
    match target with
    | TUri p => inr p
    | _ => inr deployPath
    end;
  getContainingWorkspace := fun p =>
    if Js.startsWith p "/ws" then Some demoWorkspace else None;
  getDefaultWebAppToDeploy := fun _ _ =>
    {| created := [];
       picked := inr (byDefault, match byDefault with Some _ => true | None => false end) |};
  showTreeItemPicker := fun _ => selection;
  getRandomHexString := "c0ffee";
  findFilesByFileExtension := fun _ _ => inr [];
  openTextDocument := fun _ => None;
  executeCommand := fun _ => None;
  settings_update := fun _ _ _ => None;
  getSiteConfig := fun _ => inr {| linuxFxVersion := Some "DOTNETCORE|6.0"; scmType := scm |};
  configureJavaSEAppSettings := fun _ => None;
  promptScmDoBuildDeploy := fun _ _ _ => None;
  runPreDeployTask := fun _ _ _ => None;
  appservice_deploy := fun _ _ => None
|}.

Definition emptySt : St := {|
  settings := ∅; tasksJson := ∅; telemetry := ∅; deployFsPath := EmptyString; deployedWithConfigs := false
|}.

(** The state of a workspace [/ws] that was never configured for
    deployment and whose root is being deployed. *)
Definition demoSt : St := {|
  settings := {[ ("/ws", "showPreDeployWarning") := SBool true ]};
  tasksJson := ∅; telemetry := ∅; deployFsPath := "/ws"; deployedWithConfigs := false
|}.

Definition pickExisting : Selection SiteTreeItem := {| created := []; picked := inr demoSite |}.
Definition pickCreated : Selection SiteTreeItem :=
  {| created := [demoSite]; picked := inr demoSite |}.

(** ** Vocabulary of the properties *)

(** The part of the state that outlives a deployment: the preference
    store, the task files, and the path the wizard context carries. *)
Definition persisted (s : St)
  : gmap (string * string) setting * gmap string (list ITask) * string * bool :=
  (settings s, tasksJson s, deployFsPath s, deployedWithConfigs s).

(** [post m s Q]: run from [s], the computation [m] makes calls, leaves a
    state and yields a result that satisfy [Q]. *)
Definition post {A : Type} (m : M A) (s : St) (Q : list Event → St → exn + A → Prop) : Prop :=
  Q (trace (m s)) (final (m s)) (result (m s)).

(** A computation that only reads the file system. *)
Definition reads_only {A : Type} (m : M A) : Prop :=
  ∀ s, Forall (fun e => is_fs e = true) (trace (m s)) ∧ persisted (final (m s)) = persisted s.

(** The keys of the three settings of the pre-deploy policy are pairwise
    distinct ([preDeployTask] and [showPreDeployWarning] are literals of
    the source, the third comes from [constants.ts]). *)
Definition distinct_keys (c : Constants) : Prop :=
  configurationSettings_deploySubpath c ≠ preDeployTaskSetting
  ∧ configurationSettings_deploySubpath c ≠ showPreDeployWarningSetting.

(** The prompt of the pre-deploy policy, as the source builds it. *)
Definition notConfiguredForDeploy (workspace : WorkspaceFolder) : string :=
  "Required assets to build and deploy are missing from " +:+ Js.dquote
  +:+ name workspace +:+ Js.dquote +:+ "? Add them?".

Definition preDeployPrompt (workspace : WorkspaceFolder) : Event :=
  ShowWarningMessage (notConfiguredForDeploy workspace)
    [DialogResponses.yes; dontShowAgainButton].

(** What the callback of [Promise.all] for [folder] appends to
    [projectFiles]: the project files of the folder if it exists and is a
    directory. *)
Definition foundIn (w : World) (projectPath folder : string) : exn + list string :=
  let filePath := path_join w [projectPath; folder] in
  if fs_existsSync w filePath then
    match fs_stat_isDirectory w filePath with
    | Some true =>
        match fs_readdir w filePath with
        | Some files =>
            inr (List.filter Regex.test_csproj
                   (map (fun f => path_join w [filePath; f]) files))
        | None => inl fs_error
        end
    | Some false => inr []
    | None => inl fs_error
    end
  else inr [].

(** The callbacks completed in the order [subfolders]. *)
Fixpoint completed (w : World) (projectPath : string) (subfolders : list string)
  (projectFiles : list string) : exn + list string :=
  match subfolders with
  | [] => inr projectFiles
  | folder :: rest =>
      match foundIn w projectPath folder with
      | inl e => inl e
      | inr found => completed w projectPath rest (projectFiles ++ found)
      end
  end.

(** Two answers of the scan that agree up to the order of the files. *)
Definition same_files (a b : exn + list string) : Prop :=
  match a, b with
  | inr files, inr files' => files ≡ₚ files'
  | inl _, inl _ => True
  | _, _ => False
  end.

(** The choice at the end of [tryGetCsprojFile]. *)
Definition onlyOne (projectFiles : list string) : option string :=
  if (length projectFiles =? 1)%nat then projectFiles !! 0 else None.

(** Detection succeeded: the scan of the workspace found the single project
    file [csprojFile], whose contents name the target framework
    [targetFramework]. *)
Definition detected (w : World) (workspace : WorkspaceFolder) (s : St)
  (csprojFile targetFramework : string) : Prop :=
  result (findCsprojFiles w (uri_fsPath workspace) s) = inr [csprojFile]
  ∧ ∃ projContents,
      fs_readFile w csprojFile = Some projContents
      ∧ Regex.match_TargetFramework projContents = Some targetFramework
      ∧ targetFramework ≠ EmptyString.

(** The output folder the policy derives for a project file and its
    target framework. *)
Definition derivedSubpath (w : World) (workspaceFspath csprojFile targetFramework : string)
  : string :=
  path_posix_join w
    [path_dirname w (path_relative w workspaceFspath csprojFile);
     "bin"; "Release"; targetFramework; "publish"].

(** The generated tasks whose label no task of [existingTasks] carries. *)
Definition missingTasks (existingTasks generated : list ITask) : list ITask :=
  List.filter (fun t => negb (bool_decide (label t ∈ map label existingTasks))) generated.

(** What follows the prompt of the pre-deploy policy, by the answer
    [answer] of the user: the calls made after the prompt, the state left
    and the result. *)
Definition answered (w : World) (workspace : WorkspaceFolder) (s : St)
  (csprojFile targetFramework : string) (answer : option MessageItem)
  (after : list Event) (s' : St) (r : exn + unit) : Prop :=
  let workspaceFspath := uri_fsPath workspace in
  match answer with
  | None =>
      after = [] ∧ persisted s' = persisted s ∧ r = inl UserCancelledError
  | Some item =>
      if decide (item = dontShowAgainButton) then
        after = [UpdateWorkspaceSetting showPreDeployWarningSetting (SBool false)
                   workspaceFspath]
        ∧ match settings_update w showPreDeployWarningSetting (SBool false)
                  workspaceFspath with
          | Some err => persisted s' = persisted s ∧ r = inl err
          | None =>
              persisted s' =
                (<[(workspaceFspath, showPreDeployWarningSetting) := SBool false]>
                   (settings s),
                 tasksJson s, deployFsPath s, deployedWithConfigs s)
              ∧ r = inr tt
          end
      else
        let deploySubpathSetting := configurationSettings_deploySubpath (constants w) in
        let deploySubpath := derivedSubpath w workspaceFspath csprojFile targetFramework in
        let subfolder := path_dirname w (path_relative w workspaceFspath csprojFile) in
        let existingTasks := default [] (tasksJson s !! workspaceFspath) in
        let newTasks :=
          existingTasks ++ missingTasks existingTasks (generateDotnetTasks w subfolder) in
        match settings_update w preDeployTaskSetting (SStr "publish") workspaceFspath with
        | Some err =>
            after = [UpdateWorkspaceSetting preDeployTaskSetting (SStr "publish")
                       workspaceFspath]
            ∧ persisted s' = persisted s ∧ r = inl err
        | None =>
            match settings_update w deploySubpathSetting (SStr deploySubpath)
                    workspaceFspath with
            | Some err =>
                after = [UpdateWorkspaceSetting preDeployTaskSetting (SStr "publish")
                           workspaceFspath;
                         UpdateWorkspaceSetting deploySubpathSetting (SStr deploySubpath)
                           workspaceFspath]
                ∧ persisted s' =
                    (<[(workspaceFspath, preDeployTaskSetting) := SStr "publish"]>
                       (settings s),
                     tasksJson s, deployFsPath s, deployedWithConfigs s)
                ∧ r = inl err
            | None =>
                after = [UpdateWorkspaceSetting preDeployTaskSetting (SStr "publish")
                           workspaceFspath;
                         UpdateWorkspaceSetting deploySubpathSetting (SStr deploySubpath)
                           workspaceFspath;
                         UpdateTasks workspace newTasks]
                ∧ persisted s' =
                    (<[(workspaceFspath, deploySubpathSetting) := SStr deploySubpath]>
                       (<[(workspaceFspath, preDeployTaskSetting) := SStr "publish"]>
                          (settings s)),
                     <[workspaceFspath := newTasks]> (tasksJson s),
                     path_join w [workspaceFspath; deploySubpath],
                     deployedWithConfigs s)
                ∧ r = inr tt
            end
        end
  end.

(** The shapes a run of the pre-deploy policy can take: either it only
    reads the file system and leaves every persisted datum as it was, or
    detection succeeded, the prompt was shown after the reads, and the run
    went on as the user answered. *)
Inductive policy_run (w : World) (workspace : WorkspaceFolder) (s : St)
  (o : Outcome unit) : Prop :=
  | policy_quiet :
      Forall (fun e => is_fs e = true) (trace o) →
      persisted (final o) = persisted s →
      policy_run w workspace s o
  | policy_prompted (csprojFile targetFramework : string) (reads after : list Event) :
      detected w workspace s csprojFile targetFramework →
      Forall (fun e => is_fs e = true) reads →
      trace o = reads ++ preDeployPrompt workspace :: after →
      answered w workspace s csprojFile targetFramework
        (chosen w (notConfiguredForDeploy workspace)
           [DialogResponses.yes; dontShowAgainButton])
        after (final o) (result o) →
      policy_run w workspace s o.

(** The segments of a resource id: what follows its first character, cut
    at every [/]. *)
Definition segments (resourceId : string) : list string :=
  Js.split "/" (Js.substring_from 1 resourceId).

(** The inputs [parseAzureResourceId] is said to refuse. *)
Definition invalid_id (resourceId : string) : Prop :=
  resourceId = EmptyString
  ∨ String.length resourceId < 2
  ∨ String.get 0 resourceId ≠ Some "/"%char
  ∨ Nat.Odd (length (segments resourceId))
  ∨ EmptyString ∈ segments resourceId.

(** [m] pairs each segment of even index with the segment after it, the
    last occurrence of a key winning. *)
Definition pairs_segments (parts : list string) (m : gmap string string) : Prop :=
  ∀ k v, m !! k = Some v ↔
    ∃ i, parts !! (2 * i) = Some k ∧ parts !! (2 * i + 1) = Some v
         ∧ ∀ j, i < j → parts !! (2 * j) ≠ Some k.

(** [m] holds the own properties of the object the loop builds: the
    pairs of [pairs_segments] whose key is not [__proto__]. *)
Definition own_pairs_segments (parts : list string) (m : gmap string string) : Prop :=
  ∀ k v, m !! k = Some v ↔
    k ≠ "__proto__"
    ∧ ∃ i, parts !! (2 * i) = Some k ∧ parts !! (2 * i + 1) = Some v
           ∧ ∀ j, i < j → parts !! (2 * j) ≠ Some k.

(** The preference store accepts every write for the workspace at
    [fsPath]. *)
Definition accepts_writes (w : World) (fsPath : string) : Prop :=
  ∀ key value, settings_update w key value fsPath = None.

(** A write of the setting [key] that the preference store accepts. *)
Definition stores (w : World) (key : string) (e : Event) : bool :=
  match e with
  | UpdateWorkspaceSetting k value fsPath =>
      String.eqb k key && bool_decide (settings_update w k value fsPath = None)
  | _ => false
  end.

(** A computation all of whose calls satisfy [P]. *)
Definition emits_only {A : Type} (P : Event → Prop) (m : M A) : Prop :=
  ∀ s, Forall P (trace (m s)).

(** The calls that run the pre-deploy task or transfer the artifact. *)
Definition is_transfer (e : Event) : bool :=
  match e with
  | RunPreDeployTask _ _ _ | AppserviceDeploy _ _ => true
  | _ => false
  end.

(** What can precede the confirmation modal. *)
Definition before_gate (e : Event) : Prop :=
  is_confirmation e = false ∧ is_transfer e = false.

(** The confirmation modal of [deploy], as the source builds it. *)
Definition confirmationWarning (node : SiteTreeItem) : string :=
  "Are you sure you want to deploy to " +:+ Js.dquote +:+ client_fullName node
  +:+ Js.dquote
  +:+ "? This will overwrite any previous deployment and cannot be undone.".

Definition confirmationItems (w : World) (withConfigs : bool) : list MessageItem :=
  [AppServiceDialogResponses_deploy (constants w)]
  ++ (if withConfigs then [resetDefault] else [])
  ++ [DialogResponses.cancel].

Definition confirmationModal (w : World) (node : SiteTreeItem) (withConfigs : bool) : Event :=
  ShowWarningMessage (confirmationWarning node) (confirmationItems w withConfigs).

Definition settingsPath (w : World) (workspace : WorkspaceFolder) : string :=
  path_join w [uri_fsPath workspace; ".vscode"; "settings.json"].

(** How a run of [deploy] came to its target [node]: it was the tree item
    passed as argument, or it was resolved by the target selection, run
    for the workspace that contains the resolved path, during which the
    items [newNodes] were created. *)
Definition resolved (w : World) (target : Target) (s : St)
  (node : SiteTreeItem) (newNodes : list SiteTreeItem) (workspace : WorkspaceFolder) : Prop :=
  match target with
  | TNode item => node = item ∧ newNodes = []
  | _ =>
      ∃ fsPath,
        getDeployFsPath w target None = inr fsPath
        ∧ getContainingWorkspace w fsPath = Some workspace
        ∧ result (selectTarget w workspace fsPath s) = inr (node, newNodes)
  end.

(** The path [deploy] resolves for its target: what [getDeployFsPath]
    answers, for a tree item once its site configuration is fetched. *)
Definition resolvesTo (w : World) (target : Target) (fsPath : string) : Prop :=
  match target with
  | TNode item =>
      ∃ siteConfig,
        getSiteConfig w item = inr siteConfig
        ∧ getDeployFsPath w target (javaFileExtensionOf w (Some siteConfig)) = inr fsPath
  | _ => getDeployFsPath w target None = inr fsPath
  end.

(** The remote calls a run makes before the workspace of the resolved path
    is looked up. *)
Definition remoteCallsOfEntry (target : Target) : list Event :=
  match target with
  | TNode item => [GetSiteConfig item]
  | _ => []
  end.

(** What follows the confirmation modal, by the answer of the user. *)
Definition gate_answer (w : World) (workspace : WorkspaceFolder)
  (answer : option MessageItem) (after : list Event) (s' : St) (r : exn + unit) : Prop :=
  let fsPath := uri_fsPath workspace in
  let key := configurationSettings_defaultWebAppToDeploy (constants w) in
  match answer with
  | None => after = [] ∧ r = inl UserCancelledError
  | Some item =>
      if decide (item = resetDefault) then
        match openTextDocument w (settingsPath w workspace) with
        | Some err => after = [OpenTextDocument (settingsPath w workspace)] ∧ r = inl err
        | None =>
            match settings_update w key (SStr EmptyString) fsPath with
            | Some err =>
                after = [OpenTextDocument (settingsPath w workspace);
                         Detached (ShowTextDocument (settingsPath w workspace));
                         UpdateWorkspaceSetting key (SStr EmptyString) fsPath]
                ∧ r = inl err
            | None =>
                after = [OpenTextDocument (settingsPath w workspace);
                         Detached (ShowTextDocument (settingsPath w workspace));
                         UpdateWorkspaceSetting key (SStr EmptyString) fsPath;
                         ExecuteCommand "appService.Deploy"]
                ∧ settings s' !! (fsPath, key) = Some (SStr EmptyString)
                ∧ r = match executeCommand w "appService.Deploy" with
                      | Some err => inl err
                      | None => inr tt
                      end
            end
        end
      else Forall (fun e => is_confirmation e = false) after
  end.

(** The shapes a run of [deploy] can take with respect to the
    confirmation modal: either the modal is not shown, or the run was asked
    to confirm, its target is not one of the items created while it was
    selected, the site is not deployed from a local Git repository, and
    the modal is shown once, after calls that neither confirm nor
    transfer. *)
(** The workspace of a run: the folder that contains the path resolved
    for the target. *)
Definition deployedFrom (w : World) (target : Target) (workspace : WorkspaceFolder) : Prop :=
  ∃ fsPath, resolvesTo w target fsPath ∧ getContainingWorkspace w fsPath = Some workspace.

Inductive deploy_run (w : World) (confirmDeployment : bool) (target : Target) (s : St)
  (o : Outcome unit) : Prop :=
  | deploy_not_confirmed :
      Forall (fun e => is_confirmation e = false) (trace o) →
      deploy_run w confirmDeployment target s o
  | deploy_confirmed (node : SiteTreeItem) (newNodes : list SiteTreeItem)
      (workspace : WorkspaceFolder) (siteConfig : SiteConfigResource) (withConfigs : bool)
      (before after : list Event) :
      confirmDeployment = true →
      resolved w target s node newNodes workspace →
      deployedFrom w target workspace →
      (∀ newApp, newApp ∈ newNodes → fullId newApp ≠ fullId node) →
      getSiteConfig w node = inr siteConfig →
      scmType siteConfig ≠ Some (ScmType_LocalGit (constants w)) →
      Forall before_gate before →
      trace o = before ++ Delay 500 :: confirmationModal w node withConfigs :: after →
      gate_answer w workspace
        (chosen w (confirmationWarning node) (confirmationItems w withConfigs))
        after (final o) (result o) →
      deploy_run w confirmDeployment target s o.

(** The scenario of the specification: one [App.csproj] with target
    framework [net6.0] in the root, the user answers 'Yes'. *)
Definition yesWorld : World :=
  demoWorld None (Some 0) ["App.csproj"; "src"] pickExisting None "/ws".

(** A site deployed from GitHub, passed to [deploy] as a tree item. *)
Definition githubWorld : World :=
  demoWorld (Some "GitHub") (Some 0) ["App.csproj"; "src"] pickExisting None "/ws".

(** A tree item target whose deployment path is in no workspace folder. *)
Definition elsewhereWorld : World :=
  demoWorld (Some "None") (Some 0) ["App.csproj"; "src"] pickExisting None "/elsewhere".

(** A target created by the picker during the selection. *)
Definition createdWorld : World :=
  demoWorld (Some "None") (Some 0) ["App.csproj"; "src"] pickCreated None "/ws".

(** A default target is configured and the user presses 'Reset default',
    the second button of the modal. *)
Definition resetWorld : World :=
  demoWorld (Some "None") (Some 1) ["App.csproj"; "src"] pickExisting (Some demoSite) "/ws".

(** A workspace whose root holds two project files. *)
Definition severalWorld : World :=
  demoWorld None (Some 0) ["App.csproj"; "Other.CSPROJ"; "src"] pickExisting None "/ws".

(** A workspace that already names a pre-deploy task. *)
Definition configuredSt : St :=
  set_settings (<[("/ws", "preDeployTask") := SStr "build"]>) demoSt.

(** The world [w] with another answer of the editor to the opening of a
    document and another preference store. *)
Definition rejecting (w : World) (open : string -> option exn)
  (update : string -> setting -> string -> option exn) : World := {|
  constants := constants w;
  path_join := path_join w;
  path_posix_join := path_posix_join w;
  path_dirname := path_dirname w;
  path_relative := path_relative w;
  fs_readdir := fs_readdir w;
  fs_existsSync := fs_existsSync w;
  fs_stat_isDirectory := fs_stat_isDirectory w;
  fs_readFile := fs_readFile w;
  fs_pathExists := fs_pathExists w;
  ui_warning := ui_warning w;
  ui_quickPick := ui_quickPick w;
  isPathEqual := isPathEqual w;
  isJavaRuntime := isJavaRuntime w;
  getArtifactTypeByJavaRuntime := getArtifactTypeByJavaRuntime w;
  getDeployFsPath := getDeployFsPath w;
  getContainingWorkspace := getContainingWorkspace w;
  getDefaultWebAppToDeploy := getDefaultWebAppToDeploy w;
  showTreeItemPicker := showTreeItemPicker w;
  getRandomHexString := getRandomHexString w;
  findFilesByFileExtension := findFilesByFileExtension w;
  openTextDocument := open;
  executeCommand := executeCommand w;
  settings_update := update;
  getSiteConfig := getSiteConfig w;
  configureJavaSEAppSettings := configureJavaSEAppSettings w;
  promptScmDoBuildDeploy := promptScmDoBuildDeploy w;
  runPreDeployTask := runPreDeployTask w;
  appservice_deploy := appservice_deploy w
|}.

(** The scenario of [yesWorld] with a preference store that accepts the
    write of [preDeployTask] and rejects the write of [deploySubpath]. *)
Definition halfWorld : World :=
  rejecting yesWorld (openTextDocument yesWorld)
    (fun key _ _ =>
       if String.eqb key "deploySubpath" then Some (Rejected "settings") else None).

(** The scenario of [resetWorld] in a workspace whose settings file cannot
    be opened. *)
Definition unopenableWorld : World :=
  rejecting resetWorld (fun _ => Some (Rejected "open")) (settings_update resetWorld).

(** A state in which the workspace names its default target. *)
Definition defaultSt : St := {|
  settings := {[ ("/ws", "defaultWebAppToDeploy") := SStr (fullId demoSite) ]};
  tasksJson := ∅; telemetry := ∅; deployFsPath := EmptyString; deployedWithConfigs := false
|}.

(** ** Vocabulary of the further properties *)

(** A string without the character [/]. *)
Fixpoint no_slash (s : string) : bool :=
  match s with
  | EmptyString => true
  | String c s' => negb (Ascii.eqb c "/") && no_slash s'
  end.

(** A string that can stand between two slashes of a resource id. *)
Definition is_segment (s : string) : bool := Js.truthy_str s && no_slash s.

(** The resource id [/k1/v1/k2/v2...] that names the pairs in turn. *)
Fixpoint renderResourceId (pairs : list (string * string)) : string :=
  match pairs with
  | [] => EmptyString
  | (key, value) :: rest => "/" +:+ key +:+ "/" +:+ value +:+ renderResourceId rest
  end.

(** The object obtained by assigning the pairs in turn. *)
Definition assignAll (pairs : list (string * string)) : gmap string string :=
  foldl (fun result kv => <[kv.1 := kv.2]> result) ∅ pairs.

(** The segments of [renderResourceId pairs]. *)
Definition flatten (pairs : list (string * string)) : list string :=
  concat (map (fun kv => [kv.1; kv.2]) pairs).

(** A string without line terminator. *)
Fixpoint one_line (s : string) : bool :=
  match s with
  | EmptyString => true
  | String c s' => negb (Regex.is_line_terminator c) && one_line s'
  end.

(** [contents] holds, on one line, the value [value] between the tags
    [<TargetFramework>] and [</TargetFramework>]. *)
Definition holds_TargetFramework (contents value : string) : Prop :=
  one_line value = true
  ∧ ∃ before after,
      contents = before +:+ "<TargetFramework>" +:+ value +:+ "</TargetFramework>" +:+ after.

(** The guards of lines 22 to 32: the warning is on, neither a pre-deploy
    task nor a deploy subpath is set, and the path being deployed is the
    workspace root. *)
Definition detectionEnabled (w : World) (workspace : WorkspaceFolder) (s : St) : bool :=
  truthy (settings s !! (uri_fsPath workspace, showPreDeployWarningSetting))
  && negb (truthy (settings s !! (uri_fsPath workspace, preDeployTaskSetting)))
  && negb (truthy (settings s
                     !! (uri_fsPath workspace,
                         configurationSettings_deploySubpath (constants w))))
  && isPathEqual w (deployFsPath s) (uri_fsPath workspace).

(** The project files a folder lists. *)
Definition csprojIn (w : World) (folder : string) : exn + list string :=
  match fs_readdir w folder with
  | Some files =>
      inr (List.filter Regex.test_csproj (map (fun f => path_join w [folder; f]) files))
  | None => inl fs_error
  end.

(** The answer of the scan: the project files of the root or, the root
    listing none, those of its subfolders. *)
Definition scanned (w : World) (projectPath : string) : exn + list string :=
  match csprojIn w projectPath with
  | inl e => inl e
  | inr projectFiles =>
      if (length projectFiles =? 0)%nat then
        match fs_readdir w projectPath with
        | Some subfolders => completed w projectPath subfolders projectFiles
        | None => inl fs_error
        end
      else inr projectFiles
  end.

(** Two file systems that list the same entries in every folder, in
    orders that may differ, and agree on what exists and on what is a
    directory; the paths are joined in the same way. *)
Definition same_listings (w w' : World) : Prop :=
  (∀ parts, path_join w parts = path_join w' parts)
  ∧ (∀ p, fs_existsSync w p = fs_existsSync w' p)
  ∧ (∀ p, fs_stat_isDirectory w p = fs_stat_isDirectory w' p)
  ∧ ∀ p, match fs_readdir w p, fs_readdir w' p with
         | Some files, Some files' => files ≡ₚ files'
         | None, None => True
         | _, _ => False
         end.

(** The run that makes no call and changes nothing. *)
Definition silent (s : St) : Outcome unit := {| trace := []; final := s; result := inr tt |}.

(** ** Vocabulary of the stages of [deploy] *)

(** Registration and disposal of the listener of [onTreeItemCreate]. *)
Definition is_listener (e : Event) : bool :=
  match e with
  | OnTreeItemCreate | DisposeListener => true
  | _ => false
  end.

(** The two calls of the target selection. *)
Definition is_selection (e : Event) : bool :=
  match e with
  | GetDefaultWebAppToDeploy | ShowTreeItemPicker _ => true
  | _ => false
  end.

(** An awaited fetch of a site configuration. *)
Definition is_fetch (e : Event) : bool :=
  match e with
  | GetSiteConfig _ => true
  | _ => false
  end.

(** What [deploy] calls while it resolves its target, lines 30 to 75. *)
Definition is_entry (e : Event) : bool :=
  match e with
  | GetSiteConfig _ | GetDeployFsPath _ _ | OnTreeItemCreate | DisposeListener
  | GetDefaultWebAppToDeploy | ShowTreeItemPicker _ => true
  | _ => false
  end.

(** What [deploy] calls between the resolution of its target and the
    confirmation gate, the fetch of the site configuration apart. *)
Definition is_preparation (e : Event) : bool :=
  match e with
  | Detached (GetSiteConfig _) | FindFilesByFileExtension _ _ | ShowQuickPick _
  | ConfigureJavaSEAppSettings _ | FsPathExists _ | PromptScmDoBuildDeploy _ _ _ => true
  | _ => false
  end.

(** What the confirmation gate calls once its modal is answered. *)
Definition is_reset (e : Event) : bool :=
  match e with
  | OpenTextDocument _ | Detached (ShowTextDocument _) | UpdateWorkspaceSetting _ _ _
  | ExecuteCommand _ => true
  | _ => false
  end.

(** Calls that neither register or dispose the listener nor select a
    target. *)
Definition outside_selection (e : Event) : Prop :=
  is_listener e = false ∧ is_selection e = false.

(** The quick pick of a Java artifact, line 105. *)
Definition is_pick (e : Event) : bool :=
  match e with
  | ShowQuickPick _ => true
  | _ => false
  end.

(** How the path to deploy stands to the path that was resolved, given the
    calls made since: it is the resolved path and no artifact was offered,
    or it is the artifact the user picked. *)
Definition artifact_path (w : World) (tr : list Event) (resolvedPath deployedPath : string)
  : Prop :=
  Forall (fun e => is_pick e = false) tr ∧ deployedPath = resolvedPath
  ∨ ∃ files placeHolder,
      ShowQuickPick placeHolder ∈ tr ∧ ui_quickPick w files placeHolder = inr deployedPath.

(** The state of a run once line 34 has recorded
    [deployedWithConfigs = 'false'] in the telemetry. *)
Definition started (s : St) : St :=
  set_telemetry (<["deployedWithConfigs" := "false"]>) s.

(** The state of a run once the wizard context of lines 55 to 57 exists:
    its [deployFsPath] is the resolved path, its [deployedWithConfigs] is
    not set. *)
Definition located (fsPath : string) (s : St) : St :=
  set_deployedWithConfigs false (set_deployFsPath fsPath (started s)).

(** The value of [siteConfig] after lines 37 to 41. *)
Definition fetched (w : World) (target : Target) (siteConfig : option SiteConfigResource)
  : Prop :=
  match target with
  | TNode item => ∃ fetched, getSiteConfig w item = inr fetched ∧ siteConfig = Some fetched
  | _ => siteConfig = None
  end.

(** What lines 30 to 75 hand over to the rest of [deploy]: the target, the
    items created while it was selected, the site configuration if it was
    fetched, and the workspace. *)
Definition Resolved : Type :=
  SiteTreeItem * list SiteTreeItem * option SiteConfigResource * WorkspaceFolder.

(** The state in which the target selection of a run ends: a cancellation
    is recorded as the step [showTreeItemPicker:<contextValue>]. *)
Definition selectionEnd (w : World) (o : Outcome (SiteTreeItem * list SiteTreeItem)) : St :=
  match result o with
  | inl err2 =>
      if isUserCancelledError err2
      then set_telemetry
             (<["cancelStep" :=
                "showTreeItemPicker:" +:+ WebAppTreeItem_contextValue (constants w)]>)
             (final o)
      else final o
  | inr _ => final o
  end.

(** The runs of lines 30 to 75 of [deploy]: the calls made, the state left,
    and the exception raised or what was resolved. *)
Inductive resolution (w : World) (target : Target) (s : St)
  : list Event → St → exn + Resolved → Prop :=
  | resolution_no_config (item : SiteTreeItem) (e : exn) :
      target = TNode item →
      getSiteConfig w item = inl e →
      resolution w target s [GetSiteConfig item] (started s) (inl e)
  | resolution_no_path (siteConfig : option SiteConfigResource) (e : exn) :
      fetched w target siteConfig →
      getDeployFsPath w target (javaFileExtensionOf w siteConfig) = inl e →
      resolution w target s
        (remoteCallsOfEntry target
         ++ [GetDeployFsPath target (javaFileExtensionOf w siteConfig)])
        (started s) (inl e)
  | resolution_no_workspace (siteConfig : option SiteConfigResource) (fsPath : string) :
      fetched w target siteConfig →
      getDeployFsPath w target (javaFileExtensionOf w siteConfig) = inr fsPath →
      getContainingWorkspace w fsPath = None →
      resolution w target s
        (remoteCallsOfEntry target
         ++ [GetDeployFsPath target (javaFileExtensionOf w siteConfig)])
        (started s) (inl NoWorkspaceFound)
  | resolution_tree_item (item : SiteTreeItem) (siteConfig : SiteConfigResource)
      (fsPath : string) (workspace : WorkspaceFolder) :
      target = TNode item →
      getSiteConfig w item = inr siteConfig →
      getDeployFsPath w target (javaFileExtensionOf w (Some siteConfig)) = inr fsPath →
      getContainingWorkspace w fsPath = Some workspace →
      resolution w target s
        [GetSiteConfig item;
         GetDeployFsPath target (javaFileExtensionOf w (Some siteConfig))]
        (located fsPath s) (inr (item, [], Some siteConfig, workspace))
  | resolution_selection (fsPath : string) (workspace : WorkspaceFolder)
      (o : Outcome (SiteTreeItem * list SiteTreeItem)) :
      (∀ item, target ≠ TNode item) →
      getDeployFsPath w target None = inr fsPath →
      getContainingWorkspace w fsPath = Some workspace →
      o = selectTarget w workspace fsPath (located fsPath s) →
      resolution w target s
        (GetDeployFsPath target None :: OnTreeItemCreate :: trace o ++ [DisposeListener])
        (selectionEnd w o)
        (match result o with
         | inl err2 => inl err2
         | inr (node, newNodes) => inr (node, newNodes, None, workspace)
         end).

(** The value of [confirmDeployment] after the loop of lines 77 to 92. *)
Definition stifled (confirmDeployment : bool) (node : SiteTreeItem)
  (newNodes : list SiteTreeItem) : bool :=
  confirmDeployment
  && forallb (fun newApp => negb (String.eqb (fullId newApp) (fullId node))) newNodes.

(** The message of line 164. *)
Definition deployComplete (node : SiteTreeItem) : string :=
  "Deployment to " +:+ Js.dquote +:+ client_fullName node +:+ Js.dquote +:+ " completed.".

(** The calls of a transfer that succeeds, from the transfer on. *)
Definition completion (w : World) (node : SiteTreeItem) (fsPath correlationId : string)
  : list Event :=
  [AppserviceDeploy node fsPath;
   OutputAppendLine (deployComplete node);
   Detached (ShowInformationMessage (deployComplete node)
               [browseWebsite; streamLogs; AppServiceDialogResponses_viewOutput (constants w)]);
   Detached (ValidateWebSite correlationId node)].

(** The value of the telemetry property [cancelStep] once the confirmation
    modal is answered: line 149 clears it only when the run goes on to the
    transfer. *)
Definition cancelStepAfter (answer : option MessageItem) : string :=
  match answer with
  | Some item =>
      if decide (item = resetDefault) then "confirmDestructiveDeployment" else EmptyString
  | None => "confirmDestructiveDeployment"
  end.

(** ** [util.ts]: [showWorkspaceFoldersQuickPick] *)

(** An [IAzureQuickPickItem<string | undefined>]. *)
Record QuickPickItem : Type := {
  qp_label : string;
  qp_description : string;
  qp_data : option string
}.

(** What [showWorkspaceFoldersQuickPick] reads from the editor.  The
    quick pick resolves to one of the items it was given, told by its
    index, or to nothing; the open dialog resolves to the paths selected
    or to nothing. *)
Record Workbench : Type := {
  workspaceFolders : option (list WorkspaceFolder);
  getConfiguration : string -> string -> string -> option string;
  wb_path_basename : string -> string;
  wb_path_join : list string -> string;
  window_showQuickPick : list QuickPickItem -> string -> option nat;
  window_showOpenDialog : option string -> option (list string)
}.

(** The two calls of the function that reach the user. *)
Inductive Interaction : Type :=
  | QuickPickShown (items : list QuickPickItem) (placeHolder : string)
  | OpenDialogShown (defaultUri : option string).

(** A run of the function: the calls made, the telemetry properties as it
    leaves them, and the path returned or the exception raised. *)
Record Picked : Type := {
  interactions : list Interaction;
  properties : gmap string string;
  answer : exn + string
}.

(** Reading a property of [undefined]. *)
Definition TypeError : exn := Rejected "TypeError".

Definition browseItem : QuickPickItem :=
  {| qp_label := "$(file-directory) Browse..."; qp_description := EmptyString;
     qp_data := None |}.

(** The callback of [workspaceFolders.map], lines 48 to 63. *)
Definition folderQuickPickItem (wb : Workbench) (c : Constants) (subPathSetting : option string)
  (value : WorkspaceFolder) : QuickPickItem :=
  let fsPath := uri_fsPath value in
  let fsPath :=
    if Js.truthy_opt subPathSetting then
      let subpath :=
        getConfiguration wb (extensionPrefix c) (uri_fsPath value)
          (default EmptyString subPathSetting) in
      if Js.truthy_opt subpath then wb_path_join wb [fsPath; default EmptyString subpath]
      else fsPath
    else fsPath in
  {| qp_label := wb_path_basename wb fsPath; qp_description := fsPath; qp_data := Some fsPath |}.

(** Lines 48 to 66: the items offered, 'Browse...' first. *)
Definition folderQuickPickItems (wb : Workbench) (c : Constants)
  (subPathSetting : option string) : list QuickPickItem :=
  browseItem
  :: match workspaceFolders wb with
     | Some folders => map (folderQuickPickItem wb c subPathSetting) folders
     | None => []
     end.

Definition showWorkspaceFoldersQuickPick (wb : Workbench) (c : Constants)
  (placeHolderString : string) (telemetryProperties : gmap string string)
  (subPathSetting : option string) : Picked :=
  let items := folderQuickPickItems wb c subPathSetting in
  let shown := QuickPickShown items placeHolderString in
  match window_showQuickPick wb items placeHolderString ≫= (items !!.) with
  | None =>
      {| interactions := [shown];
         properties := <["cancelStep" := "showWorkspaceFolders"]> telemetryProperties;
         answer := inl UserCancelledError |}
  | Some pickedItem =>
      if negb (Js.truthy_opt (qp_data pickedItem)) then
        match workspaceFolders wb with
        | Some [] =>
            {| interactions := [shown]; properties := telemetryProperties;
               answer := inl TypeError |}
        | folders =>
            let defaultUri := folders ≫= (fun l => uri_fsPath <$> head l) in
            let opened := OpenDialogShown defaultUri in
            match window_showOpenDialog wb defaultUri with
            | None =>
                {| interactions := [shown; opened];
                   properties :=
                     <["cancelStep" := "showWorkspaceFoldersBrowse"]> telemetryProperties;
                   answer := inl UserCancelledError |}
            | Some [] =>
                {| interactions := [shown; opened]; properties := telemetryProperties;
                   answer := inl TypeError |}
            | Some (first :: _) =>
                {| interactions := [shown; opened]; properties := telemetryProperties;
                   answer := inr first |}
            end
        end
      else
        {| interactions := [shown]; properties := telemetryProperties;
           answer := inr (default EmptyString (qp_data pickedItem)) |}
  end.

(** ** Further concrete worlds *)

(** The user dismisses every modal dialog. *)
Definition dismissWorld : World :=
  demoWorld (Some "None") None ["App.csproj"; "src"] pickExisting None "/ws".

(** The user presses the second button of every modal dialog, which in the
    prompt of the pre-deploy policy is 'No, and don't show again'. *)
Definition optOutWorld : World :=
  demoWorld None (Some 1) ["App.csproj"; "src"] pickExisting None "/ws".

(** The user presses the first button of every modal dialog, which in the
    confirmation modal is 'Deploy'; the site is deployed by zip. *)
Definition deployWorld : World :=
  demoWorld (Some "None") (Some 0) ["App.csproj"; "src"] pickExisting None "/ws".

(** The user cancels the target picker. *)
Definition cancelledWorld : World :=
  demoWorld (Some "None") (Some 0) ["App.csproj"; "src"]
    {| created := []; picked := inl UserCancelledError |} None "/ws".

(** Two file systems that list the root of the workspace in two orders;
    the project file is one level deeper. *)
Definition listedWorld : World :=
  demoWorld None (Some 0) ["README.md"; "src"] pickExisting None "/ws".
Definition relistedWorld : World :=
  demoWorld None (Some 0) ["src"; "README.md"] pickExisting None "/ws".

(** An editor with the workspace [/ws] open, whose deploy subpath is
    [dist]; the user picks the item of index [pick] and selects [browsed]
    in the open dialog. *)
Definition demoWorkbench (pick : option nat) (browsed : option (list string)) : Workbench := {|
  workspaceFolders := Some [demoWorkspace];
  getConfiguration := fun section fsPath key =>
    if String.eqb section "appService" && String.eqb key "deploySubpath"
    then Some "dist" else None;
  wb_path_basename := fun p => default p (last (Js.split "/" p));
  wb_path_join := PosixPath.join;
  window_showQuickPick := fun _ _ => pick;
  window_showOpenDialog := fun _ => browsed
|}.

(** * Properties *)

(** ** [parseAzureResourceId] *)

Section ParseAzureResourceId.

Lemma pairs_ind {A : Type} (P : list A → Prop) :
  P [] → (∀ x, P [x]) → (∀ x y l, P l → P (x :: y :: l)) → ∀ l, P l.
Proof.
  intros Hnil Hone Hstep l.
  enough (P l ∧ ∀ x, P (x :: l)) as [H _] by exact H.
  induction l as [|y l [IH1 IH2]]; split; auto.
Qed.

Lemma eqb_empty_false (s : string) : String.eqb s EmptyString = false ↔ s ≠ EmptyString.
Proof.
  destruct (String.eqb_spec s EmptyString); split; intros; congruence.
Qed.

Lemma parse_pairs_inl parts acc e :
  parse_pairs parts acc = inl e → e = invalidIdErr ∧ EmptyString ∈ parts.
Proof.
  revert acc. pattern parts. apply pairs_ind; clear parts;
    [intros acc | intros x acc | intros key value rest IH acc]; simpl;
    [discriminate | discriminate |].
  destruct (String.eqb_spec key EmptyString) as [->|Hk]; simpl.
  { intros [= <-]. split; [done | repeat constructor]. }
  destruct (String.eqb_spec value EmptyString) as [->|Hv]; simpl.
  { intros [= <-]. split; [done | repeat constructor]. }
  intros H. apply IH in H as [-> H]. split; [done | by do 2 right].
Qed.

Lemma lookup_even_cons {A : Type} (x y : A) l i :
  (x :: y :: l) !! (2 * S i) = l !! (2 * i).
Proof. replace (2 * S i) with (S (S (2 * i))) by lia. done. Qed.

Lemma lookup_odd_cons {A : Type} (x y : A) l i :
  (x :: y :: l) !! (2 * S i + 1) = l !! (2 * i + 1).
Proof. replace (2 * S i + 1) with (S (S (2 * i + 1))) by lia. done. Qed.

Lemma lookup_assign_eq (key value : string) (acc : gmap string string) :
  key ≠ "__proto__" → assign key value acc !! key = Some value.
Proof.
  intros Hkey. unfold assign. rewrite (proj2 (String.eqb_neq _ _) Hkey).
  apply lookup_insert_eq.
Qed.

Lemma lookup_assign_ne (key value k : string) (acc : gmap string string) :
  key ≠ k → assign key value acc !! k = acc !! k.
Proof.
  intros Hkey. unfold assign. destruct (String.eqb key "__proto__"); [done|].
  by apply lookup_insert_ne.
Qed.

Lemma lookup_assign_proto (key value : string) (acc : gmap string string) :
  assign key value acc !! "__proto__" = acc !! "__proto__".
Proof.
  unfold assign. destruct (String.eqb_spec key "__proto__") as [->|Hkey]; [done|].
  by apply lookup_insert_ne.
Qed.

(** What the loop leaves in [result], started from [acc]. *)
Lemma parse_pairs_inr parts acc m :
  parse_pairs parts acc = inr m →
  Nat.Even (length parts) →
  (EmptyString ∉ parts)
  ∧ (∀ k v, m !! k = Some v ↔
      (k ≠ "__proto__"
       ∧ ∃ i, parts !! (2 * i) = Some k ∧ parts !! (2 * i + 1) = Some v
              ∧ ∀ j, i < j → parts !! (2 * j) ≠ Some k)
      ∨ ((k = "__proto__" ∨ ∀ j, parts !! (2 * j) ≠ Some k) ∧ acc !! k = Some v)).
Proof.
  revert acc m. pattern parts. apply pairs_ind; clear parts;
    [intros acc m | intros x acc m | intros key value rest IH acc m].
  - intros [= <-] _. split; [by intros ?%elem_of_nil|]. intros k v. split.
    + intros H. right. split; [|done]. right. intros j. by rewrite lookup_nil.
    + intros [(_ & i & H & _)|[_ H]]; [by rewrite lookup_nil in H | done].
  - intros _ [n Hn]. simpl in Hn. lia.
  - intros Hm Heven. simpl in Hm.
    destruct (String.eqb_spec key EmptyString) as [->|Hk]; [discriminate|].
    destruct (String.eqb_spec value EmptyString) as [->|Hv]; [discriminate|].
    simpl in Hm.
    assert (Nat.Even (length rest)) as Heven'.
    { destruct Heven as [n Hn]. simpl in Hn. exists (n - 1). lia. }
    destruct (IH _ _ Hm Heven') as [Hne Hlook]. split.
    { rewrite !not_elem_of_cons. done. }
    intros k v. rewrite Hlook. split.
    + intros [(Hproto & i & Hi1 & Hi2 & Hi3)|[Hnone Hacc]].
      * left. split; [done|]. exists (S i). rewrite lookup_even_cons, lookup_odd_cons.
        split_and!; [done..|]. intros [|j] Hj; [lia|].
        rewrite lookup_even_cons. apply Hi3. lia.
      * destruct (decide (k = "__proto__")) as [->|Hproto].
        { right. split; [by left|]. by rewrite lookup_assign_proto in Hacc. }
        destruct Hnone as [?|Hnone]; [done|].
        destruct (decide (key = k)) as [->|Hkk].
        -- rewrite lookup_assign_eq in Hacc by done. injection Hacc as ->.
           left. split; [done|]. exists 0. split_and!; [done..|].
           intros [|j] Hj; [lia|]. rewrite lookup_even_cons. apply Hnone.
        -- rewrite lookup_assign_ne in Hacc by done. right. split; [|done]. right.
           intros [|j]; [simpl; congruence|]. rewrite lookup_even_cons. apply Hnone.
    + intros [(Hproto & i & Hi1 & Hi2 & Hi3)|[Hnone Hacc]].
      * destruct i as [|i].
        -- simpl in Hi1, Hi2. injection Hi1 as ->. injection Hi2 as ->.
           right. split; [|by rewrite lookup_assign_eq].
           right. intros j. specialize (Hi3 (S j)). rewrite lookup_even_cons in Hi3.
           apply Hi3. lia.
        -- rewrite lookup_even_cons in Hi1. rewrite lookup_odd_cons in Hi2.
           left. split; [done|]. exists i. split_and!; [done..|]. intros j Hj.
           specialize (Hi3 (S j)). rewrite lookup_even_cons in Hi3. apply Hi3. lia.
      * right. destruct Hnone as [->|Hnone].
        { split; [by left|]. by rewrite lookup_assign_proto. }
        split.
        -- right. intros j. specialize (Hnone (S j)).
           by rewrite lookup_even_cons in Hnone.
        -- specialize (Hnone 0). simpl in Hnone.
           rewrite lookup_assign_ne; [done | congruence].
Qed.

Lemma parse_pairs_total parts acc :
  EmptyString ∉ parts → ∃ m, parse_pairs parts acc = inr m.
Proof.
  revert acc. pattern parts. apply pairs_ind; clear parts;
    [intros acc Hne | intros x acc Hne | intros key value rest IH acc Hne]; simpl;
    [eauto..|].
  rewrite !not_elem_of_cons in Hne. destruct Hne as (Hk & Hv & Hrest).
  destruct (String.eqb_spec key EmptyString); [congruence|].
  destruct (String.eqb_spec value EmptyString); [congruence|].
  simpl. by apply IH.
Qed.

Lemma charAt_slash s :
  String.eqb (Js.charAt 0 s) "/" = true ↔ String.get 0 s = Some "/"%char.
Proof.
  unfold Js.charAt. destruct s as [|c s]; simpl; [split; discriminate|].
  destruct (Ascii.eqb_spec c "/") as [->|Hc]; [done|].
  split; [discriminate | intros [= ->]; done].
Qed.

Lemma even_mod2 n : (n mod 2 =? 0)%nat = true ↔ Nat.Even n.
Proof.
  rewrite Nat.eqb_eq. split.
  - intros H. exists (n / 2). pose proof (Nat.div_mod n 2). lia.
  - intros [k ->]. by rewrite Nat.mul_comm, Nat.Div0.mod_mul.
Qed.

(** X27. [parseAzureResourceId] throws the error 'Invalid web app ID.'
    exactly on the inputs that are empty, shorter than two characters,
    do not start with a slash, have an odd number of segments after the
    leading slash, or have an empty segment; on every other input it
    returns the object whose own properties pair each segment of even
    index other than [__proto__] with the next one, a later occurrence
    of a key overriding an earlier one. *)
Lemma parseAzureResourceId_own_pairs (resourceId : string) :
  match parseAzureResourceId resourceId with
  | inl e => e = invalidIdErr ∧ invalid_id resourceId
  | inr m => ¬ invalid_id resourceId ∧ own_pairs_segments (segments resourceId) m
  end.
Proof.
  unfold parseAzureResourceId, invalid_id. fold (segments resourceId).
  destruct (Js.truthy_str resourceId) eqn:Htruthy; cbn [negb orb andb].
  2:{ split; [done|]. left. unfold Js.truthy_str in Htruthy.
      apply negb_false_iff, String.eqb_eq in Htruthy. done. }
  apply negb_true_iff, eqb_empty_false in Htruthy.
  destruct (Nat.ltb_spec (String.length resourceId) 2) as [Hlen|Hlen]; cbn [negb orb andb].
  { split; [done|]. right. by left. }
  destruct (String.eqb (Js.charAt 0 resourceId) "/") eqn:Hslash; cbn [negb orb andb].
  2:{ split; [done|]. do 2 right. left. rewrite <- charAt_slash. congruence. }
  apply charAt_slash in Hslash.
  destruct (length (segments resourceId) mod 2 =? 0)%nat eqn:Heven; cbn [negb orb andb].
  2:{ split; [done|]. do 3 right. left.
      destruct (Nat.Even_or_Odd (length (segments resourceId))) as [H|H]; [|done].
      apply even_mod2 in H. congruence. }
  apply even_mod2 in Heven.
  destruct (parse_pairs (segments resourceId) ∅) as [e|m] eqn:Hparse.
  - apply parse_pairs_inl in Hparse as [-> Hin]. split; [done|]. by do 4 right.
  - apply parse_pairs_inr in Hparse as [Hne Hlook]; [|done]. split.
    + intros [H|[H|[H|[H|H]]]]; [done | lia | done | | done].
      destruct H as [a Ha], Heven as [b Hb]. lia.
    + intros k v. rewrite Hlook. split; [|by left].
      intros [H|[_ H]]; [done | by rewrite lookup_empty in H].
Qed.

(** C10, on the code. The id [/__proto__/x] passes every check of
    [parseAzureResourceId], and the object returned has no property at
    all: the assignment [result['__proto__'] = 'x'] stores nothing, so
    the segment [__proto__] is not paired with the segment [x] that
    follows it. *)
Theorem proto_segment_is_not_stored :
  ¬ invalid_id "/__proto__/x"
  ∧ parseAzureResourceId "/__proto__/x" = inr ∅
  ∧ ¬ pairs_segments (segments "/__proto__/x") ∅.
Proof.
  split_and!.
  - intros [H|[H|[H|[[k Hk]|H]]]]; [done|simpl in H; lia|done|simpl in Hk; lia|].
    cbn in H. rewrite !elem_of_cons in H.
    destruct H as [?|[?|H]]; [done..|by apply elem_of_nil in H].
  - reflexivity.
  - intros H. specialize (H "__proto__" "x"). rewrite lookup_empty in H.
    assert (@None string = Some "x") as Hfalse; [|done].
    apply H. exists 0. split_and!; [done..|].
    intros [|[|j]] Hj; [lia|by simpl|by simpl].
Qed.

Example parse_subscription :
  parseAzureResourceId "/subscriptions/s1/resourceGroups/rg/sites/app"
  = inr (<["sites" := "app"]>
           (<["resourceGroups" := "rg"]> (<["subscriptions" := "s1"]> ∅))).
Proof. reflexivity. Qed.

Example parse_duplicate_key :
  parseAzureResourceId "/a/1/a/2" = inr (<["a" := "2"]> (<["a" := "1"]> ∅)).
Proof. reflexivity. Qed.

Example parse_odd : parseAzureResourceId "/a/1/b" = inl invalidIdErr.
Proof. reflexivity. Qed.

Example parse_trailing_slash : parseAzureResourceId "/a/1/" = inl invalidIdErr.
Proof. reflexivity. Qed.

Example parse_no_leading_slash : parseAzureResourceId "a/1" = inl invalidIdErr.
Proof. reflexivity. Qed.

End ParseAzureResourceId.

(** ** The monad *)

Section Monad.

Context {A B : Type}.

Lemma run_bind (m : M A) (k : A → M B) (s : St) :
  (m ≫= k) s =
  match result (m s) with
  | inl e => {| trace := trace (m s); final := final (m s); result := inl e |}
  | inr a =>
      {| trace := trace (m s) ++ trace (k a (final (m s)));
         final := final (k a (final (m s)));
         result := result (k a (final (m s))) |}
  end.
Proof. reflexivity. Qed.

Lemma post_bind (m : M A) (k : A → M B) (s : St) Q :
  post m s (fun tr s' r =>
    match r with
    | inl e => Q tr s' (inl e)
    | inr a => post (k a) s' (fun tr' s'' r' => Q (tr ++ tr') s'' r')
    end) →
  post (m ≫= k) s Q.
Proof. unfold post. rewrite run_bind. by destruct (result (m s)). Qed.

Lemma post_conseq (m : M A) (s : St) (Q Q' : list Event → St → exn + A → Prop) :
  post m s Q → (∀ tr s' r, Q tr s' r → Q' tr s' r) → post m s Q'.
Proof. unfold post. auto. Qed.

Lemma post_ret (a : A) (s : St) Q : Q [] s (inr a) → post (mret a) s Q.
Proof. done. Qed.

Lemma post_throw (e : exn) (s : St) (Q : list Event → St → exn + A → Prop) :
  Q [] s (inl e) → post (throw e) s Q.
Proof. done. Qed.

Lemma post_gets (f : St → A) (s : St) Q : Q [] s (inr (f s)) → post (gets f) s Q.
Proof. done. Qed.

Lemma post_await (e : Event) (r : exn + A) (s : St) Q : Q [e] s r → post (await e r) s Q.
Proof. unfold post. by destruct r. Qed.

Lemma reads_only_post (m : M A) (s : St) :
  reads_only m →
  post m s (fun tr s' _ => Forall (fun e => is_fs e = true) tr ∧ persisted s' = persisted s).
Proof. intros H. apply H. Qed.

Lemma reads_only_ret (a : A) : reads_only (mret a : M A).
Proof. intros s. by split; [constructor|]. Qed.

Lemma reads_only_throw (e : exn) : reads_only (throw e : M A).
Proof. intros s. by split; [constructor|]. Qed.

Lemma reads_only_bind (m : M A) (k : A → M B) :
  reads_only m → (∀ a, reads_only (k a)) → reads_only (m ≫= k).
Proof.
  intros Hm Hk s. rewrite run_bind. destruct (Hm s) as [Htr Hst].
  destruct (result (m s)) as [e|a]; simpl; [done|].
  destruct (Hk a (final (m s))) as [Htr' Hst']. split.
  - by apply Forall_app.
  - by rewrite Hst'.
Qed.

Lemma reads_only_await (e : Event) (r : exn + A) :
  is_fs e = true → reads_only (await e r).
Proof.
  intros He s. destruct r; (split; [by repeat constructor | done]).
Qed.

End Monad.

Lemma post_emit (e : Event) (s : St) Q : Q [e] s (inr tt) → post (emit e) s Q.
Proof. done. Qed.

Lemma post_modify (f : St → St) (s : St) Q : Q [] (f s) (inr tt) → post (modify f) s Q.
Proof. done. Qed.

Lemma post_await_unit (e : Event) (r : option exn) (s : St) Q :
  Q [e] s (match r with Some err => inl err | None => inr tt end) →
  post (await_unit e r) s Q.
Proof. unfold post. by destruct r. Qed.

Lemma post_set_property (key value : string) (s : St) Q :
  Q [] (set_telemetry (<[key := value]>) s) (inr tt) → post (set_property key value) s Q.
Proof. done. Qed.

Lemma post_getWorkspaceSetting (key fsPath : string) (s : St) Q :
  Q [] s (inr (settings s !! (fsPath, key))) → post (getWorkspaceSetting key fsPath) s Q.
Proof. done. Qed.

Lemma post_updateWorkspaceSetting (w : World) (key : string) (value : setting)
  (fsPath : string) (s : St) Q :
  match settings_update w key value fsPath with
  | Some err => Q [UpdateWorkspaceSetting key value fsPath] s (inl err)
  | None =>
      Q [UpdateWorkspaceSetting key value fsPath]
        (set_settings (<[(fsPath, key) := value]>) s) (inr tt)
  end →
  post (updateWorkspaceSetting w key value fsPath) s Q.
Proof.
  unfold post, updateWorkspaceSetting, await_unit. rewrite !run_bind. cbn.
  by destruct (settings_update w key value fsPath).
Qed.

Lemma post_getTasks (folder : WorkspaceFolder) (s : St) Q :
  Q [] s (inr (default [] (tasksJson s !! uri_fsPath folder))) → post (getTasks folder) s Q.
Proof. done. Qed.

Lemma post_updateTasks (folder : WorkspaceFolder) (tasks : list ITask) (s : St) Q :
  Q [UpdateTasks folder tasks] (set_tasksJson (<[uri_fsPath folder := tasks]>) s) (inr tt) →
  post (updateTasks folder tasks) s Q.
Proof. done. Qed.

Lemma post_showWarningMessage (w : World) (message : string) (items : list MessageItem)
  (s : St) Q :
  Q [ShowWarningMessage message items] s
    (match chosen w message items with
     | Some item => inr item
     | None => inl UserCancelledError
     end) →
  post (showWarningMessage w message items) s Q.
Proof. unfold post, showWarningMessage. rewrite run_bind. simpl. by destruct chosen. Qed.

(** One step of symbolic execution of a monadic program. *)
Ltac mstep :=
  lazymatch goal with
  | |- post (_ ≫= _) _ _ => apply post_bind
  | |- post (mret _) _ _ => apply post_ret
  | |- post (throw _) _ _ => apply post_throw
  | |- post (gets _) _ _ => apply post_gets
  | |- post (emit _) _ _ => apply post_emit
  | |- post (modify _) _ _ => apply post_modify
  | |- post (await _ _) _ _ => apply post_await
  | |- post (await_unit _ _) _ _ => apply post_await_unit
  | |- post (set_property _ _) _ _ => apply post_set_property
  | |- post (getWorkspaceSetting _ _) _ _ => apply post_getWorkspaceSetting
  | |- post (updateWorkspaceSetting _ _ _ _) _ _ => apply post_updateWorkspaceSetting
  | |- post (getTasks _) _ _ => apply post_getTasks
  | |- post (updateTasks _ _) _ _ => apply post_updateTasks
  | |- post (showWarningMessage _ _ _) _ _ => apply post_showWarningMessage
  end; cbn beta iota.

Lemma reads_only_emit (e : Event) : is_fs e = true → reads_only (emit e).
Proof. intros He s. split; [by repeat constructor | done]. Qed.

Lemma reads_only_set_property (key value : string) : reads_only (set_property key value).
Proof. intros s. by split; [constructor|]. Qed.

Create HintDb reads_only.
#[local] Hint Resolve reads_only_ret reads_only_throw reads_only_emit reads_only_await
  reads_only_set_property : reads_only.

Ltac reads_only_step :=
  first [ solve [eauto with reads_only]
        | apply reads_only_bind; [|intros ?]
        | match goal with |- reads_only (if ?b then _ else _) => destruct b end
        | match goal with |- reads_only (match ?o with _ => _ end) => destruct o end ].

(** ** [setPreDeployTaskForDotnet] *)

Section PreDeployPolicy.

Variable w : World.

Lemma checkFolderForCsproj_reads_only filePath :
  reads_only (checkFolderForCsproj w filePath).
Proof. unfold checkFolderForCsproj. repeat reads_only_step. Qed.

Lemma scanSubfolders_reads_only projectPath subfolders projectFiles :
  reads_only (scanSubfolders w projectPath subfolders projectFiles).
Proof.
  revert projectFiles. induction subfolders as [|folder rest IH]; intros projectFiles; simpl.
  - apply reads_only_ret.
  - pose proof checkFolderForCsproj_reads_only. repeat reads_only_step.
Qed.

Lemma findCsprojFiles_reads_only projectPath : reads_only (findCsprojFiles w projectPath).
Proof.
  unfold findCsprojFiles.
  pose proof checkFolderForCsproj_reads_only. pose proof scanSubfolders_reads_only.
  repeat reads_only_step.
Qed.

Lemma tryGetCsprojFile_reads_only projectPath : reads_only (tryGetCsprojFile w projectPath).
Proof.
  unfold tryGetCsprojFile. pose proof findCsprojFiles_reads_only. repeat reads_only_step.
Qed.

Lemma tryGetTargetFramework_reads_only projFilePath :
  reads_only (tryGetTargetFramework w projFilePath).
Proof. unfold tryGetTargetFramework. repeat reads_only_step. Qed.

End PreDeployPolicy.

Section PreDeployPolicyRuns.

Variable w : World.
Variable workspace : WorkspaceFolder.

Lemma find_same_label (t1 : ITask) (existingTasks : list ITask) :
  bool_decide (is_Some (List.find (fun t2 => same_label t1 t2) existingTasks))
  = bool_decide (label t1 ∈ map label existingTasks).
Proof.
  apply bool_decide_ext. induction existingTasks as [|t2 rest IH]; simpl.
  - split; [by intros [? ?] | by intros ?%elem_of_nil].
  - unfold same_label at 1. rewrite elem_of_cons. case_bool_decide as Heq.
    + split; [by left | eauto].
    + rewrite IH. split; [by right | by intros [?|?]].
Qed.

Lemma filter_missingTasks (existingTasks generated : list ITask) :
  List.filter
    (fun t1 => negb (bool_decide
       (is_Some (List.find (fun t2 => same_label t1 t2) existingTasks)))) generated
  = missingTasks existingTasks generated.
Proof.
  unfold missingTasks. induction generated as [|t rest IH]; simpl; [done|].
  by rewrite find_same_label, IH.
Qed.

Lemma tryGetCsprojFile_spec (projectPath : string) (s : St) :
  post (tryGetCsprojFile w projectPath) s (fun tr s' r =>
    Forall (fun e => is_fs e = true) tr ∧ persisted s' = persisted s
    ∧ ∀ csprojFile, r = inr (Some csprojFile) →
        result (findCsprojFiles w projectPath s) = inr [csprojFile]).
Proof.
  destruct (tryGetCsprojFile_reads_only w projectPath s) as [Htr Hst].
  unfold post. split_and!; [done..|].
  unfold tryGetCsprojFile. rewrite run_bind.
  destruct (result (findCsprojFiles w projectPath s)) as [e|files]; [done|].
  simpl. intros csprojFile [= H]. destruct files as [|f [|g rest]]; simpl in H; congruence.
Qed.

Lemma tryGetTargetFramework_spec (projFilePath : string) (s : St) :
  post (tryGetTargetFramework w projFilePath) s (fun tr s' r =>
    Forall (fun e => is_fs e = true) tr ∧ persisted s' = persisted s
    ∧ ∀ targetFramework, r = inr (Some targetFramework) →
        ∃ projContents,
          fs_readFile w projFilePath = Some projContents
          ∧ Regex.match_TargetFramework projContents = Some targetFramework).
Proof.
  destruct (tryGetTargetFramework_reads_only w projFilePath s) as [Htr Hst].
  unfold post. split_and!; [done..|].
  unfold tryGetTargetFramework. rewrite run_bind.
  destruct (fs_readFile w projFilePath) as [projContents|]; simpl; [|done].
  intros targetFramework [= H]. eauto.
Qed.

Lemma persisted_inv (s s' : St) :
  persisted s' = persisted s →
  settings s' = settings s ∧ tasksJson s' = tasksJson s
  ∧ deployFsPath s' = deployFsPath s ∧ deployedWithConfigs s' = deployedWithConfigs s.
Proof. unfold persisted. intros [= -> -> -> ->]. done. Qed.

Lemma persisted_eq (s' : St) a b c d :
  persisted s' = (a, b, c, d) →
  settings s' = a ∧ tasksJson s' = b ∧ deployFsPath s' = c ∧ deployedWithConfigs s' = d.
Proof. unfold persisted. intros [= <- <- <- <-]. done. Qed.


(** Every run of the policy has one of the shapes of [policy_run]. *)
Lemma setPreDeployTaskForDotnet_run (s : St) :
  policy_run w workspace s (setPreDeployTaskForDotnet w workspace s).
Proof.
  change (post (setPreDeployTaskForDotnet w workspace) s
            (fun tr s' r => policy_run w workspace s (Build_Outcome tr s' r))).
  unfold setPreDeployTaskForDotnet. do 6 mstep.
  match goal with |- context [negb (truthy ?a) || ?b || ?c] =>
    destruct (negb (truthy a) || b || c) end.
  { mstep. by apply policy_quiet; [constructor|]. }
  do 2 mstep.
  match goal with |- context [negb (isPathEqual ?a ?b ?c)] =>
    destruct (negb (isPathEqual a b c)) end.
  { mstep. by apply policy_quiet; [constructor|]. }
  mstep. eapply post_conseq; [apply tryGetCsprojFile_spec|].
  intros tr1 s1 r1 (Htr1 & Hs1 & Hfound). cbn beta.
  destruct r1 as [e|[csprojFile|]]; cbn beta iota.
  1-3: try mstep; try by (apply policy_quiet; simpl; rewrite ?app_nil_r).
  specialize (Hfound _ eq_refl).
  destruct (Js.truthy_str csprojFile).
  2:{ mstep. by apply policy_quiet; simpl; rewrite ?app_nil_r. }
  mstep. eapply post_conseq; [apply tryGetTargetFramework_spec|].
  intros tr2 s2 r2 (Htr2 & Hs2 & Hread). cbn beta.
  rewrite Hs1 in Hs2.
  destruct r2 as [e|[targetFramework|]]; cbn beta iota.
  1,3: try (do 3 mstep);
    by (apply policy_quiet; simpl; rewrite ?app_nil_r; [apply Forall_app|]).
  destruct (Hread _ eq_refl) as (projContents & Hfile & Hmatch).
  do 2 mstep.
  destruct (Js.truthy_str targetFramework) eqn:Htfw; cbn [negb].
  2:{ mstep. by apply policy_quiet; simpl; rewrite ?app_nil_r; [apply Forall_app|]. }
  assert (detected w workspace s csprojFile targetFramework) as Hdet.
  { split; [done|]. exists projContents. split_and!; [done..|]. by intros ->. }
  apply persisted_inv in Hs2 as (Hset & Htasks & Hpath & Hflag).
  do 2 mstep.
  destruct (chosen w _ _) as [item|] eqn:Hchosen; cbn beta iota.
  - destruct (decide (item = dontShowAgainButton)) as [->|Hitem].
    + mstep.
      destruct (settings_update w showPreDeployWarningSetting (SBool false) _) eqn:Hstore.
      all: eapply (policy_prompted _ _ _ _ csprojFile targetFramework (tr1 ++ tr2));
        [done | by apply Forall_app | cbn [trace app]; by rewrite app_assoc |].
      all: unfold notConfiguredForDeploy; rewrite Hchosen; unfold answered.
      all: rewrite decide_True by done; cbn [trace final result]; rewrite Hstore.
      all: split_and!; [done | | done]; unfold persisted.
      all: cbn [tasksJson settings deployFsPath deployedWithConfigs
                set_settings set_tasksJson set_telemetry set_deployFsPath].
      all: congruence.
    + do 2 mstep.
      destruct (settings_update w preDeployTaskSetting (SStr "publish") _) eqn:Hstore1;
        cbn beta iota.
      { eapply (policy_prompted _ _ _ _ csprojFile targetFramework (tr1 ++ tr2));
          [done | by apply Forall_app | cbn [trace app]; by rewrite app_assoc |].
        unfold notConfiguredForDeploy. rewrite Hchosen. unfold answered.
        rewrite decide_False by done. cbn [trace final result]. cbn zeta. rewrite Hstore1.
        split_and!; [done | | done]. unfold persisted.
        cbn [tasksJson settings deployFsPath deployedWithConfigs
             set_settings set_tasksJson set_telemetry set_deployFsPath].
        congruence. }
      do 2 mstep.
      fold (derivedSubpath w (uri_fsPath workspace) csprojFile targetFramework).
      destruct (settings_update w (configurationSettings_deploySubpath (constants w))
                  (SStr (derivedSubpath w (uri_fsPath workspace) csprojFile
                           targetFramework)) _) eqn:Hstore2; cbn beta iota.
      { eapply (policy_prompted _ _ _ _ csprojFile targetFramework (tr1 ++ tr2));
          [done | by apply Forall_app | cbn [trace app]; by rewrite app_assoc |].
        unfold notConfiguredForDeploy. rewrite Hchosen. unfold answered.
        rewrite decide_False by done. cbn [trace final result]. cbn zeta.
        rewrite Hstore1, Hstore2.
        split_and!; [done | | done]. unfold persisted.
        cbn [tasksJson settings deployFsPath deployedWithConfigs
             set_settings set_tasksJson set_telemetry set_deployFsPath].
        congruence. }
      do 5 mstep.
      eapply (policy_prompted _ _ _ _ csprojFile targetFramework (tr1 ++ tr2));
        [done | by apply Forall_app | cbn [trace app]; by rewrite app_assoc |].
      unfold notConfiguredForDeploy. rewrite Hchosen. unfold answered.
      rewrite decide_False by done. cbn [trace final result]. cbn zeta.
      rewrite Hstore1, Hstore2.
      rewrite filter_missingTasks.
      unfold persisted, derivedSubpath.
      cbn [tasksJson settings deployFsPath deployedWithConfigs
           set_settings set_tasksJson set_telemetry set_deployFsPath].
      rewrite Htasks, Hset, Hflag. done.
  - eapply (policy_prompted _ _ _ _ csprojFile targetFramework (tr1 ++ tr2));
      [done | by apply Forall_app | cbn [trace app]; by rewrite app_assoc |].
    unfold notConfiguredForDeploy. rewrite Hchosen. unfold answered.
    cbn [trace final result]. split_and!; [done | | done].
    unfold persisted.
    cbn [tasksJson settings deployFsPath deployedWithConfigs
         set_settings set_tasksJson set_telemetry set_deployFsPath].
    congruence.
Qed.

End PreDeployPolicyRuns.

(** *** The order in which the callbacks of the scan complete *)

Section CompletionOrder.

Variable w : World.
Variable projectPath : string.

Lemma scanSubfolders_completed subfolders projectFiles (s : St) :
  result (scanSubfolders w projectPath subfolders projectFiles s)
  = completed w projectPath subfolders projectFiles.
Proof.
  revert projectFiles s.
  induction subfolders as [|folder rest IH]; intros projectFiles s; [done|].
  change (post (scanSubfolders w projectPath (folder :: rest) projectFiles) s
            (fun _ _ r => r = completed w projectPath (folder :: rest) projectFiles)).
  cbn [scanSubfolders completed]. unfold foundIn, checkFolderForCsproj.
  do 3 mstep.
  destruct (fs_existsSync w (path_join w [projectPath; folder])).
  2:{ mstep. rewrite app_nil_r. apply IH. }
  do 2 mstep.
  destruct (fs_stat_isDirectory w (path_join w [projectPath; folder])) as [[|]|];
    cbn [of_option]; cbn beta iota; [| |done].
  2:{ mstep. rewrite app_nil_r. apply IH. }
  do 3 mstep.
  destruct (fs_readdir w (path_join w [projectPath; folder])) as [files|];
    cbn [of_option]; cbn beta iota; [|done].
  do 2 mstep. apply IH.
Qed.

Lemma same_files_trans a b c : same_files a b → same_files b c → same_files a c.
Proof.
  destruct a, b, c; simpl; try done. intros H1 H2. by rewrite H1.
Qed.

Lemma completed_same_accumulator subfolders projectFiles projectFiles' :
  projectFiles ≡ₚ projectFiles' →
  same_files (completed w projectPath subfolders projectFiles)
    (completed w projectPath subfolders projectFiles').
Proof.
  revert projectFiles projectFiles'.
  induction subfolders as [|folder rest IH]; intros acc acc' Hacc; simpl; [done|].
  destruct (foundIn w projectPath folder) as [e|found]; [done|].
  apply IH. by rewrite Hacc.
Qed.

(** The files the scan finds do not depend, up to their order, on the
    order in which the callbacks complete. *)
Lemma completed_any_order subfolders subfolders' projectFiles projectFiles' :
  subfolders ≡ₚ subfolders' →
  projectFiles ≡ₚ projectFiles' →
  same_files (completed w projectPath subfolders projectFiles)
    (completed w projectPath subfolders' projectFiles').
Proof.
  intros Hperm. revert projectFiles projectFiles'.
  induction Hperm as [|folder l l' _ IH|x y l|l l' l'' _ IH1 _ IH2];
    intros acc acc' Hacc.
  - done.
  - simpl. destruct (foundIn w projectPath folder); [done|]. apply IH. by rewrite Hacc.
  - simpl. destruct (foundIn w projectPath x) as [|fx], (foundIn w projectPath y) as [|fy];
      try done.
    apply completed_same_accumulator. rewrite Hacc, <- !app_assoc.
    by rewrite (Permutation_app_comm fy fx).
  - eapply same_files_trans; [by apply IH1|]. by apply IH2.
Qed.

Lemma onlyOne_any_order projectFiles projectFiles' :
  projectFiles ≡ₚ projectFiles' → onlyOne projectFiles = onlyOne projectFiles'.
Proof.
  intros Hperm. unfold onlyOne. rewrite <- (Permutation_length Hperm).
  destruct projectFiles as [|f [|g rest]]; [done| |done].
  by apply Permutation_singleton_l in Hperm as ->.
Qed.

(** The answer of [tryGetCsprojFile] is the same whatever the order in
    which the callbacks of [Promise.all] complete. *)
Lemma scanSubfolders_any_order subfolders subfolders' (s : St) :
  subfolders ≡ₚ subfolders' →
  match result (scanSubfolders w projectPath subfolders [] s),
        result (scanSubfolders w projectPath subfolders' [] s) with
  | inr files, inr files' =>
      length files = length files' ∧ onlyOne files = onlyOne files'
  | inl _, inl _ => True
  | _, _ => False
  end.
Proof.
  intros Hperm. rewrite !scanSubfolders_completed.
  pose proof (completed_any_order _ _ [] [] Hperm (reflexivity _)) as Hsame.
  destruct (completed w projectPath subfolders []),
    (completed w projectPath subfolders' []); try done.
  simpl in Hsame. split; [by apply Permutation_length | by apply onlyOne_any_order].
Qed.

End CompletionOrder.

Section PreDeployPolicyProperties.

Variable w : World.
Variable workspace : WorkspaceFolder.

Local Abbreviation workspaceFspath := (uri_fsPath workspace).
Local Abbreviation deploySubpathSetting := (configurationSettings_deploySubpath (constants w)).
Local Abbreviation items := [DialogResponses.yes; dontShowAgainButton].

Lemma is_fs_not_write (e : Event) (key : string) :
  is_fs e = true → is_prompt e = false ∧ is_write e = false ∧ writes_setting key e = false.
Proof. by destruct e. Qed.

Lemma fs_only_no_write (tr : list Event) (key : string) :
  Forall (fun e => is_fs e = true) tr → existsb (writes_setting key) tr = false.
Proof.
  induction 1 as [|e tr He _ IH]; simpl; [done|].
  destruct (is_fs_not_write e key He) as (_ & _ & ->). done.
Qed.

Lemma fs_only_silent (tr : list Event) :
  Forall (fun e => is_fs e = true) tr →
  Forall (fun e => is_prompt e = false ∧ is_write e = false) tr.
Proof.
  intros Hfs. eapply Forall_impl; [exact Hfs|]. intros e He.
  destruct (is_fs_not_write e EmptyString He) as (? & ? & _). done.
Qed.


Lemma fs_only_stores_nothing (tr : list Event) (key : string) :
  Forall (fun e => is_fs e = true) tr → existsb (stores w key) tr = false.
Proof.
  induction 1 as [|e tr He _ IH]; simpl; [done|]. rewrite IH. by destruct e.
Qed.

Lemma stores_other_key (key key' : string) (value : setting) (fsPath : string) :
  key ≠ key' → stores w key' (UpdateWorkspaceSetting key value fsPath) = false.
Proof. intros Hkey. cbn. by rewrite (proj2 (String.eqb_neq _ _) Hkey). Qed.

Lemma stores_accepted (key : string) (value : setting) (fsPath : string) :
  settings_update w key value fsPath = None →
  stores w key (UpdateWorkspaceSetting key value fsPath) = true.
Proof. intros Hstore. cbn. by rewrite String.eqb_refl, bool_decide_eq_true_2. Qed.

Lemma stores_rejected (key key' : string) (value : setting) (fsPath : string) (err : exn) :
  settings_update w key value fsPath = Some err →
  stores w key' (UpdateWorkspaceSetting key value fsPath) = false.
Proof.
  intros Hstore. cbn. rewrite bool_decide_eq_false_2 by congruence.
  by rewrite andb_false_r.
Qed.

(** C3, as the code has it. On every path of [setPreDeployTaskForDotnet]
    the settings [preDeployTask] and [deploySubpath] are written
    together or not at all, unless the preference store rejects the
    write of [deploySubpath]: then [preDeployTask], written first, stays
    written alone, and the run ends at the rejected write with the error
    of the store. *)
Theorem preDeployTask_and_deploySubpath_together (s : St) :
  distinct_keys (constants w) →
  let o := setPreDeployTaskForDotnet w workspace s in
  existsb (stores w preDeployTaskSetting) (trace o)
  = existsb (stores w deploySubpathSetting) (trace o)
  ∨ (existsb (stores w preDeployTaskSetting) (trace o) = true
     ∧ existsb (stores w deploySubpathSetting) (trace o) = false
     ∧ ∃ value err,
         last (trace o) = Some (UpdateWorkspaceSetting deploySubpathSetting value
                                  workspaceFspath)
         ∧ settings_update w deploySubpathSetting value workspaceFspath = Some err
         ∧ result o = inl err
         ∧ settings (final o) !! (workspaceFspath, preDeployTaskSetting)
           = Some (SStr "publish")
         ∧ settings (final o) !! (workspaceFspath, deploySubpathSetting)
           = settings s !! (workspaceFspath, deploySubpathSetting)).
Proof.
  intros [Hpre Hshow] o. subst o.
  destruct (setPreDeployTaskForDotnet_run w workspace s)
    as [Hfs _|csprojFile targetFramework reads after _ Hreads Htrace Hanswer].
  { left. by rewrite (fs_only_stores_nothing _ preDeployTaskSetting),
      (fs_only_stores_nothing _ deploySubpathSetting). }
  rewrite Htrace, !existsb_app, (fs_only_stores_nothing reads preDeployTaskSetting),
    (fs_only_stores_nothing reads deploySubpathSetting) by done.
  cbn [existsb preDeployPrompt stores orb].
  unfold answered in Hanswer.
  destruct (chosen w _ _) as [item|].
  2:{ left. by destruct Hanswer as (-> & _). }
  destruct (decide (item = dontShowAgainButton)).
  { left. destruct Hanswer as (-> & _). cbn [existsb].
    rewrite !stores_other_key; [done|congruence|done]. }
  cbn zeta in Hanswer.
  destruct (settings_update w preDeployTaskSetting (SStr "publish") workspaceFspath)
    as [err1|] eqn:Hstore1.
  { left. destruct Hanswer as (-> & _). cbn [existsb].
    by rewrite !(stores_rejected _ _ _ _ err1). }
  destruct (settings_update w deploySubpathSetting _ workspaceFspath) as [err2|] eqn:Hstore2.
  - right. destruct Hanswer as (-> & Hst & Hres). cbn [existsb].
    apply persisted_eq in Hst as (Hsettings & _).
    rewrite (stores_accepted _ _ _ Hstore1), !(stores_rejected _ _ _ _ err2 Hstore2),
      (stores_other_key preDeployTaskSetting deploySubpathSetting) by congruence.
    split_and!; [done..|]. eexists _, err2. split_and!; [|exact Hstore2|done| |].
    + rewrite last_app. done.
    + by rewrite Hsettings, lookup_insert_eq.
    + rewrite Hsettings. apply lookup_insert_ne. congruence.
  - left. destruct Hanswer as (-> & _). cbn [existsb].
    rewrite (stores_accepted _ _ _ Hstore1), (stores_accepted _ _ _ Hstore2).
    by rewrite !orb_true_r.
Qed.

(** C5. When the workspace settings already hold a non-empty
    [preDeployTask], or a non-empty [deploySubpath], or a
    [showPreDeployWarning] that is off, [setPreDeployTaskForDotnet]
    returns at once: it makes no call at all (no file system scan, no
    prompt, no write) and leaves the state as it found it. *)
Theorem configured_workspace_is_left_alone (s : St) :
  truthy (settings s !! (workspaceFspath, preDeployTaskSetting)) = true
  ∨ truthy (settings s !! (workspaceFspath, deploySubpathSetting)) = true
  ∨ truthy (settings s !! (workspaceFspath, showPreDeployWarningSetting)) = false →
  setPreDeployTaskForDotnet w workspace s = {| trace := []; final := s; result := inr tt |}.
Proof.
  intros Hskip.
  enough (post (setPreDeployTaskForDotnet w workspace) s
            (fun tr s' r => tr = [] ∧ s' = s ∧ r = inr tt)) as H.
  { unfold post in H. destruct (setPreDeployTaskForDotnet w workspace s); simpl in H.
    by destruct H as (-> & -> & ->). }
  unfold setPreDeployTaskForDotnet. do 6 mstep.
  replace (negb (truthy (settings s !! (workspaceFspath, showPreDeployWarningSetting)))
           || truthy (settings s !! (workspaceFspath, preDeployTaskSetting))
           || truthy (settings s !! (workspaceFspath, deploySubpathSetting))) with true.
  { by mstep. }
  destruct Hskip as [-> | [-> | ->]]; by rewrite ?orb_true_r.
Qed.

Lemma tryGetCsprojFile_result (projectPath : string) (s : St) :
  result (tryGetCsprojFile w projectPath s) =
  match result (findCsprojFiles w projectPath s) with
  | inl e => inl e
  | inr projectFiles =>
      inr (if (length projectFiles =? 1)%nat then projectFiles !! 0 else None)
  end.
Proof.
  unfold tryGetCsprojFile. rewrite run_bind.
  by destruct (result (findCsprojFiles w projectPath s)).
Qed.

(** C6. When the scan of the workspace root (or, the root holding none,
    of its immediate subfolders) finds two or more project files,
    [setPreDeployTaskForDotnet] gives up detection: it returns normally,
    none of its calls is a prompt or a write, and the settings and the
    task definitions are as before. *)
Theorem several_project_files_abandon (s : St) (projectFiles : list string) :
  result (findCsprojFiles w workspaceFspath s) = inr projectFiles →
  (2 ≤ length projectFiles)%nat →
  let o := setPreDeployTaskForDotnet w workspace s in
  Forall (fun e => is_prompt e = false ∧ is_write e = false) (trace o)
  ∧ settings (final o) = settings s
  ∧ tasksJson (final o) = tasksJson s
  ∧ result o = inr tt.
Proof.
  intros Hscan Hlen o. subst o.
  destruct (setPreDeployTaskForDotnet_run w workspace s)
    as [Hfs Hst|csprojFile targetFramework reads after [Hone _] _ _ _].
  2:{ rewrite Hscan in Hone.
      injection Hone as ->. simpl in Hlen. lia. }
  apply persisted_inv in Hst as (? & ? & _).
  split_and!; [by apply fs_only_silent | done | done |].
  change (post (setPreDeployTaskForDotnet w workspace) s (fun _ _ r => r = inr tt)).
  unfold setPreDeployTaskForDotnet. do 6 mstep.
  match goal with |- context [negb (truthy ?a) || ?b || ?c] =>
    destruct (negb (truthy a) || b || c) end; [by mstep|].
  do 2 mstep.
  match goal with |- context [negb (isPathEqual ?a ?b ?c)] =>
    destruct (negb (isPathEqual a b c)) end; [by mstep|].
  mstep. unfold post at 1.
  rewrite tryGetCsprojFile_result, Hscan.
  destruct projectFiles as [|f [|g rest]]; simpl in Hlen; [lia..|].
  simpl. by mstep.
Qed.



End PreDeployPolicyProperties.

(** ** [deploy] *)

Section EmitsOnly.

Context {A B : Type} (P : Event → Prop).

Lemma emits_only_ret (a : A) : emits_only P (mret a : M A).
Proof. intros s. constructor. Qed.

Lemma emits_only_throw (e : exn) : emits_only P (throw e : M A).
Proof. intros s. constructor. Qed.

Lemma emits_only_gets (f : St → A) : emits_only P (gets f).
Proof. intros s. constructor. Qed.

Lemma emits_only_bind (m : M A) (k : A → M B) :
  emits_only P m → (∀ a, emits_only P (k a)) → emits_only P (m ≫= k).
Proof.
  intros Hm Hk s. rewrite run_bind. specialize (Hm s).
  destruct (result (m s)) as [e|a]; simpl; [done|].
  apply Forall_app. split; [done | apply Hk].
Qed.

Lemma emits_only_await (e : Event) (r : exn + A) : P e → emits_only P (await e r).
Proof. intros He s. destruct r; by repeat constructor. Qed.

Lemma emits_only_try_catch (body : M A) (handler : exn → M A) :
  emits_only P body → (∀ e, emits_only P (handler e)) →
  emits_only P (try_catch body handler).
Proof.
  intros Hb Hh s. unfold try_catch. specialize (Hb s).
  destruct (result (body s)) as [e|a]; simpl; [|done].
  apply Forall_app. split; [done | apply Hh].
Qed.

Lemma emits_only_try_finally (body : M A) (cleanup : M unit) :
  emits_only P body → emits_only P cleanup → emits_only P (try_finally body cleanup).
Proof.
  intros Hb Hc s. unfold try_finally. simpl. apply Forall_app. split; [apply Hb | apply Hc].
Qed.

Lemma emits_only_post (m : M A) (s : St) :
  emits_only P m → post m s (fun tr _ _ => Forall P tr).
Proof. intros H. apply H. Qed.

End EmitsOnly.

Section EmitsOnlyUnit.

Context (P : Event → Prop).

Lemma emits_only_emit (e : Event) : P e → emits_only P (emit e).
Proof. intros He s. by repeat constructor. Qed.

Lemma emits_only_modify (f : St → St) : emits_only P (modify f).
Proof. intros s. constructor. Qed.

Lemma emits_only_await_unit (e : Event) (r : option exn) :
  P e → emits_only P (await_unit e r).
Proof. intros He s. destruct r; by repeat constructor. Qed.

Lemma emits_only_set_property (key value : string) : emits_only P (set_property key value).
Proof. intros s. constructor. Qed.

Lemma emits_only_getWorkspaceSetting (key fsPath : string) :
  emits_only P (getWorkspaceSetting key fsPath).
Proof. intros s. constructor. Qed.

Lemma emits_only_updateWorkspaceSetting (w : World) (key : string) (value : setting)
    (fsPath : string) :
  P (UpdateWorkspaceSetting key value fsPath) →
  emits_only P (updateWorkspaceSetting w key value fsPath).
Proof.
  intros He s. unfold post, updateWorkspaceSetting, await_unit. rewrite run_bind.
  destruct (settings_update w key value fsPath); cbn; by repeat constructor.
Qed.

End EmitsOnlyUnit.

Create HintDb emits_only.
#[local] Hint Resolve emits_only_ret emits_only_throw emits_only_gets emits_only_modify
  emits_only_set_property emits_only_getWorkspaceSetting : emits_only.

Ltac emits_only_step :=
  first [ solve [eauto with emits_only]
        | apply emits_only_bind; [|intros ?]
        | apply emits_only_await; [done..]
        | apply emits_only_await_unit; [done..]
        | apply emits_only_emit; [done..]
        | apply emits_only_updateWorkspaceSetting; [done..]
        | apply emits_only_try_finally
        | apply emits_only_try_catch; [|intros ?]
        | match goal with |- emits_only _ (if ?b then _ else _) => destruct b end
        | match goal with |- emits_only _ (match ?o with _ => _ end) => destruct o end
        | match goal with |- emits_only _ (let '(_, _) := ?p in _) => destruct p end ].

Section DeployBlocks.

Variable w : World.

Lemma selectTarget_before_gate workspace fsPath :
  emits_only before_gate (selectTarget w workspace fsPath).
Proof. unfold selectTarget. repeat emits_only_step. Qed.

Lemma stifleForNewNodes_before_gate node newNodes confirmDeployment :
  emits_only before_gate (stifleForNewNodes node newNodes confirmDeployment).
Proof.
  revert confirmDeployment. induction newNodes as [|newApp rest IH]; intros c; simpl;
    repeat emits_only_step.
Qed.

Lemma javaArtifact_before_gate siteConfig node :
  emits_only before_gate (javaArtifact w siteConfig node).
Proof. unfold javaArtifact. repeat emits_only_step. Qed.

Lemma buildDuringDeployPrompt_before_gate siteConfig node workspace :
  emits_only before_gate (buildDuringDeployPrompt w siteConfig node workspace).
Proof. unfold buildDuringDeployPrompt. repeat emits_only_step. Qed.

Lemma transfer_no_confirmation siteConfig node workspace correlationId :
  emits_only (fun e => is_confirmation e = false)
    (transfer w siteConfig node workspace correlationId).
Proof. unfold transfer. repeat emits_only_step. Qed.

(** What the loop over the created items leaves in [confirmDeployment]. *)
Lemma stifleForNewNodes_spec node newNodes confirmDeployment s :
  final (stifleForNewNodes node newNodes confirmDeployment s) = s
  ∧ result (stifleForNewNodes node newNodes confirmDeployment s)
    = inr (confirmDeployment
           && forallb (fun newApp => negb (String.eqb (fullId newApp) (fullId node)))
                newNodes).
Proof.
  revert confirmDeployment. induction newNodes as [|newApp rest IH]; intros c;
    cbn [stifleForNewNodes forallb].
  - by rewrite andb_true_r.
  - destruct (String.eqb (fullId newApp) (fullId node)); cbn [negb andb].
    + rewrite run_bind. cbn [emit result final trace].
      destruct (IH false) as [-> ->]. by rewrite andb_false_r.
    + apply IH.
Qed.

(** The answer of the target selection does not depend on the state. *)
Lemma selectTarget_result workspace fsPath s s' :
  result (selectTarget w workspace fsPath s) = result (selectTarget w workspace fsPath s').
Proof.
  unfold selectTarget. rewrite !run_bind.
  destruct (picked (getDefaultWebAppToDeploy w workspace fsPath)) as [e|[[node|] b]];
    simpl; [done..|].
  by destruct (picked (showTreeItemPicker w _)).
Qed.

End DeployBlocks.

Section PostControl.

Context {A : Type}.

Lemma post_try_catch (body : M A) (handler : exn → M A) (s : St) Q :
  post body s (fun tr s' r =>
    match r with
    | inl e => post (handler e) s' (fun tr' s'' r' => Q (tr ++ tr') s'' r')
    | inr a => Q tr s' (inr a)
    end) →
  post (try_catch body handler) s Q.
Proof.
  unfold post, try_catch. destruct (body s) as [tr s' [e|a]]; simpl; done.
Qed.

Lemma post_try_finally (body : M A) (cleanup : M unit) (s : St) Q :
  post body s (fun tr s' r =>
    post cleanup s' (fun tr' s'' _ => Q (tr ++ tr') s'' r)) →
  post (try_finally body cleanup) s Q.
Proof. done. Qed.

Lemma post_and (m : M A) (s : St) (Q1 Q2 : list Event → St → exn + A → Prop) :
  post m s Q1 → post m s Q2 → post m s (fun tr s' r => Q1 tr s' r ∧ Q2 tr s' r).
Proof. by split. Qed.

End PostControl.

Lemma before_gate_no_confirmation (tr : list Event) :
  Forall before_gate tr → Forall (fun e => is_confirmation e = false) tr.
Proof. intros H. eapply Forall_impl; [exact H|]. by intros e [? ?]. Qed.

Ltac forall_events :=
  cbn [trace app];
  repeat first
    [ assumption
    | apply before_gate_no_confirmation; assumption
    | match goal with
      | |- Forall _ [] => constructor
      | |- Forall _ (_ :: _) => constructor; [done|]
      | |- Forall _ (_ ++ _) => apply Forall_app; split
      end ].

Section DeployRuns.

Variable w : World.

Local Abbreviation no_confirmation := (fun e => is_confirmation e = false).

(** The shapes of the part of [deploy] that follows the resolution of
    the target. *)
Lemma deployTo_shape confirmDeployment node newNodes siteConfigOpt workspace (s : St) :
  post (deployTo w confirmDeployment node newNodes siteConfigOpt workspace) s
    (fun tr s' r =>
       Forall no_confirmation tr
       ∨ ∃ siteConfig withConfigs before after,
           confirmDeployment = true
           ∧ (∀ newApp, newApp ∈ newNodes → fullId newApp ≠ fullId node)
           ∧ (siteConfigOpt = Some siteConfig
              ∨ siteConfigOpt = None ∧ getSiteConfig w node = inr siteConfig)
           ∧ scmType siteConfig ≠ Some (ScmType_LocalGit (constants w))
           ∧ Forall before_gate before
           ∧ tr = before ++ Delay 500 :: confirmationModal w node withConfigs :: after
           ∧ gate_answer w workspace
               (chosen w (confirmationWarning node) (confirmationItems w withConfigs))
               after s' r).
Proof.
  unfold deployTo. mstep.
  set (confirm' := confirmDeployment
         && forallb (fun newApp => negb (String.eqb (fullId newApp) (fullId node))) newNodes).
  eapply (post_conseq _ _ (fun tr s' r =>
            Forall before_gate tr ∧ s' = s ∧ r = inr confirm')).
  { destruct (0 <? length newNodes)%nat eqn:Hlen.
    - unfold post.
      destruct (stifleForNewNodes_spec node newNodes confirmDeployment s) as [-> ->].
      split; [apply stifleForNewNodes_before_gate | done].
    - destruct newNodes; [|done]. mstep. subst confirm'. simpl.
      by rewrite andb_true_r. }
  intros tr0 ? ? (Htr0 & -> & ->). cbn beta iota.
  do 3 mstep.
  eapply (post_conseq _ _ (fun tr s' r =>
            Forall before_gate tr
            ∧ match r with
              | inl _ => True
              | inr siteConfig =>
                  siteConfigOpt = Some siteConfig
                  ∨ siteConfigOpt = None ∧ getSiteConfig w node = inr siteConfig
              end)).
  { destruct siteConfigOpt as [siteConfig|]; mstep.
    - split; [constructor | by left].
    - split; [by repeat constructor|]. destruct (getSiteConfig w node); auto. }
  intros tr1 s1 [e|siteConfig] [Htr1 Hsc]; cbn beta iota.
  { left. forall_events. }
  mstep. eapply post_conseq; [apply emits_only_post, javaArtifact_before_gate|].
  intros tr2 s2 [e|[]] Htr2; cbn beta iota.
  { left. forall_events. }
  mstep. eapply post_conseq; [apply emits_only_post, buildDuringDeployPrompt_before_gate|].
  intros tr3 s3 [e|[]] Htr3; cbn beta iota.
  { left. forall_events. }
  mstep. unfold confirmationGate.
  match goal with |- context [if ?c then _ else mret false] => destruct c eqn:Hcond end.
  2:{ mstep. eapply post_conseq; [apply emits_only_post, transfer_no_confirmation|].
      intros tr4 s4 r4 Htr4. left. forall_events. }
  apply andb_true_iff in Hcond as [Hcond _]. apply andb_true_iff in Hcond as [Hc Hscm].
  subst confirm'. apply andb_true_iff in Hc as [-> Hnew].
  assert (∀ newApp, newApp ∈ newNodes → fullId newApp ≠ fullId node) as Hfresh.
  { intros newApp Hin. rewrite forallb_forall in Hnew.
    apply list_elem_of_In, Hnew, negb_true_iff, String.eqb_neq in Hin. done. }
  assert (scmType siteConfig ≠ Some (ScmType_LocalGit (constants w))) as Hgit.
  { intros Heq. rewrite Heq in Hscm. simpl in Hscm. by rewrite String.eqb_refl in Hscm. }
  do 8 mstep.
  set (withConfigs :=
         deployedWithConfigs
           (set_telemetry (<["cancelStep" := "confirmDestructiveDeployment"]>) s3)).
  fold (confirmationWarning node) (confirmationItems w withConfigs).
  fold (confirmationModal w node withConfigs).
  assert (Forall before_gate (tr0 ++ tr1 ++ tr2 ++ tr3)) as Hbefore by forall_events.
  destruct (chosen w (confirmationWarning node) (confirmationItems w withConfigs))
    as [item|] eqn:Hchosen; cbn beta iota.
  2:{ right. exists siteConfig, withConfigs, (tr0 ++ tr1 ++ tr2 ++ tr3), [].
      split_and!; [done.. | by cbn [app]; rewrite <- !app_assoc |].
      rewrite Hchosen. by split. }
  destruct (decide (item = resetDefault)) as [->|Hitem].
  - do 2 mstep.
    destruct (openTextDocument w (path_join w [uri_fsPath workspace; ".vscode";
                                                "settings.json"])) as [err|] eqn:Hopen;
      cbn beta iota.
    + right. exists siteConfig, withConfigs, (tr0 ++ tr1 ++ tr2 ++ tr3),
        [OpenTextDocument (settingsPath w workspace)].
      split_and!; [done.. | by cbn [app]; rewrite <- !app_assoc |].
      rewrite Hchosen. unfold gate_answer, settingsPath. rewrite decide_True, Hopen by done.
      by split.
    + do 4 mstep.
      destruct (settings_update w (configurationSettings_defaultWebAppToDeploy (constants w))
                  (SStr EmptyString) (uri_fsPath workspace)) as [err|] eqn:Hstore;
        cbn beta iota.
      { right. exists siteConfig, withConfigs, (tr0 ++ tr1 ++ tr2 ++ tr3),
          [OpenTextDocument (settingsPath w workspace);
           Detached (ShowTextDocument (settingsPath w workspace));
           UpdateWorkspaceSetting (configurationSettings_defaultWebAppToDeploy (constants w))
             (SStr EmptyString) (uri_fsPath workspace)].
        split_and!; [done.. | by cbn [app]; rewrite <- !app_assoc |].
        rewrite Hchosen. unfold gate_answer, settingsPath.
        rewrite decide_True, Hopen by done. cbn zeta. rewrite Hstore. by split. }
      do 2 mstep.
      destruct (executeCommand w "appService.Deploy") as [err|] eqn:Hexec; cbn beta iota;
        [|do 2 mstep];
        (right; exists siteConfig, withConfigs, (tr0 ++ tr1 ++ tr2 ++ tr3),
           [OpenTextDocument (settingsPath w workspace);
            Detached (ShowTextDocument (settingsPath w workspace));
            UpdateWorkspaceSetting (configurationSettings_defaultWebAppToDeploy (constants w))
              (SStr EmptyString) (uri_fsPath workspace);
            ExecuteCommand "appService.Deploy"];
         split_and!; [done.. | by cbn [app]; rewrite <- !app_assoc |];
         rewrite Hchosen; unfold gate_answer, settingsPath;
         rewrite decide_True, Hopen by done; cbn zeta; rewrite Hstore, Hexec;
         split_and!; [done | | done];
         cbn [settings set_settings]; apply lookup_insert_eq).
  - do 3 mstep.
    eapply post_conseq; [apply emits_only_post, transfer_no_confirmation|].
    intros tr4 s4 r4 Htr4.
    right. exists siteConfig, withConfigs, (tr0 ++ tr1 ++ tr2 ++ tr3), tr4.
    split_and!; [done.. | by cbn [app]; rewrite <- !app_assoc |].
    rewrite Hchosen. unfold gate_answer. by rewrite decide_False.
Qed.

(** Every run of [deploy] has one of the shapes of [deploy_run]. *)
Lemma deploy_shape (confirmDeployment : bool) (target : Target) (s : St) :
  deploy_run w confirmDeployment target s (deploy w confirmDeployment target s).
Proof.
  change (post (deploy w confirmDeployment target) s
            (fun tr s' r => deploy_run w confirmDeployment target s (Build_Outcome tr s' r))).
  unfold deploy, javaFileExtensionOf. do 3 mstep. unfold entryPoint.
  destruct target as [p|item|].
  2:{ do 2 mstep.
      destruct (getSiteConfig w item) as [e|fetched] eqn:Hfetched; cbn beta iota;
        [solve [apply deploy_not_confirmed; forall_events]|].
      do 3 mstep.
      match goal with |- context [getDeployFsPath w ?t ?x] =>
        destruct (getDeployFsPath w t x) as [e|fsPath] eqn:HfsPath end; cbn beta iota;
        [solve [apply deploy_not_confirmed; forall_events]|].
      destruct (getContainingWorkspace w fsPath) as [workspace|] eqn:Hworkspace;
        [|solve [mstep; apply deploy_not_confirmed; forall_events]].
      do 5 mstep. unfold resolveNode. mstep.
      eapply post_conseq; [apply deployTo_shape|].
      intros tr s' r [Hquiet|(siteConfig & withConfigs & before & after & Hconfirm & Hfresh
                              & [[= <-]|[[=] _]] & Hgit & Hbefore & -> & Hanswer)];
        [solve [apply deploy_not_confirmed; forall_events]|].
      rewrite !app_assoc.
      eapply (deploy_confirmed _ _ _ _ _ item [] workspace fetched withConfigs _ after);
        [done | done | by exists fsPath; split; [exists fetched|] | done | done | done |
        | reflexivity | done ].
      forall_events. }
  all: do 3 mstep.
  all: match goal with |- context [getDeployFsPath w ?t None] =>
         destruct (getDeployFsPath w t None) as [e|fsPath] eqn:HfsPath end; cbn beta iota;
       [solve [apply deploy_not_confirmed; forall_events]|].
  all: destruct (getContainingWorkspace w fsPath) as [workspace|] eqn:Hworkspace;
       [|solve [mstep; apply deploy_not_confirmed; forall_events]].
  all: do 5 mstep; unfold resolveNode; do 2 mstep.
  all: apply post_try_finally, post_try_catch; unfold post at 1.
  all: match goal with |- context [selectTarget w _ _ ?s1] =>
         pose proof (selectTarget_before_gate w workspace fsPath s1) as Hselect;
         pose proof (selectTarget_result w workspace fsPath s1 s) as Hresult;
         destruct (selectTarget w workspace fsPath s1) as [trS sS [err2|[node newNodes]]]
       end; cbn [trace final result] in *;
       [solve [mstep; destruct (isUserCancelledError err2); do 3 mstep;
               apply deploy_not_confirmed; forall_events]|].
  all: mstep; eapply post_conseq; [apply deployTo_shape|].
  all: intros tr s' r [Hquiet|(siteConfig & withConfigs & before & after & Hconfirm & Hfresh
                               & [Hsc|[_ Hsc]] & Hgit & Hbefore & -> & Hanswer)];
       [ solve [apply deploy_not_confirmed; forall_events] | done | ].
  all: rewrite !app_assoc.
  all: eapply (deploy_confirmed _ _ _ _ _ node newNodes workspace siteConfig withConfigs
                 _ after);
       [done | by exists fsPath; rewrite <- Hresult | by exists fsPath | done | done | done |
       | reflexivity | done ].
  all: forall_events.
Qed.

End DeployRuns.

Section DeployProperties.

Variable w : World.

Local Abbreviation no_confirmation := (fun e => is_confirmation e = false).

(** The confirmation modal is shown by the gate exactly when the run was
    asked to confirm and the site is not deployed from a local Git
    repository; the comparison with [ScmType.GitHub] never holds the
    modal back. *)
Lemma confirmationGate_shown confirmDeployment siteConfig node workspace (s : St) :
  existsb is_confirmation
    (trace (confirmationGate w confirmDeployment siteConfig node workspace s))
  = confirmDeployment
    && negb (Js.strict_eq_str (scmType siteConfig) (ScmType_LocalGit (constants w))).
Proof.
  change (post (confirmationGate w confirmDeployment siteConfig node workspace) s
            (fun tr _ _ =>
               existsb is_confirmation tr
               = confirmDeployment
                 && negb (Js.strict_eq_str (scmType siteConfig)
                            (ScmType_LocalGit (constants w))))).
  unfold confirmationGate, Js.strict_neq_object_string. rewrite andb_true_r.
  destruct (confirmDeployment && negb _); [|by mstep].
  do 8 mstep.
  match goal with |- context [chosen w ?m ?i] => destruct (chosen w m i) as [item|] end;
    cbn beta iota; [|done].
  destruct (decide (item = resetDefault)); [|by do 3 mstep].
  do 2 mstep.
  match goal with |- context [openTextDocument w ?p] => destruct (openTextDocument w p) end;
    cbn beta iota; [done|].
  do 4 mstep. destruct (settings_update w _ _ _); cbn beta iota; [done|].
  do 2 mstep. destruct (executeCommand w _); cbn beta iota; [done|by mstep].
Qed.

(** C4. When the target resolved by the interactive selection has the
    identity of a target created during that same selection, no
    confirmation modal is shown, whatever [confirmDeployment] is. *)
Theorem created_target_skips_confirmation (confirmDeployment : bool) (target : Target)
  (s : St) (fsPath : string) (workspace : WorkspaceFolder)
  (node : SiteTreeItem) (newNodes : list SiteTreeItem) :
  (∀ item, target ≠ TNode item) →
  getDeployFsPath w target None = inr fsPath →
  getContainingWorkspace w fsPath = Some workspace →
  result (selectTarget w workspace fsPath s) = inr (node, newNodes) →
  (∃ newApp, newApp ∈ newNodes ∧ fullId newApp = fullId node) →
  Forall no_confirmation (trace (deploy w confirmDeployment target s)).
Proof.
  intros Htarget HfsPath Hworkspace Hselected (newApp & Hin & Hid).
  destruct (deploy_shape w confirmDeployment target s)
    as [Hquiet|node' newNodes' workspace' siteConfig withConfigs before after
               _ Hresolved _ Hfresh _ _ _ _ _]; [done|].
  exfalso. destruct target as [p|item|]; [|by eapply Htarget|].
  all: destruct Hresolved as (fsPath' & HfsPath' & Hworkspace' & Hselected').
  all: rewrite HfsPath in HfsPath'; injection HfsPath' as <-.
  all: rewrite Hworkspace in Hworkspace'; injection Hworkspace' as <-.
  all: rewrite Hselected in Hselected'; injection Hselected' as <- <-.
  all: by eapply Hfresh.
Qed.

(** C2, as the code has it. When the path resolved for the target lies in
    no workspace folder, [deploy] fails with the error 'Failed to deploy
    because the path is not part of an open workspace...'; before
    failing it makes no remote call if the target is not a tree item,
    and exactly one, the fetch of the site configuration, if the target
    is a tree item. *)
Theorem outside_workspace_fails (confirmDeployment : bool) (target : Target) (s : St)
  (fsPath : string) :
  resolvesTo w target fsPath →
  getContainingWorkspace w fsPath = None →
  let o := deploy w confirmDeployment target s in
  result o = inl NoWorkspaceFound
  ∧ List.filter is_remote (trace o) = remoteCallsOfEntry target
  ∧ persisted (final o) = persisted s.
Proof.
  intros Hresolves Hnone o. subst o.
  change (post (deploy w confirmDeployment target) s
            (fun tr s' r =>
               r = inl NoWorkspaceFound
               ∧ List.filter is_remote tr = remoteCallsOfEntry target
               ∧ persisted s' = persisted s)).
  unfold deploy, entryPoint. do 3 mstep.
  destruct target as [p|item|]; cbn [resolvesTo] in Hresolves.
  2:{ destruct Hresolves as (siteConfig & Hfetch & Hpath).
      do 2 mstep. rewrite Hfetch. cbn beta iota. do 3 mstep.
      rewrite Hpath. cbn beta iota. rewrite Hnone. by mstep. }
  all: do 3 mstep; cbn [javaFileExtensionOf]; rewrite Hresolves; cbn beta iota;
       rewrite Hnone; by mstep.
Qed.

Lemma resolvesTo_functional (target : Target) (fsPath fsPath' : string) :
  resolvesTo w target fsPath → resolvesTo w target fsPath' → fsPath = fsPath'.
Proof.
  destruct target as [p|item|]; cbn [resolvesTo]; [congruence| |congruence].
  intros (siteConfig & Hfetch & Hpath) (siteConfig' & Hfetch' & Hpath'). congruence.
Qed.

(** C9, as the code has it. When the answer to the confirmation modal is
    'Reset default', the run opens the settings file of the workspace
    that contains the path being deployed, clears the persisted default
    target of that workspace, runs the command [appService.Deploy] anew
    and returns right after it, with the outcome of the command. When
    the settings file does not open, or the preference store rejects
    the write, the run ends at that call with its error. In every case
    none of its calls runs the pre-deploy task or transfers an
    artifact. *)
Theorem reset_default_restarts (confirmDeployment : bool) (target : Target) (s : St)
  (fsPath : string) (workspace : WorkspaceFolder)
  (message : string) (items : list MessageItem) :
  resolvesTo w target fsPath →
  getContainingWorkspace w fsPath = Some workspace →
  chosen w message items = Some resetDefault →
  let o := deploy w confirmDeployment target s in
  let key := configurationSettings_defaultWebAppToDeploy (constants w) in
  ShowWarningMessage message items ∈ trace o →
  Forall (fun e => is_transfer e = false) (trace o)
  ∧ ∃ before,
      match openTextDocument w (settingsPath w workspace),
            settings_update w key (SStr EmptyString) (uri_fsPath workspace) with
      | Some err, _ =>
          trace o = before ++
            [ShowWarningMessage message items;
             OpenTextDocument (settingsPath w workspace)]
          ∧ result o = inl err
      | None, Some err =>
          trace o = before ++
            [ShowWarningMessage message items;
             OpenTextDocument (settingsPath w workspace);
             Detached (ShowTextDocument (settingsPath w workspace));
             UpdateWorkspaceSetting key (SStr EmptyString) (uri_fsPath workspace)]
          ∧ result o = inl err
      | None, None =>
          trace o = before ++
            [ShowWarningMessage message items;
             OpenTextDocument (settingsPath w workspace);
             Detached (ShowTextDocument (settingsPath w workspace));
             UpdateWorkspaceSetting key (SStr EmptyString) (uri_fsPath workspace);
             ExecuteCommand "appService.Deploy"]
          ∧ settings (final o) !! (uri_fsPath workspace, key) = Some (SStr EmptyString)
          ∧ result o = match executeCommand w "appService.Deploy" with
                       | Some err => inl err
                       | None => inr tt
                       end
      end.
Proof.
  intros Hresolves Hworkspace Hreset o key Hshown. subst o key.
  destruct (deploy_shape w confirmDeployment target s)
    as [Hquiet|node newNodes workspace' siteConfig withConfigs before after
               _ _ (fsPath' & Hresolves' & Hworkspace') _ _ _ Hbefore Htrace Hanswer].
  { rewrite Forall_forall in Hquiet. by apply Hquiet in Hshown. }
  rewrite (resolvesTo_functional _ _ _ Hresolves' Hresolves) in Hworkspace'.
  assert (workspace' = workspace) as -> by congruence.
  rewrite Htrace in Hshown |- *.
  assert (Forall no_confirmation after →
          message = confirmationWarning node ∧ items = confirmationItems w withConfigs)
    as Hmodal.
  { intros Hafter. rewrite elem_of_app, !elem_of_cons in Hshown.
    destruct Hshown as [Hin|[?|[Heq|Hin]]]; [|done| |].
    - rewrite Forall_forall in Hbefore. by apply Hbefore in Hin as [? _].
    - by injection Heq as -> ->.
    - rewrite Forall_forall in Hafter. by apply Hafter in Hin. }
  assert (Forall (fun e => is_transfer e = false) before) as Hquiet.
  { eapply Forall_impl; [exact Hbefore|]. by intros e [_ ?]. }
  unfold gate_answer in Hanswer.
  destruct (chosen w (confirmationWarning node) (confirmationItems w withConfigs))
    as [item|] eqn:Hchosen.
  2:{ destruct Hanswer as [-> _]. destruct Hmodal as [-> ->]; [constructor|congruence]. }
  destruct (decide (item = resetDefault)) as [->|Hother].
  2:{ destruct (Hmodal Hanswer) as [-> ->]. congruence. }
  cbn zeta in Hanswer.
  destruct (openTextDocument w (settingsPath w workspace)) as [err|];
    [|destruct (settings_update w _ _ _) as [err|]].
  - destruct Hanswer as (-> & Hresult).
    destruct Hmodal as [-> ->]; [by repeat constructor|]. split.
    + apply Forall_app. split; [done | by repeat constructor].
    + exists (before ++ [Delay 500]). by rewrite <- app_assoc.
  - destruct Hanswer as (-> & Hresult).
    destruct Hmodal as [-> ->]; [by repeat constructor|]. split.
    + apply Forall_app. split; [done | by repeat constructor].
    + exists (before ++ [Delay 500]). by rewrite <- app_assoc.
  - destruct Hanswer as (-> & Hsettings & Hresult).
    destruct Hmodal as [-> ->]; [by repeat constructor|]. split.
    + apply Forall_app. split; [done | by repeat constructor].
    + exists (before ++ [Delay 500]). by rewrite <- app_assoc.
Qed.

(** Whether or not the settings file opens and the preference store
    accepts the write, a run in which 'Reset default' is chosen neither
    runs the pre-deploy task nor transfers an artifact. *)
Lemma reset_default_never_transfers (confirmDeployment : bool) (target : Target) (s : St)
  (message : string) (items : list MessageItem) :
  chosen w message items = Some resetDefault →
  ShowWarningMessage message items ∈ trace (deploy w confirmDeployment target s) →
  Forall (fun e => is_transfer e = false) (trace (deploy w confirmDeployment target s)).
Proof.
  intros Hreset Hshown.
  destruct (deploy_shape w confirmDeployment target s)
    as [Hquiet|node newNodes workspace siteConfig withConfigs before after
               _ _ _ _ _ _ Hbefore Htrace Hanswer].
  { rewrite Forall_forall in Hquiet. by apply Hquiet in Hshown. }
  rewrite Htrace in Hshown |- *.
  assert (Forall before_gate before ∧ Forall (fun e => is_transfer e = false) before)
    as [_ Hquiet].
  { split; [done|]. eapply Forall_impl; [exact Hbefore|]. by intros e [_ ?]. }
  apply Forall_app. split; [done|]. do 2 (constructor; [done|]).
  unfold gate_answer in Hanswer.
  destruct (chosen w (confirmationWarning node) (confirmationItems w withConfigs))
    as [item|] eqn:Hchosen.
  2:{ destruct Hanswer as [-> _]. constructor. }
  destruct (decide (item = resetDefault)) as [->|Hother].
  - cbn zeta in Hanswer.
    destruct (openTextDocument w (settingsPath w workspace));
      [|destruct (settings_update w _ _ _)];
      destruct Hanswer as (-> & _); by repeat constructor.
  - exfalso. rewrite elem_of_app, !elem_of_cons in Hshown.
    destruct Hshown as [Hin|[?|[Heq|Hin]]]; [|done| |].
    + rewrite Forall_forall in Hbefore. by apply Hbefore in Hin as [? _].
    + injection Heq as -> ->. congruence.
    + rewrite Forall_forall in Hanswer. by apply Hanswer in Hin.
Qed.

End DeployProperties.

(** ** The properties on the concrete world *)

Section Scenarios.

Example scenario_root_project :
  let o := setPreDeployTaskForDotnet yesWorld demoWorkspace demoSt in
  settings (final o) !! ("/ws", "deploySubpath") = Some (SStr "bin/Release/net6.0/publish")
  ∧ settings (final o) !! ("/ws", "preDeployTask") = Some (SStr "publish")
  ∧ deployFsPath (final o) = "/ws/bin/Release/net6.0/publish"
  ∧ map label (default [] (tasksJson (final o) !! "/ws"))
    = [Some "build"; Some "publish"; Some "watch"].
Proof. vm_compute. done. Qed.

(** The project file one level deeper. *)
Example scenario_subfolder_project :
  let w := demoWorld None (Some 0) ["README.md"; "src"] pickExisting None "/ws" in
  let o := setPreDeployTaskForDotnet w demoWorkspace demoSt in
  settings (final o) !! ("/ws", "deploySubpath")
  = Some (SStr "src/bin/Release/net6.0/publish")
  ∧ deployFsPath (final o) = "/ws/src/bin/Release/net6.0/publish".
Proof. vm_compute. done. Qed.

(** A task labelled [publish] that exists is kept, and the generated one
    is not added. *)
Example scenario_existing_publish_task :
  let mine := {| label := Some "publish"; command := "make"; type := "shell";
                 args := []; problemMatcher := EmptyString |} in
  let s := set_tasksJson (<["/ws" := [mine]]>) demoSt in
  let o := setPreDeployTaskForDotnet yesWorld demoWorkspace s in
  (default [] (tasksJson (final o) !! "/ws")) !! 0 = Some mine
  ∧ map label (default [] (tasksJson (final o) !! "/ws"))
    = [Some "publish"; Some "build"; Some "watch"].
Proof. vm_compute. done. Qed.

Example greedy_capture :
  Regex.match_TargetFramework
    "<TargetFramework>a</TargetFramework>b</TargetFramework>"
  = Some "a</TargetFramework>b".
Proof. reflexivity. Qed.

Example empty_capture :
  Regex.match_TargetFramework "<TargetFramework></TargetFramework>" = Some EmptyString.
Proof. reflexivity. Qed.

(** C1, on the code. A site whose fetched configuration has the source
    control type GitHub is deployed with [confirmDeployment = true] and a
    target that was not created during the run: the confirmation modal
    is shown, where the specification has it skipped. *)
Theorem github_site_is_asked_to_confirm :
  let o := deploy githubWorld true (TNode demoSite) emptySt in
  getSiteConfig githubWorld demoSite
  = inr {| linuxFxVersion := Some "DOTNETCORE|6.0";
           scmType := Some (ScmType_GitHub (constants githubWorld)) |}
  ∧ trace o !! 3 = Some (confirmationModal githubWorld demoSite false)
  ∧ existsb is_confirmation (trace o) = true.
Proof. vm_compute. done. Qed.

(** The same run on a site deployed from a local Git repository shows
    no modal. *)
Example localgit_site_is_not_asked :
  let w := demoWorld (Some "LocalGit") (Some 0) [] pickExisting None "/ws" in
  existsb is_confirmation (trace (deploy w true (TNode demoSite) emptySt)) = false.
Proof. vm_compute. done. Qed.

(** C2, refuted as stated. The target is a tree item and the resolved
    path lies in no workspace folder: [deploy] fails with the error
    'Failed to deploy because the path is not part of an open
    workspace...', but the site configuration was fetched from the remote
    service before. *)
Lemma tree_item_outside_workspace_calls_remote :
  let o := deploy elsewhereWorld true (TNode demoSite) emptySt in
  resolvesTo elsewhereWorld (TNode demoSite) "/elsewhere"
  ∧ getContainingWorkspace elsewhereWorld "/elsewhere" = None
  ∧ result o = inl NoWorkspaceFound
  ∧ ¬ Forall (fun e => is_remote e = false) (trace o).
Proof.
  cbv zeta. split_and!.
  - eexists. split; reflexivity.
  - reflexivity.
  - reflexivity.
  - vm_compute. intros H. apply Forall_cons in H as [H _]. discriminate H.
Qed.

(** C3, refuted as stated. The user answers 'Yes' and the preference
    store accepts the write of [preDeployTask] but rejects the write of
    [deploySubpath], which follows it: [preDeployTask] is written, and
    [deploySubpath] is not. *)
Lemma rejected_deploySubpath_leaves_preDeployTask :
  let o := setPreDeployTaskForDotnet halfWorld demoWorkspace demoSt in
  chosen halfWorld (notConfiguredForDeploy demoWorkspace)
    [DialogResponses.yes; dontShowAgainButton] = Some DialogResponses.yes
  ∧ existsb (stores halfWorld "preDeployTask") (trace o)
    ≠ existsb (stores halfWorld "deploySubpath") (trace o)
  ∧ settings demoSt !! ("/ws", "preDeployTask") = None
  ∧ settings (final o) !! ("/ws", "preDeployTask") = Some (SStr "publish")
  ∧ settings (final o) !! ("/ws", "deploySubpath") = None
  ∧ result o = inl (Rejected "settings").
Proof. vm_compute. split_and!; (reflexivity || discriminate). Qed.

(** C9, refuted as stated. The workspace names a default target, the
    modal is answered with 'Reset default', and the settings file of the
    workspace does not open: the run ends with the error of the editor,
    the default target is still set, and the command [appService.Deploy]
    was not run. *)
Lemma unopened_settings_keep_the_default :
  let o := deploy unopenableWorld true TUndefined defaultSt in
  chosen unopenableWorld (confirmationWarning demoSite)
    (confirmationItems unopenableWorld true) = Some resetDefault
  ∧ confirmationModal unopenableWorld demoSite true ∈ trace o
  ∧ settings (final o) !! ("/ws", "defaultWebAppToDeploy") = Some (SStr (fullId demoSite))
  ∧ (ExecuteCommand "appService.Deploy" ∉ trace o)
  ∧ result o = inl (Rejected "open").
Proof.
  cbv zeta. split_and!.
  - vm_compute. reflexivity.
  - apply (list_elem_of_lookup_2 _ 6). vm_compute. reflexivity.
  - vm_compute. reflexivity.
  - intros Hin. apply list_elem_of_In in Hin. vm_compute in Hin. intuition discriminate.
  - vm_compute. reflexivity.
Qed.

End Scenarios.

(** ** The properties applied *)

Section Witnesses.

Lemma preDeployTask_and_deploySubpath_together_witness :
  distinct_keys (constants halfWorld)
  ∧ (existsb (stores halfWorld preDeployTaskSetting)
       (trace (setPreDeployTaskForDotnet halfWorld demoWorkspace demoSt))
     = existsb (stores halfWorld (configurationSettings_deploySubpath (constants halfWorld)))
         (trace (setPreDeployTaskForDotnet halfWorld demoWorkspace demoSt))
     ∨ (existsb (stores halfWorld preDeployTaskSetting)
          (trace (setPreDeployTaskForDotnet halfWorld demoWorkspace demoSt)) = true
        ∧ existsb (stores halfWorld (configurationSettings_deploySubpath (constants halfWorld)))
            (trace (setPreDeployTaskForDotnet halfWorld demoWorkspace demoSt)) = false
        ∧ ∃ value err,
            last (trace (setPreDeployTaskForDotnet halfWorld demoWorkspace demoSt))
            = Some (UpdateWorkspaceSetting
                      (configurationSettings_deploySubpath (constants halfWorld)) value
                      (uri_fsPath demoWorkspace))
            ∧ settings_update halfWorld
                (configurationSettings_deploySubpath (constants halfWorld)) value
                (uri_fsPath demoWorkspace) = Some err
            ∧ result (setPreDeployTaskForDotnet halfWorld demoWorkspace demoSt) = inl err
            ∧ settings (final (setPreDeployTaskForDotnet halfWorld demoWorkspace demoSt))
                !! (uri_fsPath demoWorkspace, preDeployTaskSetting)
              = Some (SStr "publish")
            ∧ settings (final (setPreDeployTaskForDotnet halfWorld demoWorkspace demoSt))
                !! (uri_fsPath demoWorkspace,
                    (configurationSettings_deploySubpath (constants halfWorld)))
              = settings demoSt
                  !! (uri_fsPath demoWorkspace,
                      (configurationSettings_deploySubpath (constants halfWorld))))).
Proof.
  assert (distinct_keys (constants halfWorld)) as H by (split; discriminate).
  split; [exact H|].
  exact (preDeployTask_and_deploySubpath_together halfWorld demoWorkspace demoSt H).
Defined.

Lemma configured_workspace_is_left_alone_witness :
  truthy (settings configuredSt !! ("/ws", "preDeployTask")) = true
  ∧ setPreDeployTaskForDotnet yesWorld demoWorkspace configuredSt
    = {| trace := []; final := configuredSt; result := inr tt |}.
Proof.
  assert (truthy (settings configuredSt !! ("/ws", "preDeployTask")) = true) as H
    by (vm_compute; reflexivity).
  split; [exact H|].
  apply (configured_workspace_is_left_alone yesWorld demoWorkspace configuredSt).
  left. exact H.
Defined.

Lemma several_project_files_abandon_witness :
  result (findCsprojFiles severalWorld "/ws" demoSt)
  = inr ["/ws/App.csproj"; "/ws/Other.CSPROJ"]
  ∧ (2 ≤ length ["/ws/App.csproj"; "/ws/Other.CSPROJ"])%nat
  ∧ Forall (fun e => is_prompt e = false ∧ is_write e = false)
      (trace (setPreDeployTaskForDotnet severalWorld demoWorkspace demoSt))
  ∧ settings (final (setPreDeployTaskForDotnet severalWorld demoWorkspace demoSt))
    = settings demoSt
  ∧ tasksJson (final (setPreDeployTaskForDotnet severalWorld demoWorkspace demoSt))
    = tasksJson demoSt
  ∧ result (setPreDeployTaskForDotnet severalWorld demoWorkspace demoSt) = inr tt.
Proof.
  assert (result (findCsprojFiles severalWorld "/ws" demoSt)
          = inr ["/ws/App.csproj"; "/ws/Other.CSPROJ"]) as Hscan
    by (vm_compute; reflexivity).
  assert (2 ≤ length ["/ws/App.csproj"; "/ws/Other.CSPROJ"])%nat as Hlen
    by (simpl; lia).
  split; [exact Hscan|]. split; [exact Hlen|].
  exact (several_project_files_abandon severalWorld demoWorkspace demoSt _ Hscan Hlen).
Defined.


Lemma yesWorld_prompted :
  preDeployPrompt demoWorkspace
  ∈ trace (setPreDeployTaskForDotnet yesWorld demoWorkspace demoSt).
Proof. apply (list_elem_of_lookup_2 _ 2). vm_compute. reflexivity. Defined.

Lemma yesWorld_accepts_writes : accepts_writes yesWorld "/ws".
Proof. intros key value. reflexivity. Defined.



Lemma created_target_skips_confirmation_witness :
  (∀ item, TUndefined ≠ TNode item)
  ∧ getDeployFsPath createdWorld TUndefined None = inr "/ws"
  ∧ getContainingWorkspace createdWorld "/ws" = Some demoWorkspace
  ∧ result (selectTarget createdWorld demoWorkspace "/ws" emptySt)
    = inr (demoSite, [demoSite])
  ∧ (∃ newApp, newApp ∈ [demoSite] ∧ fullId newApp = fullId demoSite)
  ∧ Forall (fun e => is_confirmation e = false)
      (trace (deploy createdWorld true TUndefined emptySt)).
Proof.
  assert (∀ item, TUndefined ≠ TNode item) as H1 by discriminate.
  assert (getDeployFsPath createdWorld TUndefined None = inr "/ws") as H2 by reflexivity.
  assert (getContainingWorkspace createdWorld "/ws" = Some demoWorkspace) as H3
    by reflexivity.
  assert (result (selectTarget createdWorld demoWorkspace "/ws" emptySt)
          = inr (demoSite, [demoSite])) as H4 by reflexivity.
  assert (∃ newApp, newApp ∈ [demoSite] ∧ fullId newApp = fullId demoSite) as H5
    by (exists demoSite; split; [constructor | reflexivity]).
  split; [exact H1|]. split; [exact H2|]. split; [exact H3|]. split; [exact H4|]. split; [exact H5|].
  exact (created_target_skips_confirmation createdWorld true TUndefined emptySt
           "/ws" demoWorkspace demoSite [demoSite] H1 H2 H3 H4 H5).
Defined.

Lemma reset_default_restarts_witness :
  resolvesTo resetWorld TUndefined "/ws"
  ∧ getContainingWorkspace resetWorld "/ws" = Some demoWorkspace
  ∧ chosen resetWorld (confirmationWarning demoSite) (confirmationItems resetWorld true)
    = Some resetDefault
  ∧ confirmationModal resetWorld demoSite true
    ∈ trace (deploy resetWorld true TUndefined emptySt)
  ∧ Forall (fun e => is_transfer e = false)
      (trace (deploy resetWorld true TUndefined emptySt))
  ∧ ∃ before,
      trace (deploy resetWorld true TUndefined emptySt) = before ++
        [confirmationModal resetWorld demoSite true;
         OpenTextDocument (settingsPath resetWorld demoWorkspace);
         Detached (ShowTextDocument (settingsPath resetWorld demoWorkspace));
         UpdateWorkspaceSetting
           (configurationSettings_defaultWebAppToDeploy (constants resetWorld))
           (SStr EmptyString) (uri_fsPath demoWorkspace);
         ExecuteCommand "appService.Deploy"]
      ∧ settings (final (deploy resetWorld true TUndefined emptySt))
          !! (uri_fsPath demoWorkspace,
              configurationSettings_defaultWebAppToDeploy (constants resetWorld))
        = Some (SStr EmptyString)
      ∧ result (deploy resetWorld true TUndefined emptySt) = inr tt.
Proof.
  assert (resolvesTo resetWorld TUndefined "/ws") as H1 by reflexivity.
  assert (getContainingWorkspace resetWorld "/ws" = Some demoWorkspace) as H2
    by reflexivity.
  assert (chosen resetWorld (confirmationWarning demoSite)
            (confirmationItems resetWorld true) = Some resetDefault) as H3
    by (vm_compute; reflexivity).
  assert (confirmationModal resetWorld demoSite true
          ∈ trace (deploy resetWorld true TUndefined emptySt)) as H4
    by (apply (list_elem_of_lookup_2 _ 6); vm_compute; reflexivity).
  split; [exact H1|]. split; [exact H2|]. split; [exact H3|]. split; [exact H4|].
  exact (reset_default_restarts resetWorld true TUndefined emptySt "/ws" demoWorkspace
           _ _ H1 H2 H3 H4).
Defined.

Lemma outside_workspace_fails_witness :
  resolvesTo elsewhereWorld (TNode demoSite) "/elsewhere"
  ∧ getContainingWorkspace elsewhereWorld "/elsewhere" = None
  ∧ result (deploy elsewhereWorld true (TNode demoSite) emptySt) = inl NoWorkspaceFound
  ∧ List.filter is_remote (trace (deploy elsewhereWorld true (TNode demoSite) emptySt))
    = [GetSiteConfig demoSite]
  ∧ persisted (final (deploy elsewhereWorld true (TNode demoSite) emptySt))
    = persisted emptySt.
Proof.
  assert (resolvesTo elsewhereWorld (TNode demoSite) "/elsewhere") as H1
    by (eexists; split; reflexivity).
  assert (getContainingWorkspace elsewhereWorld "/elsewhere" = None) as H2 by reflexivity.
  split; [exact H1|]. split; [exact H2|].
  exact (outside_workspace_fails elsewhereWorld true (TNode demoSite) emptySt
           "/elsewhere" H1 H2).
Defined.

End Witnesses.

(** * Further properties *)

(** ** [parseAzureResourceId]: resource ids written and read back *)

Section ResourceIds.

Lemma split_no_slash (s : string) : no_slash s = true → Js.split "/" s = [s].
Proof.
  induction s as [|c s IH]; simpl; [done|].
  intros [Hc Hs]%andb_true_iff. apply negb_true_iff in Hc. rewrite Hc, (IH Hs). done.
Qed.

Lemma split_app_slash (s rest : string) :
  no_slash s = true → Js.split "/" (s +:+ String "/" rest) = s :: Js.split "/" rest.
Proof.
  induction s as [|c s IH]; simpl; [done|].
  intros [Hc Hs]%andb_true_iff. apply negb_true_iff in Hc. rewrite Hc, (IH Hs). done.
Qed.

Lemma split_segments_no_slash (s x : string) : x ∈ Js.split "/" s → no_slash x = true.
Proof.
  revert x. induction s as [|c s IH]; simpl; intros x.
  - by intros ->%list_elem_of_singleton.
  - destruct (Ascii.eqb c "/") eqn:Hc.
    + intros [->|Hx]%elem_of_cons; [done | by apply IH].
    + destruct (Js.split "/" s) as [|seg segs] eqn:Hsplit.
      * intros ->%list_elem_of_singleton. simpl. rewrite Hc. done.
      * intros [->|Hx]%elem_of_cons.
        -- simpl. rewrite Hc. simpl. apply IH. by left.
        -- apply IH. by right.
Qed.

Lemma substring_all (s : string) : String.substring 0 (String.length s) s = s.
Proof. induction s as [|c s IH]; simpl; [done | by rewrite IH]. Qed.

Lemma substring_from_1 (c : ascii) (s : string) : Js.substring_from 1 (String c s) = s.
Proof. unfold Js.substring_from. simpl. rewrite Nat.sub_0_r. apply substring_all. Qed.

Lemma is_segment_inv (s : string) :
  is_segment s = true → s ≠ EmptyString ∧ no_slash s = true.
Proof.
  unfold is_segment, Js.truthy_str. intros [Hs Hn]%andb_true_iff. split; [|done].
  by apply negb_true_iff, String.eqb_neq in Hs.
Qed.

Lemma append_empty (s : string) : s +:+ EmptyString = s.
Proof.
  induction s as [|c s IH]; [done|].
  change (String c (s +:+ EmptyString) = String c s). by f_equal.
Qed.

Lemma renderResourceId_segments (pairs : list (string * string)) :
  pairs ≠ [] →
  Forall (fun kv => is_segment kv.1 = true ∧ is_segment kv.2 = true) pairs →
  ∃ c rest, renderResourceId pairs = String "/" (String c rest)
            ∧ Js.split "/" (String c rest) = flatten pairs.
Proof.
  induction pairs as [|[key value] pairs IH]; [done|]. intros _ Hall.
  apply Forall_cons in Hall as [[Hkey Hvalue] Hall]. simpl in Hkey, Hvalue.
  apply is_segment_inv in Hkey as [Hkey Hkey'], Hvalue as [_ Hvalue'].
  destruct key as [|c key]; [done|].
  exists c, (key +:+ "/" +:+ value +:+ renderResourceId pairs). split; [done|].
  change (Js.split "/" (String c key +:+ String "/" (value +:+ renderResourceId pairs))
          = flatten ((String c key, value) :: pairs)).
  rewrite split_app_slash by done. unfold flatten. simpl. f_equal.
  destruct pairs as [|kv pairs].
  - simpl. rewrite append_empty. by apply split_no_slash.
  - destruct IH as (c' & rest & -> & Hrest); [done..|].
    rewrite split_app_slash by done. by rewrite Hrest.
Qed.

Lemma parse_pairs_flatten (pairs : list (string * string)) (result : gmap string string) :
  Forall (fun kv => is_segment kv.1 = true ∧ is_segment kv.2 = true) pairs →
  parse_pairs (flatten pairs) result
  = inr (foldl (fun result kv => <[kv.1 := kv.2]> result) result
           (filter (fun kv => kv.1 ≠ "__proto__") pairs)).
Proof.
  revert result. induction pairs as [|[key value] pairs IH]; intros result Hall; [done|].
  apply Forall_cons in Hall as [[Hkey Hvalue] Hall]. simpl in Hkey, Hvalue.
  apply is_segment_inv in Hkey as [Hkey _], Hvalue as [Hvalue _].
  unfold flatten. simpl.
  destruct (String.eqb_spec key EmptyString); [done|].
  destruct (String.eqb_spec value EmptyString); [done|].
  simpl. rewrite filter_cons. unfold assign. simpl.
  destruct (String.eqb_spec key "__proto__") as [->|Hproto].
  - rewrite decide_False by (by intros H; apply H). by apply IH.
  - rewrite decide_True by done. by apply IH.
Qed.

Lemma flatten_length (pairs : list (string * string)) :
  length (flatten pairs) = 2 * length pairs.
Proof. induction pairs as [|kv pairs IH]; simpl; [done|]. unfold flatten in *. simpl. lia. Qed.

(** X1. Reading back a written id: for pairs of non-empty, slash-free
    keys and values, the id [/k1/v1/k2/v2...] is parsed without error into
    the object that assigns in turn the pairs whose key is not
    [__proto__]; a pair with the key [__proto__] leaves no entry. *)
Theorem parse_renderResourceId (pairs : list (string * string)) :
  pairs ≠ [] →
  Forall (fun kv => is_segment kv.1 = true ∧ is_segment kv.2 = true) pairs →
  parseAzureResourceId (renderResourceId pairs)
  = inr (assignAll (filter (fun kv => kv.1 ≠ "__proto__") pairs)).
Proof.
  intros Hne Hall.
  destruct (renderResourceId_segments pairs Hne Hall) as (c & rest & Hid & Hsplit).
  unfold parseAzureResourceId. rewrite Hid. cbn [Js.truthy_str String.eqb negb orb].
  change (Js.charAt 0 (String "/" (String c rest))) with "/".
  cbn [String.length Nat.ltb Nat.leb String.eqb Ascii.eqb negb orb].
  rewrite substring_from_1, Hsplit, flatten_length.
  replace ((2 * length pairs) mod 2 =? 0)%nat with true.
  2:{ symmetry. apply Nat.eqb_eq. by rewrite Nat.mul_comm, Nat.Div0.mod_mul. }
  cbn [negb]. by apply parse_pairs_flatten.
Qed.

(** X2. Every key and every value of a returned object is a non-empty
    string without slash. *)
Theorem parsed_entries_are_segments (resourceId : string) (result : gmap string string)
  (key value : string) :
  parseAzureResourceId resourceId = inr result →
  result !! key = Some value →
  is_segment key = true ∧ is_segment value = true.
Proof.
  unfold parseAzureResourceId.
  destruct (negb _ || _ || _); [done|].
  destruct (length _ mod 2 =? 0)%nat eqn:Heven; [|done]. cbn [negb].
  apply even_mod2 in Heven. intros Hparse Hlookup.
  apply parse_pairs_inr in Hparse as [Hne Hchar]; [|done].
  apply Hchar in Hlookup as [(_ & i & Hk & Hv & _)|[_ Hempty]];
    [|by rewrite lookup_empty in Hempty].
  apply list_elem_of_lookup_2 in Hk, Hv.
  assert (∀ x, x ∈ Js.split "/" (Js.substring_from 1 resourceId) → is_segment x = true)
    as Hseg.
  { intros x Hx. unfold is_segment, Js.truthy_str. apply andb_true_iff. split.
    - apply negb_true_iff, String.eqb_neq. by intros ->.
    - by eapply split_segments_no_slash. }
  split; by apply Hseg.
Qed.

Lemma assign_empty (key value : string) (acc : gmap string string) :
  assign key value acc = ∅ ↔ key = "__proto__" ∧ acc = ∅.
Proof.
  unfold assign. destruct (String.eqb_spec key "__proto__") as [->|Hproto].
  - split; [by intros -> | by intros [_ ->]].
  - split; [|by intros [? _]]. intros H. by apply insert_non_empty in H.
Qed.

Lemma assign_size (key value : string) (acc : gmap string string) :
  (size (assign key value acc) ≤ S (size acc))%nat.
Proof.
  unfold assign. destruct (String.eqb key "__proto__"); [lia|].
  destruct (acc !! key) eqn:Hkey.
  - rewrite map_size_insert_Some by done. lia.
  - rewrite map_size_insert_None by done. lia.
Qed.

Lemma parse_pairs_size (parts : list string) (acc result : gmap string string) :
  parse_pairs parts acc = inr result →
  Nat.Even (length parts) →
  (result = ∅ ↔ acc = ∅ ∧ ∀ i key, parts !! (2 * i) = Some key → key = "__proto__")
  ∧ (size result ≤ size acc + length parts / 2)%nat.
Proof.
  revert acc result. pattern parts. apply pairs_ind; clear parts;
    [intros acc result | intros x acc result | intros key value rest IH acc result];
    cbn [parse_pairs].
  - intros [= <-] _. split; [|lia]. split; [|by intros [? _]].
    intros ->. split; [done|]. intros i key. by rewrite lookup_nil.
  - intros _ [n Hn]. simpl in Hn. lia.
  - destruct (String.eqb key EmptyString || String.eqb value EmptyString); [done|].
    intros Hparse Heven.
    assert (Nat.Even (length rest)) as Heven'.
    { destruct Heven as [n Hn]. simpl in Hn. exists (n - 1). lia. }
    apply IH in Hparse as [Hempty Hsize]; [|done]. split.
    + rewrite Hempty, assign_empty. split.
      * intros [[-> ->] Hrest]. split; [done|]. intros [|i] key'.
        -- by intros [= <-].
        -- rewrite lookup_even_cons. apply Hrest.
      * intros [-> Hall]. split_and!; [by apply (Hall 0) | done |].
        intros i key' Hi. apply (Hall (S i)). by rewrite lookup_even_cons.
    + assert (length (key :: value :: rest) / 2 = S (length rest / 2))%nat as ->.
      { change (length (key :: value :: rest)) with (1 * 2 + length rest)%nat.
        rewrite Nat.div_add_l by lia. lia. }
      pose proof (assign_size key value acc). lia.
Qed.

(** X3. A returned object has at most one entry for every two segments
    of the id, and it is empty exactly when every key of the id is
    [__proto__]. *)
Theorem parsed_object_size (resourceId : string) (result : gmap string string) :
  parseAzureResourceId resourceId = inr result →
  (result = ∅ ↔ ∀ i key, segments resourceId !! (2 * i) = Some key → key = "__proto__")
  ∧ (size result ≤ length (segments resourceId) / 2)%nat.
Proof.
  unfold parseAzureResourceId. fold (segments resourceId).
  destruct (negb _ || _ || _); [done|].
  destruct (length _ mod 2 =? 0)%nat eqn:Heven; [|done]. cbn [negb].
  apply even_mod2 in Heven. intros Hparse.
  apply parse_pairs_size in Hparse as [Hempty Hsize]; [|done].
  rewrite map_size_empty in Hsize. split; [|done].
  rewrite Hempty. split; [by intros [_ ?] | done].
Qed.

End ResourceIds.

(** ** The two patterns of [setPreDeployTaskForDotnet.ts] *)

Section Patterns.

Lemma app_String (c : ascii) (s t : string) : String c s +:+ t = String c (s +:+ t).
Proof. done. Qed.

Lemma app_Empty (t : string) : EmptyString +:+ t = t.
Proof. done. Qed.

Lemma strip_Some (p s rest : string) : Regex.strip p s = Some rest ↔ s = p +:+ rest.
Proof.
  revert s. induction p as [|x p IH]; intros s; simpl.
  - rewrite app_Empty. split; congruence.
  - rewrite app_String. destruct s as [|y s]; [split; discriminate|].
    destruct (Ascii.eqb_spec x y) as [->|Hxy].
    + rewrite IH. split; [by intros -> | by intros [= ->]].
    + split; [discriminate | intros [= ? ?]; congruence].
Qed.

Lemma greedy_until_sound (close s captured : string) :
  Regex.greedy_until close s = Some captured →
  one_line captured = true ∧ ∃ after, s = captured +:+ close +:+ after.
Proof.
  revert captured. induction s as [|c s IH]; intros captured; simpl.
  - destruct (Regex.strip close EmptyString) as [after|] eqn:Hstrip; [|done].
    intros [= <-]. apply strip_Some in Hstrip. split; [done|]. by exists after.
  - assert (match Regex.strip close (String c s) with
            | Some _ => Some EmptyString
            | None => None
            end = Some captured →
            one_line captured = true ∧ ∃ after, String c s = captured +:+ close +:+ after)
      as Hhere.
    { destruct (Regex.strip close (String c s)) as [after|] eqn:Hstrip; [|done].
      intros [= <-]. apply strip_Some in Hstrip. split; [done|]. by exists after. }
    destruct (Regex.is_line_terminator c) eqn:Hc; [done|].
    destruct (Regex.greedy_until close s) as [captured'|]; [|done].
    intros [= <-]. destruct (IH _ eq_refl) as [Hline (after & ->)]. split.
    + simpl. by rewrite Hc.
    + by exists after.
Qed.

Lemma greedy_until_complete (close captured after : string) :
  one_line captured = true →
  is_Some (Regex.greedy_until close (captured +:+ close +:+ after)).
Proof.
  induction captured as [|c captured IH]; intros Hline.
  - rewrite app_Empty.
    assert (Regex.strip close (close +:+ after) = Some after) as Hstrip
      by by apply strip_Some.
    destruct (close +:+ after) as [|c s] eqn:Hs; simpl; rewrite Hstrip; [done|].
    destruct (Regex.is_line_terminator c); [done|].
    by destruct (Regex.greedy_until close s).
  - rewrite app_String. simpl in Hline |- *.
    apply andb_true_iff in Hline as [Hc Hline]. apply negb_true_iff in Hc. rewrite Hc.
    destruct (IH Hline) as [x ->]. done.
Qed.

Lemma match_at_Some (s captured : string) :
  Regex.match_at s = Some captured →
  one_line captured = true
  ∧ ∃ after, s = "<TargetFramework>" +:+ captured +:+ "</TargetFramework>" +:+ after.
Proof.
  unfold Regex.match_at.
  destruct (Regex.strip "<TargetFramework>" s) as [rest|] eqn:Hstrip; [|done].
  apply strip_Some in Hstrip as ->. intros Hgreedy.
  apply greedy_until_sound in Hgreedy as [Hline (after & ->)]. split; [done|].
  by exists after.
Qed.

Lemma match_TargetFramework_nil :
  Regex.match_TargetFramework EmptyString
  = match Regex.match_at EmptyString with Some value => Some value | None => None end.
Proof. done. Qed.

Lemma match_TargetFramework_cons (c : ascii) (s : string) :
  Regex.match_TargetFramework (String c s)
  = match Regex.match_at (String c s) with
    | Some value => Some value
    | None => Regex.match_TargetFramework s
    end.
Proof. done. Qed.

(** X4. The pattern of [tryGetTargetFramework] finds a value exactly when
    the contents hold one between the two tags on one line, and the value
    it returns is such a value. *)
Theorem match_TargetFramework_spec (contents : string) :
  match Regex.match_TargetFramework contents with
  | Some value => holds_TargetFramework contents value
  | None => ∀ value, ¬ holds_TargetFramework contents value
  end.
Proof.
  induction contents as [|c contents IH].
  - rewrite match_TargetFramework_nil.
    destruct (Regex.match_at EmptyString) as [value|] eqn:Hat.
    + apply match_at_Some in Hat as [Hline (after & Hat)]. split; [done|].
      exists EmptyString, after. done.
    + intros value [_ (before & after & Heq)].
      destruct before; discriminate Heq.
  - rewrite match_TargetFramework_cons.
    destruct (Regex.match_at (String c contents)) as [value|] eqn:Hat.
    + apply match_at_Some in Hat as [Hline (after & Hat)]. split; [done|].
      exists EmptyString, after. done.
    + destruct (Regex.match_TargetFramework contents) as [value|].
      * destruct IH as [Hline (before & after & ->)]. split; [done|].
        exists (String c before), after. done.
      * intros value [Hline (before & after & Heq)].
        destruct before as [|c' before].
        -- rewrite app_Empty in Heq. unfold Regex.match_at in Hat.
           assert (Regex.strip "<TargetFramework>" (String c contents)
                   = Some (value +:+ "</TargetFramework>" +:+ after)) as Hstrip
             by by apply strip_Some.
           rewrite Hstrip in Hat.
           destruct (greedy_until_complete "</TargetFramework>" value after Hline)
             as [x Hx]. congruence.
        -- rewrite app_String in Heq. injection Heq as -> ->.
           apply (IH value). split; [done|]. by exists before, after.
Qed.

Lemma fold_case_lower (c p : ascii) :
  In p ["."; "c"; "s"; "p"; "r"; "o"; "j"]%char →
  Ascii.eqb (Regex.fold_case c) (Regex.fold_case p) = Ascii.eqb (Js.lower c) p.
Proof.
  intros [<-|[<-|[<-|[<-|[<-|[<-|[<-|[]]]]]]]];
    destruct c as [[] [] [] [] [] [] [] []]; vm_compute; reflexivity.
Qed.

Lemma eqb_ci_csproj (ext : string) :
  Regex.eqb_ci ext ".csproj" = true ↔ Js.toLowerCase ext = ".csproj".
Proof.
  assert (∀ pattern ext,
            (∀ p, In p (list_ascii_of_string pattern) →
                  In p ["."; "c"; "s"; "p"; "r"; "o"; "j"]%char) →
            Regex.eqb_ci ext pattern = true ↔ Js.toLowerCase ext = pattern) as Hgen.
  { clear ext. intros pattern. induction pattern as [|p pattern IH]; intros ext Hp.
    - destruct ext; simpl; split; done.
    - destruct ext as [|c ext]; simpl; [split; done|].
      rewrite fold_case_lower by (apply Hp; by left).
      rewrite andb_true_iff, IH by (intros q Hq; apply Hp; by right).
      rewrite Ascii.eqb_eq. split; [by intros [-> ->] | by intros [= -> ->]]. }
  apply Hgen. simpl. tauto.
Qed.

(** X5. The pattern of [checkFolderForCsproj] accepts exactly the paths
    that end with [.csproj], whatever the case of the letters. *)
Theorem test_csproj_spec (f : string) :
  Regex.test_csproj f = true
  ↔ ∃ stem extension, f = stem +:+ extension ∧ Js.toLowerCase extension = ".csproj".
Proof.
  induction f as [|c f IH].
  - simpl. split; [done|]. intros (stem & extension & Heq & Hext).
    destruct stem, extension; done.
  - cbn [Regex.test_csproj]. rewrite orb_true_iff, IH, eqb_ci_csproj. split.
    + intros [Hall|(stem & extension & -> & Hext)].
      * by exists EmptyString, (String c f).
      * by exists (String c stem), extension.
    + intros (stem & extension & Heq & Hext). destruct stem as [|c' stem].
      * left. rewrite app_Empty in Heq. by rewrite Heq.
      * right. rewrite app_String in Heq. injection Heq as -> ->.
        by exists stem, extension.
Qed.

End Patterns.

(** ** [tryGetCsprojFile]: what the scan reads and what it answers *)

Section ScanFurther.

Variable w : World.

Lemma checkFolderForCsproj_run (filePath : string) (s : St) :
  checkFolderForCsproj w filePath s
  = {| trace := [FsReaddirSync filePath]; final := s; result := csprojIn w filePath |}.
Proof.
  unfold checkFolderForCsproj, csprojIn, await. rewrite !run_bind. cbn.
  by destruct (fs_readdir w filePath).
Qed.

Lemma findCsprojFiles_scanned (projectPath : string) (s : St) :
  (∃ rest, trace (findCsprojFiles w projectPath s) = FsReaddirSync projectPath :: rest)
  ∧ result (findCsprojFiles w projectPath s) = scanned w projectPath.
Proof.
  unfold findCsprojFiles, scanned. rewrite run_bind, checkFolderForCsproj_run.
  cbn [trace final result]. destruct (csprojIn w projectPath) as [e|projectFiles].
  { split; [by eexists|done]. }
  destruct (length projectFiles =? 0)%nat.
  2:{ split; [by eexists|done]. }
  split; [by eexists|]. cbn [app result]. rewrite run_bind. unfold await at 1.
  rewrite run_bind. cbn [emit result final trace].
  destruct (fs_readdir w projectPath) as [subfolders|]; [|done].
  cbn [of_option result final]. apply scanSubfolders_completed.
Qed.

Lemma completed_test_csproj (projectPath : string) (subfolders projectFiles files : list string) :
  completed w projectPath subfolders projectFiles = inr files →
  Forall (fun f => Regex.test_csproj f = true) projectFiles →
  Forall (fun f => Regex.test_csproj f = true) files.
Proof.
  revert projectFiles. induction subfolders as [|folder rest IH]; intros acc; simpl.
  { by intros [= <-]. }
  destruct (foundIn w projectPath folder) as [e|found] eqn:Hfound; [done|].
  intros Hcompleted Hacc. apply (IH _ Hcompleted). apply Forall_app. split; [done|].
  unfold foundIn in Hfound.
  destruct (fs_existsSync w _); [|by injection Hfound as <-].
  destruct (fs_stat_isDirectory w _) as [[|]|]; [|by injection Hfound as <-|done].
  destruct (fs_readdir w _); [|done]. injection Hfound as <-.
  apply Forall_forall. intros f Hf. apply list_elem_of_In, filter_In in Hf as [_ Hf]. done.
Qed.

Lemma scanned_test_csproj (projectPath : string) (files : list string) :
  scanned w projectPath = inr files → Forall (fun f => Regex.test_csproj f = true) files.
Proof.
  unfold scanned, csprojIn.
  destruct (fs_readdir w projectPath) as [listing|] eqn:Hdir; [|done].
  assert (Forall (fun f => Regex.test_csproj f = true)
            (List.filter Regex.test_csproj
               (map (fun f => path_join w [projectPath; f]) listing))) as Hroot.
  { apply Forall_forall. intros f Hf.
    apply list_elem_of_In, filter_In in Hf as [_ Hf]. done. }
  destruct (length _ =? 0)%nat; [|by intros [= <-]].
  intros Hcompleted. by apply (completed_test_csproj _ _ _ _ Hcompleted).
Qed.

Lemma completed_fs_error (projectPath : string) (subfolders projectFiles : list string)
  (e : exn) :
  completed w projectPath subfolders projectFiles = inl e → e = fs_error.
Proof.
  revert projectFiles. induction subfolders as [|folder rest IH]; intros acc; simpl; [done|].
  destruct (foundIn w projectPath folder) as [e'|found] eqn:Hfound; [|by apply IH].
  intros [= <-]. unfold foundIn in Hfound.
  destruct (fs_existsSync w _); [|done].
  destruct (fs_stat_isDirectory w _) as [[|]|]; [|done|by injection Hfound].
  destruct (fs_readdir w _); [done|by injection Hfound].
Qed.

Lemma scanned_fs_error (projectPath : string) (e : exn) :
  scanned w projectPath = inl e → e = fs_error.
Proof.
  unfold scanned, csprojIn. destruct (fs_readdir w projectPath); [|by intros [= <-]].
  destruct (length _ =? 0)%nat; [|done]. apply completed_fs_error.
Qed.

(** X6. A project file in the root hides the subfolders: when the root
    lists exactly one project file, the scan reads no other folder and
    retains that file, whatever project files the subfolders hold. *)
Theorem root_project_file_hides_subfolders (projectPath csprojFile : string) (s : St) :
  csprojIn w projectPath = inr [csprojFile] →
  trace (tryGetCsprojFile w projectPath s) = [FsReaddirSync projectPath]
  ∧ result (tryGetCsprojFile w projectPath s) = inr (Some csprojFile).
Proof.
  intros Hroot. unfold tryGetCsprojFile, findCsprojFiles.
  rewrite !run_bind, checkFolderForCsproj_run. cbn [trace final result]. rewrite Hroot.
  cbn. done.
Qed.

End ScanFurther.

Lemma List_filter_Permutation {A : Type} (f : A → bool) (l l' : list A) :
  l ≡ₚ l' → List.filter f l ≡ₚ List.filter f l'.
Proof.
  induction 1 as [|x l l' _ IH|x y l|l l' l'' _ IH1 _ IH2]; simpl.
  - done.
  - destruct (f x); by rewrite IH.
  - destruct (f x), (f y); (done || by apply Permutation_swap).
  - by rewrite IH1.
Qed.

Lemma same_files_fs_error (a b : exn + list string) :
  same_files a b →
  (∀ e, a = inl e → e = fs_error) → (∀ e, b = inl e → e = fs_error) →
  match a with inl e => inl e | inr files => inr (onlyOne files) end
  = match b with inl e => inl e | inr files => inr (onlyOne files) end.
Proof.
  destruct a as [e|files], b as [e'|files']; simpl; try done.
  - intros _ He He'. by rewrite (He e), (He' e').
  - intros Hperm _ _. f_equal. by apply onlyOne_any_order.
Qed.


Section ListingOrder.

Variables w w' : World.
Hypothesis Hsame : same_listings w w'.

Lemma csprojIn_same_listings (folder : string) :
  same_files (csprojIn w folder) (csprojIn w' folder).
Proof.
  destruct Hsame as (Hjoin & _ & _ & Hdir). unfold csprojIn. specialize (Hdir folder).
  destruct (fs_readdir w folder) as [files|], (fs_readdir w' folder) as [files'|];
    simpl; try done.
  apply List_filter_Permutation.
  rewrite (map_ext _ (fun f => path_join w' [folder; f])) by (intros; apply Hjoin).
  by apply Permutation_map.
Qed.

Lemma foundIn_same_listings (projectPath folder : string) :
  same_files (foundIn w projectPath folder) (foundIn w' projectPath folder).
Proof.
  pose proof (csprojIn_same_listings (path_join w [projectPath; folder])) as Hfolder.
  destruct Hsame as (Hjoin & Hexists & Hstat & _). unfold foundIn.
  rewrite <- Hjoin, <- Hexists, <- Hstat.
  destruct (fs_existsSync w _); [|by simpl].
  destruct (fs_stat_isDirectory w _) as [[|]|]; [|by simpl..].
  exact Hfolder.
Qed.

Lemma completed_same_listings (projectPath : string) (subfolders projectFiles projectFiles' : list string) :
  projectFiles ≡ₚ projectFiles' →
  same_files (completed w projectPath subfolders projectFiles)
    (completed w' projectPath subfolders projectFiles').
Proof.
  revert projectFiles projectFiles'.
  induction subfolders as [|folder rest IH]; intros acc acc' Hacc; simpl; [done|].
  pose proof (foundIn_same_listings projectPath folder) as Hfound.
  destruct (foundIn w projectPath folder) as [|found],
    (foundIn w' projectPath folder) as [|found']; simpl in Hfound; try done.
  apply IH. by rewrite Hacc, Hfound.
Qed.

Lemma scanned_same_listings (projectPath : string) :
  same_files (scanned w projectPath) (scanned w' projectPath).
Proof.
  pose proof (csprojIn_same_listings projectPath) as Hroot.
  pose proof (proj2 (proj2 (proj2 Hsame)) projectPath) as Hdir.
  unfold scanned.
  destruct (csprojIn w projectPath) as [|projectFiles],
    (csprojIn w' projectPath) as [|projectFiles']; simpl in Hroot; try done.
  rewrite <- (Permutation_length Hroot).
  destruct (length projectFiles =? 0)%nat; [|done].
  destruct (fs_readdir w projectPath) as [subfolders|],
    (fs_readdir w' projectPath) as [subfolders'|]; try done.
  eapply same_files_trans; [by apply completed_same_listings|].
  by apply completed_any_order.
Qed.

(** X7. The answer of [tryGetCsprojFile] does not depend on the order in
    which the file system lists the entries of a folder, nor therefore on
    the order in which the subfolders are visited: on two file systems
    with the same entries in every folder it fails in both or returns the
    same project file, or none, in both. *)
Theorem listing_order_is_irrelevant (projectPath : string) (s s' : St) :
  result (tryGetCsprojFile w projectPath s) = result (tryGetCsprojFile w' projectPath s').
Proof.
  rewrite !tryGetCsprojFile_result.
  rewrite (proj2 (findCsprojFiles_scanned w projectPath s)).
  rewrite (proj2 (findCsprojFiles_scanned w' projectPath s')).
  apply (same_files_fs_error _ _ (scanned_same_listings projectPath));
    intros e; apply scanned_fs_error.
Qed.

End ListingOrder.


(** ** [setPreDeployTaskForDotnet]: when it scans, when it asks, what it leaves *)

Section PreDeployPolicyFurther.

Variable w : World.
Variable workspace : WorkspaceFolder.

Local Abbreviation workspaceFspath := (uri_fsPath workspace).
Local Abbreviation deploySubpathSetting := (configurationSettings_deploySubpath (constants w)).
Local Abbreviation items := [DialogResponses.yes; dontShowAgainButton].

Lemma post_any {A : Type} (m : M A) (s : St) : post m s (fun _ _ _ => True).
Proof. done. Qed.

Lemma outcome_eq {A : Type} (o : Outcome A) tr s' r :
  trace o = tr → final o = s' → result o = r → o = {| trace := tr; final := s'; result := r |}.
Proof. destruct o. simpl. by intros -> -> ->. Qed.

Lemma guards_off (s : St) :
  detectionEnabled w workspace s = false →
  setPreDeployTaskForDotnet w workspace s = silent s.
Proof.
  intros Hoff.
  enough (post (setPreDeployTaskForDotnet w workspace) s
            (fun tr s' r => tr = [] ∧ s' = s ∧ r = inr tt)) as (? & ? & ?)
    by by apply outcome_eq.
  unfold setPreDeployTaskForDotnet, detectionEnabled in *. do 6 mstep.
  destruct (truthy (settings s !! (workspaceFspath, showPreDeployWarningSetting)));
    cbn [negb orb andb] in *; [|by mstep].
  destruct (truthy (settings s !! (workspaceFspath, preDeployTaskSetting)));
    cbn [negb orb andb] in *; [by mstep|].
  destruct (truthy (settings s !! (workspaceFspath, deploySubpathSetting)));
    cbn [negb orb andb] in *; [by mstep|].
  do 2 mstep. rewrite Hoff. cbn [negb]. by mstep.
Qed.

Lemma test_csproj_truthy (f : string) : Regex.test_csproj f = true → Js.truthy_str f = true.
Proof. by destruct f. Qed.

Lemma tryGetTargetFramework_result (projFilePath : string) (s : St) :
  result (tryGetTargetFramework w projFilePath s)
  = match fs_readFile w projFilePath with
    | Some projContents => inr (Regex.match_TargetFramework projContents)
    | None => inl fs_error
    end.
Proof.
  unfold tryGetTargetFramework, await. rewrite !run_bind. cbn.
  by destruct (fs_readFile w projFilePath).
Qed.

Lemma guard_split (s : St) :
  negb (truthy (settings s !! (workspaceFspath, showPreDeployWarningSetting)))
  || truthy (settings s !! (workspaceFspath, preDeployTaskSetting))
  || truthy (settings s !! (workspaceFspath, deploySubpathSetting))
  = false
  ∧ negb (isPathEqual w (deployFsPath s) workspaceFspath) = false
  ↔ detectionEnabled w workspace s = true.
Proof.
  unfold detectionEnabled.
  destruct (truthy (settings s !! (workspaceFspath, showPreDeployWarningSetting))),
    (truthy (settings s !! (workspaceFspath, preDeployTaskSetting))),
    (truthy (settings s !! (workspaceFspath, deploySubpathSetting))),
    (isPathEqual w (deployFsPath s) workspaceFspath); simpl; split; (done || by intros []).
Qed.

(** X8. The workspace is scanned exactly when the guards hold: with a
    guard off the run makes no call and changes nothing, with the guards
    on its first call lists the workspace root. *)
Theorem scan_iff_enabled (s : St) :
  if detectionEnabled w workspace s
  then ∃ rest, trace (setPreDeployTaskForDotnet w workspace s)
               = FsReaddirSync workspaceFspath :: rest
  else setPreDeployTaskForDotnet w workspace s = silent s.
Proof.
  destruct (detectionEnabled w workspace s) eqn:Hon; [|by apply guards_off].
  apply guard_split in Hon as [Hguard Hpath].
  change (post (setPreDeployTaskForDotnet w workspace) s
            (fun tr _ _ => ∃ rest, tr = FsReaddirSync workspaceFspath :: rest)).
  unfold setPreDeployTaskForDotnet. do 6 mstep. rewrite Hguard. do 2 mstep.
  rewrite Hpath. mstep. unfold post at 1. unfold tryGetCsprojFile. rewrite run_bind.
  destruct (findCsprojFiles_scanned w workspaceFspath s) as [[rest Htrace] _].
  destruct (result (findCsprojFiles w workspaceFspath s)); cbn [trace result final];
    rewrite Htrace.
  { by eexists. }
  match goal with |- match ?r with _ => _ end => destruct r end.
  - by eexists.
  - apply post_conseq with (Q := fun _ _ _ => True); [apply post_any|].
    intros tr s' r _. by eexists.
Qed.

Ltac find_event :=
  rewrite ?elem_of_app;
  repeat first
    [ solve [left; by apply list_elem_of_singleton]
    | solve [by apply list_elem_of_singleton]
    | right ].

Lemma quiet_not_prompted (tr : list Event) :
  Forall (fun e => is_fs e = true) tr → preDeployPrompt workspace ∉ tr.
Proof. intros Hfs Hin. rewrite Forall_forall in Hfs. by apply Hfs in Hin. Qed.

(** X9. The prompt is shown exactly when the guards hold and detection
    succeeds: one project file is found and its contents name a target
    framework. *)
Theorem prompt_iff_detected (s : St) :
  preDeployPrompt workspace ∈ trace (setPreDeployTaskForDotnet w workspace s)
  ↔ detectionEnabled w workspace s = true
    ∧ ∃ csprojFile targetFramework, detected w workspace s csprojFile targetFramework.
Proof.
  split.
  - intros Hprompt. split.
    + destruct (detectionEnabled w workspace s) eqn:Hon; [done|].
      rewrite guards_off in Hprompt by done. by apply elem_of_nil in Hprompt.
    + destruct (setPreDeployTaskForDotnet_run w workspace s)
        as [Hfs _|csprojFile targetFramework reads after Hdet _ _ _].
      * by apply quiet_not_prompted in Hprompt.
      * by exists csprojFile, targetFramework.
  - intros [Hon (csprojFile & targetFramework & Hscan & projContents & Hfile & Hmatch & Hfw)].
    apply guard_split in Hon as [Hguard Hpath].
    change (post (setPreDeployTaskForDotnet w workspace) s
              (fun tr _ _ => preDeployPrompt workspace ∈ tr)).
    unfold setPreDeployTaskForDotnet. do 6 mstep. rewrite Hguard. do 2 mstep.
    rewrite Hpath. mstep. unfold post at 1.
    pose proof (tryGetCsprojFile_result w workspaceFspath s) as Hfound.
    rewrite Hscan in Hfound. cbn in Hfound. rewrite Hfound. cbn beta iota.
    assert (Js.truthy_str csprojFile = true) as ->.
    { apply test_csproj_truthy.
      destruct (findCsprojFiles_scanned w workspaceFspath s) as [_ Hscanned].
      rewrite Hscan in Hscanned. symmetry in Hscanned.
      apply scanned_test_csproj, Forall_cons in Hscanned as [? _]. done. }
    mstep. unfold post at 1. rewrite tryGetTargetFramework_result, Hfile, Hmatch.
    cbn beta iota. do 2 mstep.
    assert (Js.truthy_str targetFramework = true) as ->
      by by apply negb_true_iff, String.eqb_neq.
    cbn [negb]. do 2 mstep.
    match goal with |- match ?r with _ => _ end => destruct r end.
    + find_event.
    + apply post_conseq with (Q := fun _ _ _ => True); [apply post_any|].
      intros tr s' r _. find_event.
Qed.

(** X10. When the prompt is dismissed, the run ends with the cancellation
    error; nothing was written and every persisted datum is as before. *)
Theorem dismissed_prompt_changes_nothing (s : St) :
  chosen w (notConfiguredForDeploy workspace) items = None →
  let o := setPreDeployTaskForDotnet w workspace s in
  preDeployPrompt workspace ∈ trace o →
  result o = inl UserCancelledError
  ∧ persisted (final o) = persisted s
  ∧ Forall (fun e => is_write e = false) (trace o).
Proof.
  intros Hnone o Hprompt. subst o.
  destruct (setPreDeployTaskForDotnet_run w workspace s)
    as [Hfs _|csprojFile targetFramework reads after _ Hreads Htrace Hanswer].
  { by apply quiet_not_prompted in Hprompt. }
  unfold answered in Hanswer. rewrite Hnone in Hanswer.
  destruct Hanswer as (-> & Hst & Hres). split_and!; [done..|].
  rewrite Htrace. apply Forall_app. split; [|by repeat constructor].
  eapply Forall_impl; [exact Hreads|]. intros e He. by destruct e.
Qed.

(** X11. 'No, and don't show again' turns the warning off and does
    nothing else: the tasks and the deployed path are as before, and no
    setting but [showPreDeployWarning] is written. When the preference
    store rejects that write, the settings too are as before, and the run
    ends with the error of the store. *)
Theorem opt_out_only_turns_warning_off (s : St) :
  chosen w (notConfiguredForDeploy workspace) items = Some dontShowAgainButton →
  let o := setPreDeployTaskForDotnet w workspace s in
  preDeployPrompt workspace ∈ trace o →
  match settings_update w showPreDeployWarningSetting (SBool false) workspaceFspath with
  | None =>
      settings (final o)
      = <[(workspaceFspath, showPreDeployWarningSetting) := SBool false]> (settings s)
      ∧ tasksJson (final o) = tasksJson s
      ∧ deployFsPath (final o) = deployFsPath s
      ∧ result o = inr tt
  | Some err =>
      settings (final o) = settings s
      ∧ tasksJson (final o) = tasksJson s
      ∧ deployFsPath (final o) = deployFsPath s
      ∧ result o = inl err
  end.
Proof.
  intros Hout o Hprompt. subst o.
  destruct (setPreDeployTaskForDotnet_run w workspace s)
    as [Hfs _|csprojFile targetFramework reads after _ Hreads Htrace Hanswer].
  { by apply quiet_not_prompted in Hprompt. }
  unfold answered in Hanswer. rewrite Hout in Hanswer.
  rewrite decide_True in Hanswer by done. destruct Hanswer as (_ & Hanswer).
  destruct (settings_update w showPreDeployWarningSetting (SBool false) workspaceFspath);
    destruct Hanswer as [Hst Hres].
  - apply persisted_inv in Hst as (-> & -> & -> & _). done.
  - apply persisted_eq in Hst as (? & ? & ? & _). done.
Qed.

(** X12. An answered prompt is not shown again: after a run that showed
    the prompt and returned normally, the next run on the state it left
    makes no call and changes nothing. *)
Theorem answered_prompt_is_not_repeated (s : St) :
  deploySubpathSetting ≠ preDeployTaskSetting →
  let o := setPreDeployTaskForDotnet w workspace s in
  preDeployPrompt workspace ∈ trace o →
  result o = inr tt →
  setPreDeployTaskForDotnet w workspace (final o) = silent (final o).
Proof.
  intros Hkeys o Hprompt Hdone. subst o. apply guards_off.
  destruct (setPreDeployTaskForDotnet_run w workspace s)
    as [Hfs _|csprojFile targetFramework reads after _ Hreads Htrace Hanswer].
  { by apply quiet_not_prompted in Hprompt. }
  unfold answered in Hanswer. unfold detectionEnabled.
  destruct (chosen w (notConfiguredForDeploy workspace) items) as [item|].
  2:{ destruct Hanswer as (_ & _ & Hres). congruence. }
  destruct (decide (item = dontShowAgainButton)).
  - destruct Hanswer as (_ & Hanswer).
    destruct (settings_update w showPreDeployWarningSetting (SBool false) workspaceFspath);
      destruct Hanswer as [Hst Hres]; [congruence|].
    apply persisted_eq in Hst as (-> & _). by rewrite lookup_insert_eq.
  - cbn zeta in Hanswer.
    destruct (settings_update w preDeployTaskSetting (SStr "publish") workspaceFspath);
      [destruct Hanswer as (_ & _ & Hres); congruence|].
    destruct (settings_update w deploySubpathSetting _ workspaceFspath);
      [destruct Hanswer as (_ & _ & Hres); congruence|].
    destruct Hanswer as (_ & Hst & _). apply persisted_eq in Hst as (-> & _).
    rewrite (lookup_insert_ne _ _ (workspaceFspath, preDeployTaskSetting)),
      lookup_insert_eq by congruence.
    cbn. by rewrite andb_false_r.
Qed.

(** X13. What no run touches: the settings of other workspaces and the
    settings of this workspace other than [preDeployTask], the deploy
    subpath and [showPreDeployWarning]; the task files of other folders;
    and the tasks this workspace already had, which stay at the head of
    its task list. *)
Theorem policy_frame (s : St) :
  let o := setPreDeployTaskForDotnet w workspace s in
  (∀ fsPath key,
     fsPath ≠ workspaceFspath
     ∨ key ∉ [preDeployTaskSetting; deploySubpathSetting; showPreDeployWarningSetting] →
     settings (final o) !! (fsPath, key) = settings s !! (fsPath, key))
  ∧ (∀ fsPath, fsPath ≠ workspaceFspath →
       tasksJson (final o) !! fsPath = tasksJson s !! fsPath)
  ∧ default [] (tasksJson s !! workspaceFspath)
    `prefix_of` default [] (tasksJson (final o) !! workspaceFspath).
Proof.
  intros o. subst o.
  destruct (setPreDeployTaskForDotnet_run w workspace s)
    as [_ Hst|csprojFile targetFramework reads after _ _ _ Hanswer].
  { apply persisted_inv in Hst as (-> & -> & _). done. }
  unfold answered in Hanswer.
  destruct (chosen w (notConfiguredForDeploy workspace) items) as [item|].
  2:{ destruct Hanswer as (_ & Hst & _). apply persisted_inv in Hst as (-> & -> & _). done. }
  destruct (decide (item = dontShowAgainButton)).
  - destruct Hanswer as (_ & Hanswer).
    destruct (settings_update w showPreDeployWarningSetting (SBool false) workspaceFspath);
      destruct Hanswer as [Hst _].
    { apply persisted_inv in Hst as (-> & -> & _). done. }
    apply persisted_eq in Hst as (-> & -> & _).
    split_and!; [|done..]. intros fsPath key Hother.
    apply lookup_insert_ne. intros [= <- <-]. destruct Hother as [?|Hkey]; [done|].
    apply Hkey. set_solver.
  - cbn zeta in Hanswer.
    destruct (settings_update w preDeployTaskSetting (SStr "publish") workspaceFspath).
    { destruct Hanswer as (_ & Hst & _).
      apply persisted_inv in Hst as (-> & -> & _). done. }
    destruct (settings_update w deploySubpathSetting _ workspaceFspath);
      destruct Hanswer as (_ & Hst & _); apply persisted_eq in Hst as (-> & -> & _).
    { split_and!; [|done..]. intros fsPath key Hother.
      apply lookup_insert_ne. intros [= <- <-]. destruct Hother as [?|Hkey]; [done|].
      apply Hkey. set_solver. }
    split_and!.
    + intros fsPath key Hother.
      rewrite !lookup_insert_ne; [done|..]; intros [= <- <-];
        (destruct Hother as [?|Hkey]; [done|]); apply Hkey; set_solver.
    + intros fsPath Hother. by apply lookup_insert_ne.
    + rewrite lookup_insert_eq. simpl. by eexists.
Qed.

Lemma missingTasks_covers (existingTasks generated : list ITask) (t : ITask) :
  t ∈ generated →
  label t ∈ map label (existingTasks ++ missingTasks existingTasks generated).
Proof.
  intros Hin. rewrite map_app, elem_of_app.
  destruct (decide (label t ∈ map label existingTasks)) as [Hold|Hnew]; [by left|].
  right. apply list_elem_of_fmap. exists t. split; [done|].
  apply list_elem_of_In, filter_In. split; [by apply list_elem_of_In|].
  by rewrite bool_decide_eq_false_2.
Qed.

(** X14. After a 'Yes' whose writes the preference store accepts, the
    workspace has a task labelled [build], one
    labelled [publish] (the task [preDeployTask] now names) and one
    labelled [watch], whether they were there before or were generated. *)
Theorem accepted_prompt_provides_tasks (s : St) (taskLabel : string) :
  accepts_writes w workspaceFspath →
  chosen w (notConfiguredForDeploy workspace) items = Some DialogResponses.yes →
  let o := setPreDeployTaskForDotnet w workspace s in
  preDeployPrompt workspace ∈ trace o →
  taskLabel ∈ ["build"; "publish"; "watch"] →
  Some taskLabel ∈ map label (default [] (tasksJson (final o) !! workspaceFspath)).
Proof.
  intros Hstore Hyes o Hprompt Hlabel. subst o.
  destruct (setPreDeployTaskForDotnet_run w workspace s)
    as [Hfs _|csprojFile targetFramework reads after _ _ _ Hanswer].
  { by apply quiet_not_prompted in Hprompt. }
  unfold answered in Hanswer. rewrite Hyes in Hanswer.
  rewrite decide_False in Hanswer by done. cbn zeta in Hanswer.
  rewrite !Hstore in Hanswer. destruct Hanswer as (_ & Hst & _).
  apply persisted_eq in Hst as (_ & -> & _). rewrite lookup_insert_eq. cbn [default].
  set (generated := generateDotnetTasks w
         (path_dirname w (path_relative w workspaceFspath csprojFile))).
  assert (Some taskLabel ∈ map label generated) as Hgenerated.
  { change (map label generated) with [Some "build"; Some "publish"; Some "watch"].
    change (Some taskLabel ∈ Some <$> ["build"; "publish"; "watch"]).
    by apply list_elem_of_fmap_2. }
  apply list_elem_of_fmap in Hgenerated as (t & -> & Ht).
  by apply missingTasks_covers.
Qed.

End PreDeployPolicyFurther.

(** ** [deploy]: its stages *)

Section DeployStages.

Variable w : World.

Ltac find_in_list :=
  repeat first
    [ solve [apply list_elem_of_here]
    | apply list_elem_of_further ].

Ltac resolution_leaf :=
  cbn [fetched remoteCallsOfEntry javaFileExtensionOf app]; first [done | by eexists].

(** Lines 30 to 75 run as [resolution] says, and the rest of the run is
    the run of lines 77 to 188 on what they resolved. *)
Lemma deploy_resolution (confirmDeployment : bool) (target : Target) (s : St) :
  let o := deploy w confirmDeployment target s in
  ∃ tr s1 r,
    resolution w target s tr s1 r
    ∧ match r with
      | inl e => trace o = tr ∧ final o = s1 ∧ result o = inl e
      | inr (node, newNodes, siteConfig, workspace) =>
          let o' := deployTo w confirmDeployment node newNodes siteConfig workspace s1 in
          trace o = tr ++ trace o' ∧ final o = final o' ∧ result o = result o'
      end.
Proof.
  change (post (deploy w confirmDeployment target) s
            (fun tr' s' r' =>
               ∃ tr s1 r,
                 resolution w target s tr s1 r
                 ∧ match r with
                   | inl e => tr' = tr ∧ s' = s1 ∧ r' = inl e
                   | inr (node, newNodes, siteConfig, workspace) =>
                       let o' :=
                         deployTo w confirmDeployment node newNodes siteConfig workspace s1 in
                       tr' = tr ++ trace o' ∧ s' = final o' ∧ r' = result o'
                   end)).
  unfold deploy. do 3 mstep. unfold entryPoint. fold (started s).
  destruct target as [p|item|].
  2:{ do 2 mstep.
      destruct (getSiteConfig w item) as [e|siteConfig] eqn:Hfetched; cbn beta iota.
      { eexists _, _, (inl e). split; [eapply resolution_no_config|]; resolution_leaf. }
      do 3 mstep.
      destruct (getDeployFsPath w (TNode item) (javaFileExtensionOf w (Some siteConfig)))
        as [e|fsPath] eqn:Hpath; cbn beta iota.
      { eexists _, _, (inl e).
        split; [eapply (resolution_no_path _ _ _ (Some siteConfig))|]; resolution_leaf. }
      destruct (getContainingWorkspace w fsPath) as [workspace|] eqn:Hworkspace.
      2:{ mstep. eexists _, _, (inl NoWorkspaceFound).
          split; [eapply (resolution_no_workspace _ _ _ (Some siteConfig))|];
            resolution_leaf. }
      do 5 mstep. unfold resolveNode. mstep. unfold post.
      eexists _, _, (inr (item, [], Some siteConfig, workspace)).
      split; [eapply resolution_tree_item|]; resolution_leaf. }
  all: do 3 mstep; change (javaFileExtensionOf w None) with (@None string).
  all: match goal with |- context [getDeployFsPath w ?t None] =>
         destruct (getDeployFsPath w t None) as [e|fsPath] eqn:Hpath end; cbn beta iota;
       [ eexists _, _, (inl e);
         split; [eapply (resolution_no_path _ _ _ None)|]; resolution_leaf |].
  all: destruct (getContainingWorkspace w fsPath) as [workspace|] eqn:Hworkspace;
       [| mstep; eexists _, _, (inl NoWorkspaceFound);
          split; [eapply (resolution_no_workspace _ _ _ None)|]; resolution_leaf ].
  all: do 5 mstep; unfold resolveNode; do 2 mstep.
  all: apply post_try_finally, post_try_catch; unfold post at 1.
  all: fold (located fsPath s).
  all: match type of Hpath with getDeployFsPath w ?t None = _ =>
         assert (∀ item, t ≠ TNode item) as Hother by (intros ??; discriminate);
         pose proof (resolution_selection w t s fsPath workspace _ Hother Hpath Hworkspace
                       eq_refl) as Hres
       end.
  all: unfold selectionEnd in Hres.
  all: destruct (selectTarget w workspace fsPath (located fsPath s))
         as [trS sS [err2|[node newNodes]]]; cbn [trace final result] in *.
  all: try (mstep; destruct (isUserCancelledError err2); do 3 mstep;
            eexists _, _, (inl err2); (split; [exact Hres|]);
            cbn [app]; by rewrite ?app_nil_r, <- ?app_assoc).
  all: mstep; unfold post.
  all: eexists _, _, (inr (node, newNodes, None, workspace)); split; [exact Hres|].
  all: cbn [app]; by rewrite ?app_nil_r, <- ?app_assoc.
Qed.

Local Abbreviation preparation := (fun e => is_preparation e = true).

Lemma stifleForNewNodes_prepares node newNodes confirmDeployment :
  emits_only preparation (stifleForNewNodes node newNodes confirmDeployment).
Proof.
  revert confirmDeployment. induction newNodes as [|newApp rest IH]; intros c; simpl;
    repeat emits_only_step.
Qed.

Lemma javaArtifact_prepares siteConfig node (s : St) :
  post (javaArtifact w siteConfig node) s
    (fun tr s' r =>
       Forall preparation tr
       ∧ deployedWithConfigs s' = deployedWithConfigs s
       ∧ match r with
         | inl _ => True
         | inr _ => artifact_path w tr (deployFsPath s) (deployFsPath s')
         end).
Proof.
  unfold javaArtifact. destruct (isJavaRuntime w _).
  2:{ mstep. split_and!; [done..|]. left. by split. }
  do 3 mstep.
  destruct (findFilesByFileExtension w _ _) as [e|javaArtifactFiles]; cbn beta iota.
  { split_and!; [by repeat constructor|done..]. }
  mstep. destruct (0 <? length javaArtifactFiles)%nat.
  - do 2 mstep.
    destruct (ui_quickPick w javaArtifactFiles _) as [e|data] eqn:Hpick; cbn beta iota.
    { split_and!; [by repeat constructor|done..]. }
    do 2 mstep. destruct (configureJavaSEAppSettings w node); cbn beta iota;
      (split_and!; [by repeat constructor|done|]); [done|].
    right. eexists javaArtifactFiles, _. split; [|exact Hpick].
    cbn [app]. apply list_elem_of_further, list_elem_of_here.
  - do 2 mstep. destruct (configureJavaSEAppSettings w node); cbn beta iota;
      (split_and!; [by repeat constructor|done|]); [done|].
    left. split; [by repeat constructor|done].
Qed.

Lemma buildDuringDeployPrompt_prepares siteConfig node workspace (s : St) :
  post (buildDuringDeployPrompt w siteConfig node workspace) s
    (fun tr s' _ => Forall preparation tr ∧ s' = s).
Proof.
  unfold buildDuringDeployPrompt. do 2 mstep.
  destruct (truthy _); [|by mstep].
  destruct (_ && _); [|by mstep].
  do 2 mstep. destruct (negb _); [|mstep; split; [by repeat constructor|done]].
  destruct (Js.startsWith _ _).
  { mstep. split; [by repeat constructor|done]. }
  destruct (Js.startsWith _ _); [|mstep; split; [by repeat constructor|done]].
  mstep. split; [by repeat constructor|done].
Qed.

(** Lines 125 to 150: the gate is silent unless the run was asked to
    confirm and the site is not deployed from a local Git repository; it
    then waits, shows the modal built from [deployedWithConfigs], and calls
    nothing but the steps of 'Reset default'. *)
Lemma confirmationGate_run confirmDeployment siteConfig node workspace (s : St) :
  let g := confirmationGate w confirmDeployment siteConfig node workspace s in
  if confirmDeployment
     && negb (Js.strict_eq_str (scmType siteConfig) (ScmType_LocalGit (constants w)))
  then ∃ after,
         trace g = Delay 500 :: confirmationModal w node (deployedWithConfigs s) :: after
         ∧ Forall (fun e => is_reset e = true) after
         ∧ (result g = inr true → ExecuteCommand "appService.Deploy" ∈ after)
         ∧ telemetry (final g) !! "cancelStep"
           = Some (cancelStepAfter
                     (chosen w (confirmationWarning node)
                        (confirmationItems w (deployedWithConfigs s))))
  else trace g = [] ∧ result g = inr false.
Proof.
  change (post (confirmationGate w confirmDeployment siteConfig node workspace) s
            (fun tr s' r =>
               if confirmDeployment
                  && negb (Js.strict_eq_str (scmType siteConfig)
                             (ScmType_LocalGit (constants w)))
               then ∃ after,
                   tr = Delay 500 :: confirmationModal w node (deployedWithConfigs s) :: after
                   ∧ Forall (fun e => is_reset e = true) after
                   ∧ (r = inr true → ExecuteCommand "appService.Deploy" ∈ after)
                   ∧ telemetry s' !! "cancelStep"
                     = Some (cancelStepAfter
                               (chosen w (confirmationWarning node)
                                  (confirmationItems w (deployedWithConfigs s))))
               else tr = [] ∧ r = inr false)).
  unfold confirmationGate, Js.strict_neq_object_string. rewrite andb_true_r.
  destruct (confirmDeployment && negb _); [|by mstep].
  do 8 mstep. cbn [deployedWithConfigs set_telemetry].
  fold (confirmationWarning node) (confirmationItems w (deployedWithConfigs s)).
  fold (confirmationModal w node (deployedWithConfigs s)).
  unfold cancelStepAfter.
  destruct (chosen w _ _) as [item|]; cbn beta iota.
  2:{ exists []. split_and!; [done..|]. cbn. by rewrite lookup_insert_eq. }
  destruct (decide (item = resetDefault)).
  2:{ do 3 mstep. exists []. split_and!; [done..|]. cbn. by rewrite lookup_insert_eq. }
  do 2 mstep.
  destruct (openTextDocument w _); cbn beta iota.
  { eexists [_]. split_and!; [done|by repeat constructor|done|].
    cbn. by rewrite lookup_insert_eq. }
  do 4 mstep. destruct (settings_update w _ _ _); cbn beta iota.
  { eexists [_; _; _]. split_and!; [done|by repeat constructor|done|].
    cbn. by rewrite lookup_insert_eq. }
  do 2 mstep. destruct (executeCommand w _); cbn beta iota; [|mstep].
  all: eexists [_; _; _; _]; (split_and!; [done|by repeat constructor| |]).
  all: try (intros _; find_in_list).
  all: cbn; by rewrite lookup_insert_eq.
Qed.

(** Lines 152 to 187: the pre-deploy task runs on the deployed path, then
    the transfer on the same path, then the completion is announced; a
    failure of either ends the run with its error. *)
Lemma transfer_run siteConfig node workspace correlationId (s : St) :
  let t := transfer w siteConfig node workspace correlationId s in
  let fsPath := deployFsPath s in
  let prefix := extensionPrefix (constants w) in
  let saveDefaults :=
    if deployedWithConfigs s then []
    else [Detached (PromptToSaveDeployDefaults node (uri_fsPath workspace) fsPath)] in
  match runPreDeployTask w fsPath (scmType siteConfig) prefix with
  | Some err =>
      trace t = saveDefaults ++ [RunPreDeployTask fsPath (scmType siteConfig) prefix]
      ∧ result t = inl err
  | None =>
      match appservice_deploy w node fsPath with
      | Some err =>
          trace t = saveDefaults
                    ++ [RunPreDeployTask fsPath (scmType siteConfig) prefix;
                        CancelWebsiteValidation node; AppserviceDeploy node fsPath]
          ∧ result t = inl err
      | None =>
          trace t = saveDefaults
                    ++ RunPreDeployTask fsPath (scmType siteConfig) prefix
                    :: CancelWebsiteValidation node
                    :: completion w node fsPath correlationId
          ∧ result t = inr tt
      end
  end.
Proof.
  cbn zeta.
  change (post (transfer w siteConfig node workspace correlationId) s
            (fun tr _ r =>
               match runPreDeployTask w (deployFsPath s) (scmType siteConfig)
                       (extensionPrefix (constants w)) with
               | Some err =>
                   tr = (if deployedWithConfigs s then []
                         else [Detached (PromptToSaveDeployDefaults node (uri_fsPath workspace)
                                           (deployFsPath s))])
                        ++ [RunPreDeployTask (deployFsPath s) (scmType siteConfig)
                              (extensionPrefix (constants w))]
                   ∧ r = inl err
               | None =>
                   match appservice_deploy w node (deployFsPath s) with
                   | Some err =>
                       tr = (if deployedWithConfigs s then []
                             else [Detached (PromptToSaveDeployDefaults node
                                               (uri_fsPath workspace) (deployFsPath s))])
                            ++ [RunPreDeployTask (deployFsPath s) (scmType siteConfig)
                                  (extensionPrefix (constants w));
                                CancelWebsiteValidation node;
                                AppserviceDeploy node (deployFsPath s)]
                       ∧ r = inl err
                   | None =>
                       tr = (if deployedWithConfigs s then []
                             else [Detached (PromptToSaveDeployDefaults node
                                               (uri_fsPath workspace) (deployFsPath s))])
                            ++ RunPreDeployTask (deployFsPath s) (scmType siteConfig)
                                 (extensionPrefix (constants w))
                            :: CancelWebsiteValidation node
                            :: completion w node (deployFsPath s) correlationId
                       ∧ r = inr tt
                   end
               end)).
  unfold transfer. do 3 mstep.
  destruct (deployedWithConfigs s); cbn [negb]; [mstep|do 3 mstep].
  all: do 4 mstep.
  all: destruct (runPreDeployTask w _ _ _); cbn beta iota; [done|].
  all: do 6 mstep.
  all: destruct (appservice_deploy w _ _); cbn beta iota; [done|].
  all: by do 5 mstep.
Qed.

Local Abbreviation no_pick := (fun e => is_pick e = false).

Lemma stifleForNewNodes_no_pick node newNodes confirmDeployment :
  emits_only no_pick (stifleForNewNodes node newNodes confirmDeployment).
Proof.
  revert confirmDeployment. induction newNodes as [|newApp rest IH]; intros c; simpl;
    repeat emits_only_step.
Qed.

Lemma buildDuringDeployPrompt_no_pick siteConfig node workspace :
  emits_only no_pick (buildDuringDeployPrompt w siteConfig node workspace).
Proof. unfold buildDuringDeployPrompt. repeat emits_only_step. Qed.

Lemma artifact_path_extend (before tr after : list Event) (resolvedPath deployedPath : string) :
  Forall no_pick before → Forall no_pick after →
  artifact_path w tr resolvedPath deployedPath →
  artifact_path w (before ++ tr ++ after) resolvedPath deployedPath.
Proof.
  intros Hbefore Hafter [[Htr ->]|(files & placeHolder & Hin & Hpick)].
  - left. split; [|done]. by repeat (apply Forall_app; split).
  - right. exists files, placeHolder. split; [|done].
    rewrite !elem_of_app. right. by left.
Qed.

(** Lines 77 to 188 are a preparation, the confirmation gate and the
    transfer: the preparation fetches the site configuration unless the
    entry point did and leaves [deployedWithConfigs] as it found it; the
    transfer runs when the gate does not return from the function. *)
Lemma deployTo_stages confirmDeployment node newNodes siteConfigOpt workspace (s : St) :
  let o := deployTo w confirmDeployment node newNodes siteConfigOpt workspace s in
  let fetch :=
    match siteConfigOpt with
    | Some _ => []
    | None => [GetSiteConfig node]
    end in
  ∃ stifle prepared,
    Forall preparation stifle
    ∧ Forall preparation prepared
    ∧ ((∃ e, trace o = stifle ++ fetch ++ prepared ∧ result o = inl e)
       ∨ ∃ siteConfig s3,
           (siteConfigOpt = Some siteConfig
            ∨ siteConfigOpt = None ∧ getSiteConfig w node = inr siteConfig)
           ∧ deployedWithConfigs s3 = deployedWithConfigs s
           ∧ artifact_path w (stifle ++ fetch ++ prepared) (deployFsPath s) (deployFsPath s3)
           ∧ let g := confirmationGate w (stifled confirmDeployment node newNodes)
                        siteConfig node workspace s3 in
             let t := transfer w siteConfig node workspace (getRandomHexString w) (final g) in
             match result g with
             | inl e =>
                 trace o = stifle ++ fetch ++ prepared ++ trace g
                 ∧ final o = final g ∧ result o = inl e
             | inr true =>
                 trace o = stifle ++ fetch ++ prepared ++ trace g
                 ∧ final o = final g ∧ result o = inr tt
             | inr false =>
                 trace o = stifle ++ fetch ++ prepared ++ trace g ++ trace t
                 ∧ final o = final t ∧ result o = result t
             end).
Proof.
  cbn zeta.
  set (fetch := match siteConfigOpt with Some _ => [] | None => [GetSiteConfig node] end).
  change (post (deployTo w confirmDeployment node newNodes siteConfigOpt workspace) s
    (fun tr s' r =>
       ∃ stifle prepared,
         Forall preparation stifle
         ∧ Forall preparation prepared
         ∧ ((∃ e, tr = stifle ++ fetch ++ prepared ∧ r = inl e)
            ∨ ∃ siteConfig s3,
                (siteConfigOpt = Some siteConfig
                 ∨ siteConfigOpt = None ∧ getSiteConfig w node = inr siteConfig)
                ∧ deployedWithConfigs s3 = deployedWithConfigs s
                ∧ artifact_path w (stifle ++ fetch ++ prepared) (deployFsPath s)
                    (deployFsPath s3)
                ∧ match result (confirmationGate w (stifled confirmDeployment node newNodes)
                                  siteConfig node workspace s3) with
                  | inl e =>
                      tr = stifle ++ fetch ++ prepared
                           ++ trace (confirmationGate w
                                       (stifled confirmDeployment node newNodes)
                                       siteConfig node workspace s3)
                      ∧ s' = final (confirmationGate w
                                      (stifled confirmDeployment node newNodes)
                                      siteConfig node workspace s3)
                      ∧ r = inl e
                  | inr true =>
                      tr = stifle ++ fetch ++ prepared
                           ++ trace (confirmationGate w
                                       (stifled confirmDeployment node newNodes)
                                       siteConfig node workspace s3)
                      ∧ s' = final (confirmationGate w
                                      (stifled confirmDeployment node newNodes)
                                      siteConfig node workspace s3)
                      ∧ r = inr tt
                  | inr false =>
                      tr = stifle ++ fetch ++ prepared
                           ++ trace (confirmationGate w
                                       (stifled confirmDeployment node newNodes)
                                       siteConfig node workspace s3)
                           ++ trace (transfer w siteConfig node workspace
                                       (getRandomHexString w)
                                       (final (confirmationGate w
                                                 (stifled confirmDeployment node newNodes)
                                                 siteConfig node workspace s3)))
                      ∧ s' = final (transfer w siteConfig node workspace
                                      (getRandomHexString w)
                                      (final (confirmationGate w
                                                (stifled confirmDeployment node newNodes)
                                                siteConfig node workspace s3)))
                      ∧ r = result (transfer w siteConfig node workspace
                                      (getRandomHexString w)
                                      (final (confirmationGate w
                                                (stifled confirmDeployment node newNodes)
                                                siteConfig node workspace s3)))
                  end))).
  unfold deployTo. mstep.
  eapply (post_conseq _ _ (fun tr s' r =>
            Forall preparation tr ∧ Forall no_pick tr ∧ s' = s
            ∧ r = inr (stifled confirmDeployment node newNodes))).
  { destruct (0 <? length newNodes)%nat eqn:Hlen.
    - unfold post.
      destruct (stifleForNewNodes_spec node newNodes confirmDeployment s) as [-> ->].
      split_and!; [apply stifleForNewNodes_prepares|apply stifleForNewNodes_no_pick|done..].
    - destruct newNodes; [|done]. mstep. unfold stifled. simpl.
      by rewrite andb_true_r. }
  intros stifle ? ? (Hstifle & Hstifle' & -> & ->). cbn beta iota.
  do 3 mstep.
  eapply (post_conseq _ _ (fun tr s' r =>
            tr = fetch
            ∧ deployedWithConfigs s' = deployedWithConfigs s
            ∧ deployFsPath s' = deployFsPath s
            ∧ match r with
              | inl _ => True
              | inr siteConfig =>
                  siteConfigOpt = Some siteConfig
                  ∨ siteConfigOpt = None ∧ getSiteConfig w node = inr siteConfig
              end)).
  { subst fetch. destruct siteConfigOpt as [siteConfig|]; mstep.
    - split_and!; [done..|by left].
    - split_and!; [done..|]. destruct (getSiteConfig w node); auto. }
  assert (Forall no_pick fetch) as Hfetch'
    by (subst fetch; destruct siteConfigOpt; by repeat constructor).
  intros ? s1 [e|siteConfig] (-> & Hs1 & Hpath1 & Hsc); cbn beta iota.
  { exists stifle, []. split_and!; [done..|]. left. exists e.
    by rewrite ?app_nil_l, ?app_nil_r, <- ?app_assoc. }
  mstep. eapply post_conseq; [apply javaArtifact_prepares|].
  intros tr2 s2 [e|[]] (Htr2 & Hs2 & Hpath2); cbn beta iota.
  { exists stifle, tr2. split_and!; [done..|]. left. exists e.
    by rewrite ?app_nil_l, ?app_nil_r, <- ?app_assoc. }
  mstep.
  eapply post_conseq;
    [apply post_and;
       [apply buildDuringDeployPrompt_prepares
       |apply emits_only_post, buildDuringDeployPrompt_no_pick]|].
  intros tr3 ? [e|[]] [[Htr3 ->] Htr3']; cbn beta iota.
  { exists stifle, (tr2 ++ tr3). split_and!; [done|by apply Forall_app|]. left. exists e.
    by rewrite ?app_nil_l, ?app_nil_r, <- ?app_assoc. }
  exists stifle, (tr2 ++ tr3). split_and!; [done|by apply Forall_app|]. right.
  exists siteConfig, s2. split_and!; [done|congruence| |].
  { rewrite <- Hpath1.
    replace (stifle ++ fetch ++ tr2 ++ tr3) with ((stifle ++ fetch) ++ tr2 ++ tr3)
      by by rewrite <- app_assoc.
    apply artifact_path_extend; [by apply Forall_app|done|done]. }
  rewrite run_bind.
  destruct (result (confirmationGate w (stifled confirmDeployment node newNodes) siteConfig
                      node workspace s2)) as [e|[|]]; cbn [trace final result].
  all: rewrite ?app_nil_l, ?app_nil_r, <- ?app_assoc; done.
Qed.

End DeployStages.

(** ** [deploy]: what its runs call, and in which order *)

Section DeployFurther.

Variable w : World.

Local Abbreviation no_confirmation := (fun e => is_confirmation e = false).
Local Abbreviation no_transfer := (fun e => is_transfer e = false).
Local Abbreviation no_fetch := (fun e => is_fetch e = false).

Lemma emits_only_showWarningMessage (P : Event → Prop) (message : string)
  (items : list MessageItem) :
  P (ShowWarningMessage message items) → emits_only P (showWarningMessage w message items).
Proof. intros HP. unfold showWarningMessage. repeat emits_only_step. Qed.

Lemma selectTarget_selects workspace fsPath :
  emits_only (fun e => is_selection e = true) (selectTarget w workspace fsPath).
Proof. unfold selectTarget. repeat emits_only_step. Qed.

Lemma confirmationGate_emits (P : Event → Prop) confirmDeployment siteConfig node workspace :
  (∀ e, is_confirmation e = true ∨ is_reset e = true ∨ e = Delay 500 → P e) →
  emits_only P (confirmationGate w confirmDeployment siteConfig node workspace).
Proof.
  intros HP. unfold confirmationGate.
  repeat first
    [ apply emits_only_showWarningMessage; apply HP; by left
    | apply emits_only_emit; apply HP; (by right; right) || (by right; left)
    | apply emits_only_await_unit; apply HP; by right; left
    | apply emits_only_updateWorkspaceSetting; apply HP; by right; left
    | emits_only_step ].
Qed.

Lemma stifleForNewNodes_outside_selection node newNodes confirmDeployment :
  emits_only outside_selection (stifleForNewNodes node newNodes confirmDeployment).
Proof.
  revert confirmDeployment. induction newNodes as [|newApp rest IH]; intros c; simpl;
    repeat emits_only_step.
Qed.

Lemma deployTo_outside_selection confirmDeployment node newNodes siteConfig workspace :
  emits_only outside_selection
    (deployTo w confirmDeployment node newNodes siteConfig workspace).
Proof.
  unfold deployTo, javaArtifact, buildDuringDeployPrompt, transfer.
  repeat first
    [ apply stifleForNewNodes_outside_selection
    | apply confirmationGate_emits; intros e [He|[He|He]]; by destruct e
    | emits_only_step ].
Qed.

Lemma resolution_entry (target : Target) (s s1 : St) (tr : list Event) (r : exn + Resolved) :
  resolution w target s tr s1 r → Forall (fun e => is_entry e = true) tr.
Proof.
  intros [item e _ _|siteConfig e _ _|siteConfig fsPath _ _ _|item siteConfig fsPath workspace
          _ _ _ _|fsPath workspace o _ _ _ ->].
  - by repeat constructor.
  - destruct target; by repeat constructor.
  - destruct target; by repeat constructor.
  - by repeat constructor.
  - do 2 (constructor; [done|]). apply Forall_app. split; [|by repeat constructor].
    eapply Forall_impl; [apply selectTarget_selects|]. intros e He. by destruct e.
Qed.

(** X15. The listener of [onTreeItemCreate] is registered at most once
    and only when the target is not a tree item; once registered it is
    disposed, also when the selection fails or is cancelled, and the target
    store is asked for a target only between the two. *)
Theorem listener_is_disposed (confirmDeployment : bool) (target : Target) (s : St) :
  let o := deploy w confirmDeployment target s in
  Forall outside_selection (trace o)
  ∨ (∀ item, target ≠ TNode item)
    ∧ ∃ before sel after,
        trace o = before ++ OnTreeItemCreate :: sel ++ DisposeListener :: after
        ∧ Forall outside_selection before
        ∧ Forall (fun e => is_selection e = true) sel
        ∧ Forall outside_selection after.
Proof.
  cbn zeta.
  destruct (deploy_resolution w confirmDeployment target s) as (tr & s1 & r & Hres & Hrun).
  cbn zeta in Hrun.
  destruct Hres as [item e _ _|siteConfig e _ _|siteConfig fsPath _ _ _
                   |item siteConfig fsPath workspace _ _ _ _
                   |fsPath workspace o Hother _ _ ->].
  - destruct Hrun as (-> & _). left. by repeat constructor.
  - destruct Hrun as (-> & _). left. destruct target; by repeat constructor.
  - destruct Hrun as (-> & _). left. destruct target; by repeat constructor.
  - destruct Hrun as (-> & _). left. do 2 (constructor; [done|]).
    apply deployTo_outside_selection.
  - right. split; [done|].
    pose proof (selectTarget_selects workspace fsPath (located fsPath s)) as Hsel.
    destruct (result (selectTarget w workspace fsPath (located fsPath s)))
      as [err2|[node newNodes]].
    + destruct Hrun as (-> & _).
      exists [GetDeployFsPath target None],
        (trace (selectTarget w workspace fsPath (located fsPath s))), [].
      split_and!; [done|by repeat constructor|done|constructor].
    + destruct Hrun as (-> & _).
      exists [GetDeployFsPath target None],
        (trace (selectTarget w workspace fsPath (located fsPath s))),
        (trace (deployTo w confirmDeployment node newNodes None workspace
                  (selectionEnd w (selectTarget w workspace fsPath (located fsPath s))))).
      split_and!; [|by repeat constructor|exact Hsel|].
      * cbn [app]. by rewrite <- app_assoc.
      * apply deployTo_outside_selection.
Qed.

Lemma filter_none {A : Type} (P : A → bool) (l : list A) :
  Forall (fun e => P e = false) l → List.filter P l = [].
Proof. induction 1 as [|e l He _ IH]; simpl; [done|]. by rewrite He. Qed.

Lemma Forall_weaken {A : Type} (P Q : A → Prop) (l : list A) :
  (∀ e, P e → Q e) → Forall P l → Forall Q l.
Proof. intros HPQ. induction 1; constructor; auto. Qed.

Lemma preparation_no_fetch (tr : list Event) :
  Forall (fun e => is_preparation e = true) tr → List.filter is_fetch tr = [].
Proof.
  intros Htr. apply filter_none. eapply Forall_weaken; [|exact Htr].
  intros e He. by destruct e.
Qed.

Lemma confirmationGate_no_fetch confirmDeployment siteConfig node workspace (s : St) :
  List.filter is_fetch (trace (confirmationGate w confirmDeployment siteConfig node workspace s))
  = [].
Proof.
  apply filter_none, confirmationGate_emits. intros e [He|[He|He]]; by destruct e.
Qed.

Lemma transfer_no_fetch siteConfig node workspace correlationId (s : St) :
  List.filter is_fetch (trace (transfer w siteConfig node workspace correlationId s)) = [].
Proof.
  apply filter_none.
  assert (emits_only no_fetch (transfer w siteConfig node workspace correlationId)) as H
    by (unfold transfer; repeat emits_only_step).
  apply H.
Qed.

Lemma deployTo_fetches confirmDeployment node newNodes siteConfigOpt workspace (s : St) :
  List.filter is_fetch
    (trace (deployTo w confirmDeployment node newNodes siteConfigOpt workspace s))
  = match siteConfigOpt with
    | Some _ => []
    | None => [GetSiteConfig node]
    end.
Proof.
  destruct (deployTo_stages w confirmDeployment node newNodes siteConfigOpt workspace s)
    as (stifle & prepared & Hstifle & Hprepared & Hrun).
  apply preparation_no_fetch in Hstifle, Hprepared.
  assert (List.filter is_fetch
            match siteConfigOpt with Some _ => [] | None => [GetSiteConfig node] end
          = match siteConfigOpt with Some _ => [] | None => [GetSiteConfig node] end) as Hfetch
    by by destruct siteConfigOpt.
  destruct Hrun as [(e & -> & _)|(siteConfig & s3 & _ & _ & _ & Hgate)].
  { by rewrite !List.filter_app, Hstifle, Hprepared, Hfetch, app_nil_r. }
  cbn zeta in Hgate.
  destruct (result (confirmationGate w _ siteConfig node workspace s3)) as [e|[|]];
    destruct Hgate as (-> & _);
    rewrite !List.filter_app, Hstifle, Hprepared, Hfetch, ?confirmationGate_no_fetch,
      ?transfer_no_fetch, ?app_nil_r; done.
Qed.

(** X16. A run awaits the configuration of a site at most once, and it
    is that of its target: a tree item target is fetched on entry and not
    again, a selected target is fetched once it is resolved. *)
Theorem site_configuration_is_fetched_once (confirmDeployment : bool) (target : Target)
  (s : St) :
  let fetches := List.filter is_fetch (trace (deploy w confirmDeployment target s)) in
  match target with
  | TNode item => fetches = [GetSiteConfig item]
  | _ =>
      fetches = []
      ∨ ∃ node newNodes workspace,
          resolved w target s node newNodes workspace ∧ fetches = [GetSiteConfig node]
  end.
Proof.
  cbn zeta.
  destruct (deploy_resolution w confirmDeployment target s) as (tr & s1 & r & Hres & Hrun).
  cbn zeta in Hrun.
  destruct Hres as [item e -> _|siteConfig e Hfetched _|siteConfig fsPath Hfetched _ _
                   |item siteConfig fsPath workspace -> _ _ _
                   |fsPath workspace o Hother Hpath Hworkspace ->].
  - by destruct Hrun as (-> & _).
  - destruct Hrun as (-> & _). destruct target; cbn; auto.
  - destruct Hrun as (-> & _). destruct target; cbn; auto.
  - destruct Hrun as (-> & _). cbn [List.filter is_fetch app].
    by rewrite deployTo_fetches.
  - pose proof (selectTarget_selects workspace fsPath (located fsPath s)) as Hsel.
    assert (List.filter is_fetch (trace (selectTarget w workspace fsPath (located fsPath s)))
            = []) as Hnone.
    { apply filter_none. eapply Forall_weaken; [|exact Hsel]. intros e He. by destruct e. }
    pose proof (selectTarget_result w workspace fsPath (located fsPath s) s) as Hresult.
    destruct (result (selectTarget w workspace fsPath (located fsPath s)))
      as [err2|[node newNodes]].
    + destruct Hrun as (-> & _). cbn [List.filter is_fetch].
      rewrite List.filter_app, Hnone. destruct target; [by left| |by left].
      by destruct (Hother item).
    + destruct Hrun as (-> & _). cbn [List.filter is_fetch app].
      rewrite !List.filter_app, Hnone, deployTo_fetches.
      destruct target; [|by destruct (Hother item)|].
      all: right; exists node, newNodes, workspace; split; [by exists fsPath|done].
Qed.

Lemma fetched_nothing (target : Target) (siteConfig : option SiteConfigResource) :
  (∀ item, target ≠ TNode item) → fetched w target siteConfig → siteConfig = None.
Proof. intros Hother. destruct target; [done| |done]. by destruct (Hother item). Qed.

Lemma selectTarget_final workspace fsPath (s : St) :
  let o := selectTarget w workspace fsPath s in
  (telemetry (final o) = telemetry s ∧ deployFsPath (final o) = deployFsPath s)
  ∧ deployedWithConfigs (final o)
    = match picked (getDefaultWebAppToDeploy w workspace fsPath) with
      | inl _ => deployedWithConfigs s
      | inr (_, withConfigs) => withConfigs
      end.
Proof.
  change (post (selectTarget w workspace fsPath) s
            (fun _ s' _ =>
               (telemetry s' = telemetry s ∧ deployFsPath s' = deployFsPath s)
               ∧ deployedWithConfigs s'
                 = match picked (getDefaultWebAppToDeploy w workspace fsPath) with
                   | inl _ => deployedWithConfigs s
                   | inr (_, withConfigs) => withConfigs
                   end)).
  unfold selectTarget. do 2 mstep.
  destruct (picked (getDefaultWebAppToDeploy w workspace fsPath))
    as [e|[[defaultNode|] withConfigs]]; cbn beta iota; [done|..].
  - by do 3 mstep.
  - do 4 mstep. by destruct (picked (showTreeItemPicker w _)); cbn beta iota; [|mstep].
Qed.

(** X17. When the selection of the target fails, the run ends with the
    error of the selection after disposing the listener, without having
    contacted a site; a cancellation, and only a cancellation, is recorded
    in the telemetry as the step [showTreeItemPicker:<contextValue>]. *)
Theorem failed_selection_is_recorded (confirmDeployment : bool) (target : Target) (s : St)
  (fsPath : string) (workspace : WorkspaceFolder) (err2 : exn) :
  (∀ item, target ≠ TNode item) →
  getDeployFsPath w target None = inr fsPath →
  getContainingWorkspace w fsPath = Some workspace →
  result (selectTarget w workspace fsPath s) = inl err2 →
  let o := deploy w confirmDeployment target s in
  result o = inl err2
  ∧ (∃ sel,
       trace o = GetDeployFsPath target None :: OnTreeItemCreate :: sel ++ [DisposeListener]
       ∧ Forall (fun e => is_selection e = true) sel)
  ∧ telemetry (final o) !! "cancelStep"
    = if isUserCancelledError err2
      then Some ("showTreeItemPicker:" +:+ WebAppTreeItem_contextValue (constants w))
      else telemetry s !! "cancelStep".
Proof.
  intros Hother Hpath Hworkspace Hfailed. cbn zeta.
  destruct (deploy_resolution w confirmDeployment target s) as (tr & s1 & r & Hres & Hrun).
  cbn zeta in Hrun.
  destruct Hres as [item e -> _|siteConfig e Hfetched Hpath'|siteConfig fsPath' Hfetched Hpath' Hnone
                   |item siteConfig fsPath' workspace' -> _ _ _
                   |fsPath' workspace' o _ Hpath' Hworkspace' ->].
  - by destruct (Hother item).
  - apply fetched_nothing in Hfetched as ->; [|done]. cbn in Hpath'. congruence.
  - apply fetched_nothing in Hfetched as ->; [|done]. cbn in Hpath'. congruence.
  - by destruct (Hother item).
  - assert (fsPath' = fsPath) as -> by congruence.
    assert (workspace' = workspace) as -> by congruence.
    pose proof (selectTarget_selects workspace fsPath (located fsPath s)) as Hsel.
    destruct (selectTarget_final workspace fsPath (located fsPath s)) as [[Htelemetry _] _].
    unfold selectionEnd in Hrun.
    rewrite (selectTarget_result w workspace fsPath (located fsPath s) s), Hfailed in Hrun.
    destruct Hrun as (-> & -> & ->). split_and!; [done|by eexists|].
    destruct (isUserCancelledError err2).
    + cbn [telemetry set_telemetry]. by rewrite lookup_insert_eq.
    + rewrite Htelemetry. cbn [telemetry located started set_telemetry set_deployFsPath
                                 set_deployedWithConfigs].
      by rewrite lookup_insert_ne.
Qed.

Lemma entry_no_transfer (tr : list Event) :
  Forall (fun e => is_entry e = true) tr → Forall no_transfer tr.
Proof. apply Forall_weaken. intros e He. by destruct e. Qed.

Lemma preparation_no_transfer (tr : list Event) :
  Forall (fun e => is_preparation e = true) tr → Forall no_transfer tr.
Proof. apply Forall_weaken. intros e He. by destruct e. Qed.

Lemma confirmationGate_no_transfer confirmDeployment siteConfig node workspace (s : St) :
  Forall no_transfer (trace (confirmationGate w confirmDeployment siteConfig node workspace s)).
Proof. apply confirmationGate_emits. intros e [He|[He|He]]; by destruct e. Qed.

(** A run of [deploy] either never reaches the transfer, and then returns
    normally only after the command started by 'Reset default', or it ends
    with a run of lines 152 to 187. *)
Lemma deploy_ends (confirmDeployment : bool) (target : Target) (s : St) :
  let o := deploy w confirmDeployment target s in
  (Forall no_transfer (trace o)
   ∧ (result o = inr tt → ExecuteCommand "appService.Deploy" ∈ trace o))
  ∨ ∃ before siteConfig node workspace s4,
      let t := transfer w siteConfig node workspace (getRandomHexString w) s4 in
      Forall no_transfer before
      ∧ trace o = before ++ trace t
      ∧ result o = result t.
Proof.
  cbn zeta.
  destruct (deploy_resolution w confirmDeployment target s) as (tr & s1 & r & Hres & Hrun).
  cbn zeta in Hrun. apply resolution_entry, entry_no_transfer in Hres.
  destruct r as [e|[[[node newNodes] siteConfigOpt] workspace]].
  { destruct Hrun as (-> & _ & ->). left. by split. }
  destruct Hrun as (-> & _ & ->).
  destruct (deployTo_stages w confirmDeployment node newNodes siteConfigOpt workspace s1)
    as (stifle & prepared & Hstifle & Hprepared & Hrun).
  apply preparation_no_transfer in Hstifle, Hprepared.
  set (fetch := match siteConfigOpt with Some _ => [] | None => [GetSiteConfig node] end) in *.
  assert (Forall no_transfer fetch) as Hfetch
    by (subst fetch; destruct siteConfigOpt; by repeat constructor).
  destruct Hrun as [(e & -> & ->)|(siteConfig & s3 & _ & _ & _ & Hgate)].
  { left. split; [|done]. by repeat (apply Forall_app; split). }
  cbn zeta in Hgate.
  pose proof (confirmationGate_no_transfer (stifled confirmDeployment node newNodes)
                siteConfig node workspace s3) as Hquiet.
  pose proof (confirmationGate_run w (stifled confirmDeployment node newNodes)
                siteConfig node workspace s3) as Hshape.
  cbn zeta in Hshape.
  set (g := confirmationGate w (stifled confirmDeployment node newNodes) siteConfig node
              workspace s3) in *.
  destruct (result g) as [e|[|]].
  - destruct Hgate as (-> & _ & ->). left. split; [|done]. by repeat (apply Forall_app; split).
  - destruct Hgate as (-> & _ & ->). left. split; [by repeat (apply Forall_app; split)|]. intros _.
    destruct (_ && _); [|by destruct Hshape].
    destruct Hshape as (after & -> & _ & Hcommand & _).
    rewrite !elem_of_app. do 4 right. do 2 apply list_elem_of_further. by apply Hcommand.
  - destruct Hgate as (-> & _ & ->). right.
    exists (tr ++ stifle ++ fetch ++ prepared ++ trace g), siteConfig, node, workspace,
      (final g).
    split_and!; [by repeat (apply Forall_app; split)| |done].
    by rewrite <- !app_assoc.
Qed.

Lemma transfer_member (before tr : list Event) (e : Event) :
  Forall no_transfer before → is_transfer e = true → e ∈ before ++ tr → e ∈ tr.
Proof.
  intros Hbefore He [Hin|Hin]%elem_of_app; [|done].
  rewrite Forall_forall in Hbefore. apply Hbefore in Hin. congruence.
Qed.

(** X18. The artifact is transferred at most once, only after the
    pre-deploy task has run on the same path and succeeded, and with the
    pending validation of the site cancelled in between. *)
Theorem transfer_follows_pre_deploy_task (confirmDeployment : bool) (target : Target)
  (s : St) (node : SiteTreeItem) (fsPath : string) :
  let o := deploy w confirmDeployment target s in
  AppserviceDeploy node fsPath ∈ trace o →
  ∃ before scm after,
    trace o = before
              ++ RunPreDeployTask fsPath scm (extensionPrefix (constants w))
              :: CancelWebsiteValidation node :: AppserviceDeploy node fsPath :: after
    ∧ runPreDeployTask w fsPath scm (extensionPrefix (constants w)) = None
    ∧ Forall no_transfer before
    ∧ Forall no_transfer after.
Proof.
  cbn zeta. intros Hin.
  destruct (deploy_ends confirmDeployment target s)
    as [[Hquiet _]|(before & siteConfig & node' & workspace & s4 & Hbefore & Htrace & _)].
  { rewrite Forall_forall in Hquiet. by apply Hquiet in Hin. }
  cbn zeta in Htrace. rewrite Htrace in Hin |- *.
  apply transfer_member in Hin; [|done..].
  pose proof (transfer_run w siteConfig node' workspace (getRandomHexString w) s4) as Hrun.
  cbn zeta in Hrun.
  set (saveDefaults :=
         if deployedWithConfigs s4 then []
         else [Detached (PromptToSaveDeployDefaults node' (uri_fsPath workspace)
                           (deployFsPath s4))]) in *.
  assert (Forall no_transfer saveDefaults) as Hsave
    by (subst saveDefaults; destruct (deployedWithConfigs s4); by repeat constructor).
  destruct (runPreDeployTask w (deployFsPath s4) (scmType siteConfig)
              (extensionPrefix (constants w))) eqn:Htask.
  { destruct Hrun as [Hrun _]. rewrite Hrun in Hin.
    apply transfer_member in Hin; [|done..].
    apply list_elem_of_singleton in Hin. done. }
  destruct (appservice_deploy w node' (deployFsPath s4)).
  - destruct Hrun as [Hrun _]. rewrite Hrun in Hin |- *.
    apply transfer_member in Hin; [|done..].
    rewrite !elem_of_cons in Hin.
    destruct Hin as [?|[?|[[= -> ->]|Hnil]]]; [done..| |by apply elem_of_nil in Hnil].
    exists (before ++ saveDefaults), (scmType siteConfig), [].
    split_and!; [by rewrite <- app_assoc|done|by apply Forall_app|constructor].
  - destruct Hrun as [Hrun _]. rewrite Hrun in Hin |- *.
    apply transfer_member in Hin; [|done..].
    unfold completion in Hin |- *. rewrite !elem_of_cons in Hin.
    destruct Hin as [?|[?|[[= -> ->]|[?|[?|[?|Hnil]]]]]];
      [done|done| |done|done|done|by apply elem_of_nil in Hnil].
    eexists (before ++ saveDefaults), (scmType siteConfig), [_; _; _].
    split_and!; [by rewrite <- app_assoc|done|by apply Forall_app|by repeat constructor].
Qed.

(** X19. A run returns normally only in two ways: after the command
    started by 'Reset default', or after a transfer that succeeded, and
    then its last calls announce the completion and start the validation
    of the site with the correlation id of the run. *)
Theorem normal_return_is_restart_or_completion (confirmDeployment : bool) (target : Target)
  (s : St) :
  let o := deploy w confirmDeployment target s in
  result o = inr tt →
  ExecuteCommand "appService.Deploy" ∈ trace o
  ∨ ∃ node fsPath,
      completion w node fsPath (getRandomHexString w) `suffix_of` trace o
      ∧ appservice_deploy w node fsPath = None.
Proof.
  cbn zeta. intros Hdone.
  destruct (deploy_ends confirmDeployment target s)
    as [[_ Hcommand]|(before & siteConfig & node & workspace & s4 & _ & Htrace & Hresult)].
  { left. by apply Hcommand. }
  cbn zeta in Htrace, Hresult. right. exists node, (deployFsPath s4).
  pose proof (transfer_run w siteConfig node workspace (getRandomHexString w) s4) as Hrun.
  cbn zeta in Hrun. rewrite Hdone in Hresult.
  destruct (runPreDeployTask w _ _ _); [destruct Hrun; congruence|].
  destruct (appservice_deploy w node (deployFsPath s4)); [destruct Hrun; congruence|].
  destruct Hrun as [Hrun _]. split; [|done]. rewrite Htrace, Hrun.
  exists (before
          ++ (if deployedWithConfigs s4 then []
              else [Detached (PromptToSaveDeployDefaults node (uri_fsPath workspace)
                                (deployFsPath s4))])
          ++ [RunPreDeployTask (deployFsPath s4) (scmType siteConfig)
                (extensionPrefix (constants w));
              CancelWebsiteValidation node]).
  rewrite <- !app_assoc. reflexivity.
Qed.

Lemma confirmation_member (before tr : list Event) (e : Event) :
  Forall no_confirmation before → is_confirmation e = true → e ∈ before ++ tr → e ∈ tr.
Proof.
  intros Hbefore He [Hin|Hin]%elem_of_app; [|done].
  rewrite Forall_forall in Hbefore. apply Hbefore in Hin. congruence.
Qed.

Lemma entry_no_confirmation (tr : list Event) :
  Forall (fun e => is_entry e = true) tr → Forall no_confirmation tr.
Proof. apply Forall_weaken. intros e He. by destruct e. Qed.

Lemma preparation_no_confirmation (tr : list Event) :
  Forall (fun e => is_preparation e = true) tr → Forall no_confirmation tr.
Proof. apply Forall_weaken. intros e He. by destruct e. Qed.

Lemma reset_no_confirmation (tr : list Event) :
  Forall (fun e => is_reset e = true) tr → Forall no_confirmation tr.
Proof. apply Forall_weaken. intros e He. by destruct e. Qed.

Lemma transfer_final siteConfig node workspace correlationId (s : St) :
  final (transfer w siteConfig node workspace correlationId s) = s.
Proof.
  change (post (transfer w siteConfig node workspace correlationId) s (fun _ s' _ => s' = s)).
  unfold transfer. do 3 mstep.
  destruct (negb (deployedWithConfigs s)); [do 3 mstep|mstep].
  all: do 4 mstep.
  all: destruct (runPreDeployTask w _ _ _); cbn beta iota; [done|].
  all: do 6 mstep.
  all: destruct (appservice_deploy w _ _); cbn beta iota; [done|].
  all: by do 5 mstep.
Qed.

(** A modal shown by a run of [deploy] is the modal of the confirmation
    gate, built from the [deployedWithConfigs] that the resolution of the
    target left. *)
Lemma deploy_modal (confirmDeployment : bool) (target : Target) (s : St)
  (message : string) (items : list MessageItem) :
  let o := deploy w confirmDeployment target s in
  ShowWarningMessage message items ∈ trace o →
  ∃ tr s1 node newNodes siteConfig workspace,
    resolution w target s tr s1 (inr (node, newNodes, siteConfig, workspace))
    ∧ message = confirmationWarning node
    ∧ items = confirmationItems w (deployedWithConfigs s1)
    ∧ telemetry (final o) !! "cancelStep" = Some (cancelStepAfter (chosen w message items)).
Proof.
  cbn zeta. intros Hin.
  destruct (deploy_resolution w confirmDeployment target s) as (tr & s1 & r & Hres & Hrun).
  cbn zeta in Hrun. pose proof (entry_no_confirmation _ (resolution_entry _ _ _ _ _ Hres)) as Htr.
  destruct r as [e|[[[node newNodes] siteConfigOpt] workspace]].
  { destruct Hrun as (Htrace & _). rewrite Htrace in Hin.
    rewrite Forall_forall in Htr. by apply Htr in Hin. }
  destruct Hrun as (Htrace & Hfinal & _). rewrite Htrace in Hin. rewrite Hfinal.
  apply confirmation_member in Hin; [|done..].
  exists tr, s1, node, newNodes, siteConfigOpt, workspace. split; [done|].
  destruct (deployTo_stages w confirmDeployment node newNodes siteConfigOpt workspace s1)
    as (stifle & prepared & Hstifle & Hprepared & Hstages).
  apply preparation_no_confirmation in Hstifle, Hprepared.
  set (fetch := match siteConfigOpt with Some _ => [] | None => [GetSiteConfig node] end) in *.
  assert (Forall no_confirmation fetch) as Hfetch
    by (subst fetch; destruct siteConfigOpt; by repeat constructor).
  assert (Forall no_confirmation (stifle ++ fetch ++ prepared)) as Hbefore
    by by repeat (apply Forall_app; split).
  destruct Hstages as [(e & Hfailed & _)|(siteConfig & s3 & _ & Hs3 & _ & Hgate)].
  { rewrite Hfailed in Hin. rewrite Forall_forall in Hbefore. by apply Hbefore in Hin. }
  cbn zeta in Hgate.
  pose proof (confirmationGate_run w (stifled confirmDeployment node newNodes)
                siteConfig node workspace s3) as Hshape.
  cbn zeta in Hshape.
  set (g := confirmationGate w (stifled confirmDeployment node newNodes) siteConfig node
              workspace s3) in *.
  assert (ShowWarningMessage message items ∈ trace g
          ∧ final (deployTo w confirmDeployment node newNodes siteConfigOpt workspace s1)
            = final g) as [Hshown ->].
  { destruct (result g) as [e|[|]]; destruct Hgate as (Hgate & -> & _);
      rewrite Hgate in Hin; do 3 (apply confirmation_member in Hin; [|done..]).
    - done.
    - done.
    - rewrite transfer_final. split; [|done].
      apply elem_of_app in Hin as [Hin|Hin]; [done|].
      pose proof (transfer_no_confirmation w siteConfig node workspace (getRandomHexString w)
                    (final g)) as Hquiet.
      rewrite Forall_forall in Hquiet. by apply Hquiet in Hin. }
  destruct (_ && _).
  2:{ destruct Hshape as [Hnone _]. rewrite Hnone in Hshown. by apply elem_of_nil in Hshown. }
  destruct Hshape as (after & Hshape & Hafter & _ & Hstep). rewrite Hshape in Hshown.
  apply reset_no_confirmation in Hafter.
  rewrite !elem_of_cons in Hshown. destruct Hshown as [?|[Hmodal|Hin']]; [done| |].
  2:{ rewrite Forall_forall in Hafter. by apply Hafter in Hin'. }
  unfold confirmationModal in Hmodal. injection Hmodal as -> ->.
  rewrite Hs3 in Hstep |- *. done.
Qed.

Lemma selectTarget_default workspace fsPath (s : St) (selected : SiteTreeItem * list SiteTreeItem) :
  let o := selectTarget w workspace fsPath s in
  result o = inr selected →
  ∃ defaultNode,
    picked (getDefaultWebAppToDeploy w workspace fsPath)
    = inr (defaultNode, deployedWithConfigs (final o)).
Proof.
  cbn zeta. intros Hselected.
  destruct (selectTarget_final workspace fsPath s) as [_ Hflag]. cbn zeta in Hflag.
  rewrite Hflag. unfold selectTarget in Hselected. rewrite run_bind in Hselected.
  destruct (picked (getDefaultWebAppToDeploy w workspace fsPath)) as [e|[defaultNode flag]];
    [done|]. by exists defaultNode.
Qed.

Lemma resolution_path (target : Target) (s s1 : St) (tr : list Event) (node : SiteTreeItem)
  (newNodes : list SiteTreeItem) (siteConfig : option SiteConfigResource)
  (workspace : WorkspaceFolder) :
  resolution w target s tr s1 (inr (node, newNodes, siteConfig, workspace)) →
  resolved w target s node newNodes workspace ∧ resolvesTo w target (deployFsPath s1).
Proof.
  intros Hres. remember (inr (node, newNodes, siteConfig, workspace)) as r eqn:Hr.
  destruct Hres as [item e _ _|fetched e _ _|fetched fsPath _ _ _
                   |item fetched fsPath workspace' -> Hfetched Hpath _
                   |fsPath workspace' o Hother Hpath Hworkspace Ho]; try discriminate.
  - injection Hr as <- <- _ _. split; [done|]. by exists fetched.
  - destruct (selectTarget_final workspace' fsPath (located fsPath s)) as [[_ Hkept] _].
    cbn zeta in Hkept. rewrite <- Ho in Hkept.
    pose proof (selectTarget_result w workspace' fsPath (located fsPath s) s) as Hresult.
    rewrite <- Ho in Hresult. unfold selectionEnd.
    destruct (result o) as [err2|[node' newNodes']]; [done|].
    injection Hr as <- <- _ <-. rewrite Hkept. cbn [deployFsPath located set_deployFsPath
                                                    set_deployedWithConfigs].
    destruct target; [|by destruct (Hother item)|]; (split; [by exists fsPath|done]).
Qed.

(** X20. The modal a run shows names the target of the run (the tree
    item passed in, or the item the selection of the run resolved for the
    workspace that contains the path being deployed), and offers 'Reset
    default' exactly when the lookup of the default target for that
    workspace and path said that the target comes from the configuration;
    for a tree item target it never does. *)
Theorem reset_default_is_offered_for_defaults (confirmDeployment : bool) (target : Target)
  (s : St) (message : string) (items : list MessageItem) :
  let o := deploy w confirmDeployment target s in
  ShowWarningMessage message items ∈ trace o →
  ∃ node newNodes workspace withConfigs,
    resolved w target s node newNodes workspace
    ∧ message = confirmationWarning node
    ∧ items = confirmationItems w withConfigs
    ∧ match target with
      | TNode item => node = item ∧ withConfigs = false
      | _ =>
          ∃ fsPath defaultNode,
            getDeployFsPath w target None = inr fsPath
            ∧ getContainingWorkspace w fsPath = Some workspace
            ∧ picked (getDefaultWebAppToDeploy w workspace fsPath)
              = inr (defaultNode, withConfigs)
      end.
Proof.
  cbn zeta. intros Hin.
  destruct (deploy_modal confirmDeployment target s message items Hin)
    as (tr & s1 & node & newNodes & siteConfig & workspace & Hres & -> & -> & _).
  destruct (resolution_path _ _ _ _ _ _ _ _ Hres) as [Hresolved _].
  exists node, newNodes, workspace, (deployedWithConfigs s1). split_and!; [done..|].
  remember (inr (node, newNodes, siteConfig, workspace)) as r eqn:Hr.
  destruct Hres as [item e _ _|fetched e _ _|fetched fsPath _ _ _
                   |item fetched fsPath workspace' -> _ _ _
                   |fsPath workspace' o Hother Hpath Hworkspace Ho]; try discriminate.
  - by injection Hr as <- _ _ _.
  - pose proof (selectTarget_default workspace' fsPath (located fsPath s)) as Hdefault.
    cbn zeta in Hdefault. rewrite <- Ho in Hdefault. unfold selectionEnd.
    destruct (result o) as [err2|[node' newNodes']]; [done|].
    destruct (Hdefault _ eq_refl) as [defaultNode Hpicked].
    injection Hr as _ _ _ <-.
    destruct target; [|by destruct (Hother item)|];
      by exists fsPath, defaultNode.
Qed.

(** X21. After the confirmation modal, the telemetry property
    [cancelStep] is empty only when the user chose to deploy: when the
    modal is dismissed, and also when 'Reset default' is chosen, it stays
    [confirmDestructiveDeployment]. *)
Theorem cancel_step_after_the_modal (confirmDeployment : bool) (target : Target) (s : St)
  (message : string) (items : list MessageItem) :
  let o := deploy w confirmDeployment target s in
  ShowWarningMessage message items ∈ trace o →
  telemetry (final o) !! "cancelStep" = Some (cancelStepAfter (chosen w message items)).
Proof.
  cbn zeta. intros Hin.
  by destruct (deploy_modal confirmDeployment target s message items Hin)
    as (_ & _ & _ & _ & _ & _ & _ & _ & _ & ?).
Qed.

(** A modal shown by a run of [deploy]: the run has the shape
    [deploy_confirmed], and the modal is the one of that shape. *)
Lemma shown_modal (confirmDeployment : bool) (target : Target) (s : St)
  (message : string) (items : list MessageItem) :
  let o := deploy w confirmDeployment target s in
  ShowWarningMessage message items ∈ trace o →
  confirmDeployment = true
  ∧ ∃ node newNodes workspace siteConfig before after,
      resolved w target s node newNodes workspace
      ∧ (∀ newApp, newApp ∈ newNodes → fullId newApp ≠ fullId node)
      ∧ getSiteConfig w node = inr siteConfig
      ∧ scmType siteConfig ≠ Some (ScmType_LocalGit (constants w))
      ∧ message = confirmationWarning node
      ∧ trace o = before ++ Delay 500 :: ShowWarningMessage message items :: after
      ∧ Forall before_gate before
      ∧ Forall no_confirmation after
      ∧ (chosen w message items = None → after = [] ∧ result o = inl UserCancelledError).
Proof.
  cbn zeta. intros Hshown.
  destruct (deploy_shape w confirmDeployment target s)
    as [Hquiet|node newNodes workspace siteConfig withConfigs before after
               Hconfirm Hresolved _ Hfresh Hsite Hgit Hbefore Htrace Hanswer].
  { rewrite Forall_forall in Hquiet. by apply Hquiet in Hshown. }
  split; [done|].
  assert (Forall no_confirmation after
          ∧ (chosen w (confirmationWarning node) (confirmationItems w withConfigs) = None →
             after = [] ∧ result (deploy w confirmDeployment target s)
                          = inl UserCancelledError)) as [Hafter Hdismissed].
  { unfold gate_answer in Hanswer.
    destruct (chosen w (confirmationWarning node) (confirmationItems w withConfigs))
      as [item|].
    2:{ destruct Hanswer as [-> ->]. by split; [constructor|]. }
    split; [|done]. destruct (decide (item = resetDefault)); [|done].
    cbn zeta in Hanswer.
    destruct (openTextDocument w (settingsPath w workspace));
      [|destruct (settings_update w _ _ _)];
      destruct Hanswer as (-> & _); by repeat constructor. }
  rewrite Htrace in Hshown. apply confirmation_member in Hshown;
    [|by apply before_gate_no_confirmation|done].
  rewrite !elem_of_cons in Hshown. destruct Hshown as [?|[Hmodal|Hin]]; [done| |].
  2:{ rewrite Forall_forall in Hafter. by apply Hafter in Hin. }
  unfold confirmationModal in Hmodal. injection Hmodal as -> ->.
  exists node, newNodes, workspace, siteConfig, before, after. by split_and!.
Qed.

(** X22. The confirmation modal is shown at most once in a run, right
    after the delay of 500 ms, and only when the run was asked to confirm
    and the site of its target (the tree item passed in, or the item the
    selection of the run resolved), which was not created during the run,
    is not deployed from a local Git repository; the modal names that
    target. *)
Theorem modal_is_shown_once (confirmDeployment : bool) (target : Target) (s : St)
  (message : string) (items : list MessageItem) :
  let o := deploy w confirmDeployment target s in
  ShowWarningMessage message items ∈ trace o →
  confirmDeployment = true
  ∧ ∃ node newNodes workspace siteConfig before after,
      resolved w target s node newNodes workspace
      ∧ (∀ newApp, newApp ∈ newNodes → fullId newApp ≠ fullId node)
      ∧ getSiteConfig w node = inr siteConfig
      ∧ scmType siteConfig ≠ Some (ScmType_LocalGit (constants w))
      ∧ message = confirmationWarning node
      ∧ trace o = before ++ Delay 500 :: ShowWarningMessage message items :: after
      ∧ Forall no_confirmation before
      ∧ Forall no_confirmation after.
Proof.
  cbn zeta. intros Hshown.
  destruct (shown_modal confirmDeployment target s message items Hshown)
    as (Hconfirm & node & newNodes & workspace & siteConfig & before & after & Hresolved
        & Hfresh & Hsite & Hgit & Hmessage & Htrace & Hbefore & Hafter & _).
  split; [done|]. exists node, newNodes, workspace, siteConfig, before, after.
  split_and!; [done..|by apply before_gate_no_confirmation|done].
Qed.

(** X23. When the confirmation modal is dismissed or answered with
    'Cancel', the run ends there with the cancellation error: the modal is
    its last call, and neither the pre-deploy task nor the transfer has
    run. *)
Theorem dismissed_modal_ends_the_run (confirmDeployment : bool) (target : Target) (s : St)
  (message : string) (items : list MessageItem) :
  let o := deploy w confirmDeployment target s in
  ShowWarningMessage message items ∈ trace o →
  chosen w message items = None →
  result o = inl UserCancelledError
  ∧ last (trace o) = Some (ShowWarningMessage message items)
  ∧ Forall no_transfer (trace o).
Proof.
  cbn zeta. intros Hshown Hnone.
  destruct (shown_modal confirmDeployment target s message items Hshown)
    as (_ & node & newNodes & workspace & siteConfig & before & after & _ & _ & _ & _ & _
        & Htrace & Hbefore & _ & Hdismissed).
  destruct (Hdismissed Hnone) as [-> ->]. rewrite Htrace. split_and!; [done| |].
  - rewrite (app_assoc before [Delay 500] [_] : before ++ [Delay 500; _] = _).
    by rewrite last_snoc.
  - apply Forall_app. split; [|by repeat constructor].
    eapply Forall_weaken; [|exact Hbefore]. by intros e [_ ?].
Qed.

Lemma confirmationGate_deployFsPath confirmDeployment siteConfig node workspace (s : St) :
  deployFsPath (final (confirmationGate w confirmDeployment siteConfig node workspace s))
  = deployFsPath s.
Proof.
  change (post (confirmationGate w confirmDeployment siteConfig node workspace) s
            (fun _ s' _ => deployFsPath s' = deployFsPath s)).
  unfold confirmationGate. destruct (_ && _); [|by mstep].
  do 8 mstep. destruct (chosen w _ _) as [item|]; cbn beta iota; [|done].
  destruct (decide (item = resetDefault)); [|by do 3 mstep].
  do 2 mstep. destruct (openTextDocument w _); cbn beta iota; [done|].
  do 4 mstep. destruct (settings_update w _ _ _); cbn beta iota; [done|].
  do 2 mstep. by destruct (executeCommand w _); cbn beta iota; [|mstep].
Qed.

(** X24. What a run transfers, and to which target: the target is the
    tree item passed in or the one the selection resolved, and the path is
    the path resolved for the run, unless a Java artifact was offered in a
    quick pick, and then it is the artifact the user picked. *)
Theorem transferred_path_is_resolved_or_picked (confirmDeployment : bool) (target : Target)
  (s : St) (node : SiteTreeItem) (fsPath : string) :
  let o := deploy w confirmDeployment target s in
  AppserviceDeploy node fsPath ∈ trace o →
  (∃ newNodes workspace, resolved w target s node newNodes workspace)
  ∧ (Forall (fun e => is_pick e = false) (trace o) ∧ resolvesTo w target fsPath
     ∨ ∃ files placeHolder,
         ShowQuickPick placeHolder ∈ trace o
         ∧ ui_quickPick w files placeHolder = inr fsPath).
Proof.
  cbn zeta. intros Hin.
  destruct (deploy_resolution w confirmDeployment target s) as (tr & s1 & r & Hres & Hrun).
  cbn zeta in Hrun.
  pose proof (resolution_entry _ _ _ _ _ Hres) as Hentry.
  pose proof (entry_no_transfer _ Hentry) as Htr.
  assert (Forall (fun e => is_pick e = false) tr) as Htr'.
  { eapply Forall_weaken; [|exact Hentry]. intros e He. by destruct e. }
  destruct r as [e|[[[node0 newNodes] siteConfigOpt] workspace]].
  { destruct Hrun as (Htrace & _). rewrite Htrace in Hin.
    rewrite Forall_forall in Htr. by apply Htr in Hin. }
  destruct Hrun as (Htrace & _). rewrite Htrace in Hin |- *.
  apply transfer_member in Hin; [|done..].
  apply resolution_path in Hres as [Hresolved Hpath].
  destruct (deployTo_stages w confirmDeployment node0 newNodes siteConfigOpt workspace s1)
    as (stifle & prepared & Hstifle & Hprepared & Hstages).
  apply preparation_no_transfer in Hstifle, Hprepared.
  set (fetch := match siteConfigOpt with Some _ => [] | None => [GetSiteConfig node0] end)
    in *.
  assert (Forall no_transfer fetch) as Hfetch
    by (subst fetch; destruct siteConfigOpt; by repeat constructor).
  destruct Hstages as [(e & Hfailed & _)|(siteConfig & s3 & _ & _ & Hartifact & Hgate)].
  { rewrite Hfailed in Hin. do 2 (apply transfer_member in Hin; [|done..]).
    rewrite Forall_forall in Hprepared. by apply Hprepared in Hin. }
  cbn zeta in Hgate.
  pose proof (confirmationGate_no_transfer (stifled confirmDeployment node0 newNodes)
                siteConfig node0 workspace s3) as Hquiet.
  pose proof (confirmationGate_deployFsPath (stifled confirmDeployment node0 newNodes)
                siteConfig node0 workspace s3) as Hkept.
  assert (Forall (fun e => is_pick e = false)
            (trace (confirmationGate w (stifled confirmDeployment node0 newNodes)
                      siteConfig node0 workspace s3))) as Hgate'.
  { apply confirmationGate_emits. intros e [He|[He|He]]; by destruct e. }
  set (g := confirmationGate w (stifled confirmDeployment node0 newNodes) siteConfig node0
              workspace s3) in *.
  destruct (result g) as [e|[|]].
  1,2: destruct Hgate as (Hgate & _); rewrite Hgate in Hin;
       do 3 (apply transfer_member in Hin; [|done..]);
       rewrite Forall_forall in Hquiet; by apply Hquiet in Hin.
  destruct Hgate as (Hgate & _). rewrite Hgate in Hin |- *.
  do 4 (apply transfer_member in Hin; [|done..]).
  assert (emits_only (fun e => is_pick e = false)
            (transfer w siteConfig node0 workspace (getRandomHexString w))) as Htransfer
    by (unfold transfer; repeat emits_only_step).
  specialize (Htransfer (final g)).
  assert (node = node0 ∧ fsPath = deployFsPath s3) as [-> ->].
  { pose proof (transfer_run w siteConfig node0 workspace (getRandomHexString w) (final g))
      as Hrun.
    cbn zeta in Hrun. rewrite Hkept in Hrun.
    assert (Forall no_transfer
              (if deployedWithConfigs (final g) then []
               else [Detached (PromptToSaveDeployDefaults node0 (uri_fsPath workspace)
                                 (deployFsPath s3))])) as Hsave
      by (destruct (deployedWithConfigs (final g)); by repeat constructor).
    destruct (runPreDeployTask w _ _ _).
    { destruct Hrun as [Hrun _]. rewrite Hrun in Hin.
      apply transfer_member in Hin; [|done..]. by apply list_elem_of_singleton in Hin. }
    destruct (appservice_deploy w node0 (deployFsPath s3)); destruct Hrun as [Hrun _];
      rewrite Hrun in Hin; (apply transfer_member in Hin; [|done..]);
      unfold completion in Hin; rewrite !elem_of_cons in Hin.
    - by destruct Hin as [?|[?|[[= -> ->]|Hnil]]]; [| | |apply elem_of_nil in Hnil].
    - by destruct Hin as [?|[?|[[= -> ->]|[?|[?|[?|Hnil]]]]]];
        [| | | | | |apply elem_of_nil in Hnil]. }
  split; [by exists newNodes, workspace|].
  destruct Hartifact as [[Hnone Hsame]|(files & placeHolder & Hpicked & Hpick)].
  - left. rewrite Hsame. split; [|done].
    apply Forall_app in Hnone as [Hnone1 Hnone2].
    apply Forall_app in Hnone2 as [Hnone2 Hnone3].
    by repeat (apply Forall_app; split).
  - right. exists files, placeHolder. split; [|done].
    apply elem_of_app. right.
    apply elem_of_app in Hpicked as [?|Hpicked]; [by apply elem_of_app; left|].
    apply elem_of_app. right.
    apply elem_of_app in Hpicked as [?|Hpicked]; [by apply elem_of_app; left|].
    apply elem_of_app. right. by apply elem_of_app; left.
Qed.

End DeployFurther.

(** ** [showWorkspaceFoldersQuickPick] *)

Section WorkspaceFolderPicker.

Variable wb : Workbench.
Variable c : Constants.
Variable placeHolderString : string.
Variable telemetryProperties : gmap string string.
Variable subPathSetting : option string.

Local Abbreviation run :=
  (showWorkspaceFoldersQuickPick wb c placeHolderString telemetryProperties subPathSetting).
Local Abbreviation shown :=
  (QuickPickShown (folderQuickPickItems wb c subPathSetting) placeHolderString).

Lemma offered_item (i : nat) (item : QuickPickItem) :
  folderQuickPickItems wb c subPathSetting !! i = Some item →
  i = 0 ∧ item = browseItem
  ∨ ∃ folders j folder,
      workspaceFolders wb = Some folders
      ∧ i = S j
      ∧ folders !! j = Some folder
      ∧ item = folderQuickPickItem wb c subPathSetting folder.
Proof.
  unfold folderQuickPickItems. destruct i as [|i]; simpl; [intros [= <-]; by left|].
  destruct (workspaceFolders wb) as [folders|]; [|done].
  intros Hitem. apply list_lookup_fmap_Some in Hitem as (folder & -> & Hfolder).
  right. by exists folders, i, folder.
Qed.

(** X25. A path the function returns is the path of an open workspace
    folder (joined with its configured subpath, if it has one), and then
    the item of that folder is the one the user picked, and the open
    dialog was never shown; or the user picked an item without path, the
    open dialog was shown with the first workspace folder as its default,
    and the path is the first path selected there.  The telemetry
    properties are then as they were. *)
Theorem returned_path_was_picked_or_browsed (p : string) :
  answer run = inr p →
  properties run = telemetryProperties
  ∧ ((∃ folders i folder,
        workspaceFolders wb = Some folders
        ∧ window_showQuickPick wb (folderQuickPickItems wb c subPathSetting)
            placeHolderString = Some (S i)
        ∧ folders !! i = Some folder
        ∧ p = qp_description (folderQuickPickItem wb c subPathSetting folder)
        ∧ interactions run = [shown])
     ∨ ∃ i item rest,
         let defaultUri := workspaceFolders wb ≫= (fun l => uri_fsPath <$> head l) in
         window_showQuickPick wb (folderQuickPickItems wb c subPathSetting)
           placeHolderString = Some i
         ∧ folderQuickPickItems wb c subPathSetting !! i = Some item
         ∧ Js.truthy_opt (qp_data item) = false
         ∧ window_showOpenDialog wb defaultUri = Some (p :: rest)
         ∧ interactions run = [shown; OpenDialogShown defaultUri]).
Proof.
  unfold showWorkspaceFoldersQuickPick.
  destruct (window_showQuickPick wb _ _ ≫= _) as [pickedItem|] eqn:Hpicked; [|done].
  apply bind_Some in Hpicked as (i & Hshown & Hitem).
  destruct (negb (Js.truthy_opt (qp_data pickedItem))) eqn:Hdata.
  - apply negb_true_iff in Hdata.
    set (defaultUri := workspaceFolders wb ≫= (fun l => uri_fsPath <$> head l)).
    assert (∀ folders, folders = workspaceFolders wb →
            folders ≫= (fun l => uri_fsPath <$> head l) = defaultUri) as Hdefault
      by by intros ? ->.
    revert Hshown Hitem. generalize (folderQuickPickItems wb c subPathSetting).
    intros items Hshown Hitem.
    destruct (workspaceFolders wb) as [[|folder folders]|];
      [done | rewrite (Hdefault _ eq_refl) | rewrite (Hdefault _ eq_refl)].
    all: destruct (window_showOpenDialog wb defaultUri) as [[|first rest]|] eqn:Hdialog;
      [done| |done].
    all: intros [= <-]; split; [done|]; right; by exists i, pickedItem, rest.
  - intros [= <-]. split; [done|]. left.
    apply offered_item in Hitem
      as [[_ ->]|(folders & j & folder & Hfolders & -> & Hfolder & ->)]; [done|].
    by exists folders, j, folder.
Qed.

(** X26. The telemetry properties are written only when the user
    cancels, and then [cancelStep] tells where: [showWorkspaceFolders] when
    the quick pick was dismissed, [showWorkspaceFoldersBrowse] when the
    open dialog was. *)
Theorem cancel_step_tells_where (e : exn) :
  answer run = inl e →
  if decide (e = UserCancelledError) then
    (interactions run = [shown]
     ∧ properties run = <["cancelStep" := "showWorkspaceFolders"]> telemetryProperties)
    ∨ (∃ defaultUri,
         interactions run = [shown; OpenDialogShown defaultUri]
         ∧ window_showOpenDialog wb defaultUri = None
         ∧ properties run
           = <["cancelStep" := "showWorkspaceFoldersBrowse"]> telemetryProperties)
  else properties run = telemetryProperties.
Proof.
  unfold showWorkspaceFoldersQuickPick.
  destruct (window_showQuickPick wb _ _ ≫= _) as [pickedItem|].
  2:{ intros [= <-]. rewrite decide_True by done. by left. }
  destruct (negb (Js.truthy_opt (qp_data pickedItem))); [|done].
  set (defaultUri := workspaceFolders wb ≫= (fun l => uri_fsPath <$> head l)).
  assert (∀ folders, folders = workspaceFolders wb →
          folders ≫= (fun l => uri_fsPath <$> head l) = defaultUri) as Hdefault
    by by intros ? ->.
  destruct (workspaceFolders wb) as [[|folder folders]|];
    [by intros [= <-] | rewrite (Hdefault _ eq_refl) | rewrite (Hdefault _ eq_refl)].
  all: destruct (window_showOpenDialog wb defaultUri) as [[|first rest]|] eqn:Hdialog;
    [by intros [= <-] | done |].
  all: intros [= <-]; rewrite decide_True by done; right; by exists defaultUri.
Qed.

End WorkspaceFolderPicker.

(** ** The further properties applied *)

Section FurtherWitnesses.

Lemma parse_renderResourceId_witness :
  [("subscriptions", "s1"); ("__proto__", "x"); ("resourceGroups", "rg")] ≠ []
  ∧ Forall (fun kv : string * string => is_segment kv.1 = true ∧ is_segment kv.2 = true)
      [("subscriptions", "s1"); ("__proto__", "x"); ("resourceGroups", "rg")]
  ∧ parseAzureResourceId
      (renderResourceId [("subscriptions", "s1"); ("__proto__", "x"); ("resourceGroups", "rg")])
    = inr (assignAll
             (filter (fun kv : string * string => kv.1 ≠ "__proto__")
                [("subscriptions", "s1"); ("__proto__", "x"); ("resourceGroups", "rg")])).
Proof.
  assert ([("subscriptions", "s1"); ("__proto__", "x"); ("resourceGroups", "rg")] ≠ [])
    as H1 by discriminate.
  assert (Forall (fun kv : string * string =>
                    is_segment kv.1 = true ∧ is_segment kv.2 = true)
            [("subscriptions", "s1"); ("__proto__", "x"); ("resourceGroups", "rg")]) as H2
    by (repeat constructor).
  split; [exact H1|]. split; [exact H2|].
  exact (parse_renderResourceId _ H1 H2).
Defined.

Lemma parsed_entries_are_segments_witness :
  parseAzureResourceId "/subscriptions/s1/resourceGroups/rg"
  = inr (assignAll [("subscriptions", "s1"); ("resourceGroups", "rg")])
  ∧ assignAll [("subscriptions", "s1"); ("resourceGroups", "rg")] !! "resourceGroups"
    = Some "rg"
  ∧ is_segment "resourceGroups" = true ∧ is_segment "rg" = true.
Proof.
  assert (parseAzureResourceId "/subscriptions/s1/resourceGroups/rg"
          = inr (assignAll [("subscriptions", "s1"); ("resourceGroups", "rg")])) as H1
    by (vm_compute; reflexivity).
  assert (assignAll [("subscriptions", "s1"); ("resourceGroups", "rg")] !! "resourceGroups"
          = Some "rg") as H2 by (vm_compute; reflexivity).
  split; [exact H1|]. split; [exact H2|].
  exact (parsed_entries_are_segments _ _ _ _ H1 H2).
Defined.

Lemma parsed_object_size_witness :
  parseAzureResourceId "/subscriptions/s1/resourceGroups/rg"
  = inr (assignAll [("subscriptions", "s1"); ("resourceGroups", "rg")])
  ∧ (assignAll [("subscriptions", "s1"); ("resourceGroups", "rg")] = ∅
     ↔ ∀ i key,
         segments "/subscriptions/s1/resourceGroups/rg" !! (2 * i) = Some key →
         key = "__proto__")
  ∧ (size (assignAll [("subscriptions", "s1"); ("resourceGroups", "rg")])
     ≤ length (segments "/subscriptions/s1/resourceGroups/rg") / 2)%nat.
Proof.
  assert (parseAzureResourceId "/subscriptions/s1/resourceGroups/rg"
          = inr (assignAll [("subscriptions", "s1"); ("resourceGroups", "rg")])) as H1
    by (vm_compute; reflexivity).
  split; [exact H1|].
  exact (parsed_object_size _ _ H1).
Defined.

Lemma dismissWorld_prompted :
  preDeployPrompt demoWorkspace
  ∈ trace (setPreDeployTaskForDotnet dismissWorld demoWorkspace demoSt).
Proof. apply (list_elem_of_lookup_2 _ 2). vm_compute. reflexivity. Defined.

Lemma optOutWorld_prompted :
  preDeployPrompt demoWorkspace
  ∈ trace (setPreDeployTaskForDotnet optOutWorld demoWorkspace demoSt).
Proof. apply (list_elem_of_lookup_2 _ 2). vm_compute. reflexivity. Defined.

Lemma dismissed_prompt_changes_nothing_witness :
  chosen dismissWorld (notConfiguredForDeploy demoWorkspace)
    [DialogResponses.yes; dontShowAgainButton] = None
  ∧ preDeployPrompt demoWorkspace
    ∈ trace (setPreDeployTaskForDotnet dismissWorld demoWorkspace demoSt)
  ∧ result (setPreDeployTaskForDotnet dismissWorld demoWorkspace demoSt)
    = inl UserCancelledError
  ∧ persisted (final (setPreDeployTaskForDotnet dismissWorld demoWorkspace demoSt))
    = persisted demoSt
  ∧ Forall (fun e => is_write e = false)
      (trace (setPreDeployTaskForDotnet dismissWorld demoWorkspace demoSt)).
Proof.
  assert (chosen dismissWorld (notConfiguredForDeploy demoWorkspace)
            [DialogResponses.yes; dontShowAgainButton] = None) as H1
    by (vm_compute; reflexivity).
  split; [exact H1|]. split; [exact dismissWorld_prompted|].
  exact (dismissed_prompt_changes_nothing dismissWorld demoWorkspace demoSt H1
           dismissWorld_prompted).
Defined.

Lemma opt_out_only_turns_warning_off_witness :
  chosen optOutWorld (notConfiguredForDeploy demoWorkspace)
    [DialogResponses.yes; dontShowAgainButton] = Some dontShowAgainButton
  ∧ preDeployPrompt demoWorkspace
    ∈ trace (setPreDeployTaskForDotnet optOutWorld demoWorkspace demoSt)
  ∧ settings (final (setPreDeployTaskForDotnet optOutWorld demoWorkspace demoSt))
    = <[(uri_fsPath demoWorkspace, showPreDeployWarningSetting) := SBool false]>
        (settings demoSt)
  ∧ tasksJson (final (setPreDeployTaskForDotnet optOutWorld demoWorkspace demoSt))
    = tasksJson demoSt
  ∧ deployFsPath (final (setPreDeployTaskForDotnet optOutWorld demoWorkspace demoSt))
    = deployFsPath demoSt
  ∧ result (setPreDeployTaskForDotnet optOutWorld demoWorkspace demoSt) = inr tt.
Proof.
  assert (chosen optOutWorld (notConfiguredForDeploy demoWorkspace)
            [DialogResponses.yes; dontShowAgainButton] = Some dontShowAgainButton) as H1
    by (vm_compute; reflexivity).
  split; [exact H1|]. split; [exact optOutWorld_prompted|].
  exact (opt_out_only_turns_warning_off optOutWorld demoWorkspace demoSt H1
           optOutWorld_prompted).
Defined.

Lemma answered_prompt_is_not_repeated_witness :
  configurationSettings_deploySubpath (constants yesWorld) ≠ preDeployTaskSetting
  ∧ preDeployPrompt demoWorkspace
    ∈ trace (setPreDeployTaskForDotnet yesWorld demoWorkspace demoSt)
  ∧ result (setPreDeployTaskForDotnet yesWorld demoWorkspace demoSt) = inr tt
  ∧ setPreDeployTaskForDotnet yesWorld demoWorkspace
      (final (setPreDeployTaskForDotnet yesWorld demoWorkspace demoSt))
    = silent (final (setPreDeployTaskForDotnet yesWorld demoWorkspace demoSt)).
Proof.
  assert (configurationSettings_deploySubpath (constants yesWorld) ≠ preDeployTaskSetting)
    as H1 by discriminate.
  assert (result (setPreDeployTaskForDotnet yesWorld demoWorkspace demoSt) = inr tt) as H3
    by (vm_compute; reflexivity).
  split; [exact H1|]. split; [exact yesWorld_prompted|]. split; [exact H3|].
  exact (answered_prompt_is_not_repeated yesWorld demoWorkspace demoSt H1 yesWorld_prompted
           H3).
Defined.

Lemma accepted_prompt_provides_tasks_witness :
  accepts_writes yesWorld "/ws"
  ∧ chosen yesWorld (notConfiguredForDeploy demoWorkspace)
    [DialogResponses.yes; dontShowAgainButton] = Some DialogResponses.yes
  ∧ preDeployPrompt demoWorkspace
    ∈ trace (setPreDeployTaskForDotnet yesWorld demoWorkspace demoSt)
  ∧ "publish" ∈ ["build"; "publish"; "watch"]
  ∧ Some "publish"
    ∈ map label
        (default []
           (tasksJson (final (setPreDeployTaskForDotnet yesWorld demoWorkspace demoSt))
              !! "/ws")).
Proof.
  assert (chosen yesWorld (notConfiguredForDeploy demoWorkspace)
            [DialogResponses.yes; dontShowAgainButton] = Some DialogResponses.yes) as H1
    by (vm_compute; reflexivity).
  assert ("publish" ∈ ["build"; "publish"; "watch"]) as H3
    by (apply list_elem_of_further, list_elem_of_here).
  split; [exact yesWorld_accepts_writes|].
  split; [exact H1|]. split; [exact yesWorld_prompted|]. split; [exact H3|].
  exact (accepted_prompt_provides_tasks yesWorld demoWorkspace demoSt "publish"
           yesWorld_accepts_writes H1 yesWorld_prompted H3).
Defined.

Lemma listed_same_listings : same_listings listedWorld relistedWorld.
Proof.
  split; [reflexivity|]. split; [reflexivity|]. split; [reflexivity|].
  intros p. simpl. destruct (String.eqb p "/ws"); [apply Permutation_swap|].
  destruct (String.eqb p "/ws/src"); [reflexivity|exact I].
Defined.

Lemma listing_order_is_irrelevant_witness :
  same_listings listedWorld relistedWorld
  ∧ result (tryGetCsprojFile listedWorld "/ws" demoSt)
    = result (tryGetCsprojFile relistedWorld "/ws" demoSt).
Proof.
  split; [exact listed_same_listings|].
  exact (listing_order_is_irrelevant listedWorld relistedWorld listed_same_listings
           "/ws" demoSt demoSt).
Defined.

Lemma root_project_file_hides_subfolders_witness :
  csprojIn yesWorld "/ws" = inr ["/ws/App.csproj"]
  ∧ trace (tryGetCsprojFile yesWorld "/ws" demoSt) = [FsReaddirSync "/ws"]
  ∧ result (tryGetCsprojFile yesWorld "/ws" demoSt) = inr (Some "/ws/App.csproj").
Proof.
  assert (csprojIn yesWorld "/ws" = inr ["/ws/App.csproj"]) as H1
    by (vm_compute; reflexivity).
  split; [exact H1|].
  exact (root_project_file_hides_subfolders yesWorld "/ws" "/ws/App.csproj" demoSt H1).
Defined.

Lemma failed_selection_is_recorded_witness :
  (∀ item, TUndefined ≠ TNode item)
  ∧ getDeployFsPath cancelledWorld TUndefined None = inr "/ws"
  ∧ getContainingWorkspace cancelledWorld "/ws" = Some demoWorkspace
  ∧ result (selectTarget cancelledWorld demoWorkspace "/ws" emptySt) = inl UserCancelledError
  ∧ result (deploy cancelledWorld true TUndefined emptySt) = inl UserCancelledError
  ∧ (∃ sel,
       trace (deploy cancelledWorld true TUndefined emptySt)
       = GetDeployFsPath TUndefined None :: OnTreeItemCreate :: sel ++ [DisposeListener]
       ∧ Forall (fun e => is_selection e = true) sel)
  ∧ telemetry (final (deploy cancelledWorld true TUndefined emptySt)) !! "cancelStep"
    = if isUserCancelledError UserCancelledError
      then Some ("showTreeItemPicker:"
                 +:+ WebAppTreeItem_contextValue (constants cancelledWorld))
      else telemetry emptySt !! "cancelStep".
Proof.
  assert (∀ item, TUndefined ≠ TNode item) as H1 by discriminate.
  assert (getDeployFsPath cancelledWorld TUndefined None = inr "/ws") as H2 by reflexivity.
  assert (getContainingWorkspace cancelledWorld "/ws" = Some demoWorkspace) as H3
    by reflexivity.
  assert (result (selectTarget cancelledWorld demoWorkspace "/ws" emptySt)
          = inl UserCancelledError) as H4 by reflexivity.
  split; [exact H1|]. split; [exact H2|]. split; [exact H3|]. split; [exact H4|].
  exact (failed_selection_is_recorded cancelledWorld true TUndefined emptySt "/ws"
           demoWorkspace UserCancelledError H1 H2 H3 H4).
Defined.

Lemma deployWorld_transferred :
  AppserviceDeploy demoSite "/ws" ∈ trace (deploy deployWorld true (TNode demoSite) emptySt).
Proof. apply (list_elem_of_lookup_2 _ 7). vm_compute. reflexivity. Defined.

Lemma transfer_follows_pre_deploy_task_witness :
  AppserviceDeploy demoSite "/ws" ∈ trace (deploy deployWorld true (TNode demoSite) emptySt)
  ∧ ∃ before scm after,
      trace (deploy deployWorld true (TNode demoSite) emptySt)
      = before
        ++ RunPreDeployTask "/ws" scm (extensionPrefix (constants deployWorld))
        :: CancelWebsiteValidation demoSite :: AppserviceDeploy demoSite "/ws" :: after
      ∧ runPreDeployTask deployWorld "/ws" scm (extensionPrefix (constants deployWorld))
        = None
      ∧ Forall (fun e => is_transfer e = false) before
      ∧ Forall (fun e => is_transfer e = false) after.
Proof.
  split; [exact deployWorld_transferred|].
  exact (transfer_follows_pre_deploy_task deployWorld true (TNode demoSite) emptySt demoSite
           "/ws" deployWorld_transferred).
Defined.

Lemma normal_return_is_restart_or_completion_witness :
  result (deploy deployWorld true (TNode demoSite) emptySt) = inr tt
  ∧ (ExecuteCommand "appService.Deploy"
     ∈ trace (deploy deployWorld true (TNode demoSite) emptySt)
     ∨ ∃ node fsPath,
         completion deployWorld node fsPath (getRandomHexString deployWorld)
         `suffix_of` trace (deploy deployWorld true (TNode demoSite) emptySt)
         ∧ appservice_deploy deployWorld node fsPath = None).
Proof.
  assert (result (deploy deployWorld true (TNode demoSite) emptySt) = inr tt) as H1
    by (vm_compute; reflexivity).
  split; [exact H1|].
  exact (normal_return_is_restart_or_completion deployWorld true (TNode demoSite) emptySt
           H1).
Defined.

Lemma resetWorld_asked :
  ShowWarningMessage (confirmationWarning demoSite) (confirmationItems resetWorld true)
  ∈ trace (deploy resetWorld true TUndefined emptySt).
Proof. apply (list_elem_of_lookup_2 _ 6). vm_compute. reflexivity. Defined.

Lemma reset_default_is_offered_for_defaults_witness :
  ShowWarningMessage (confirmationWarning demoSite) (confirmationItems resetWorld true)
  ∈ trace (deploy resetWorld true TUndefined emptySt)
  ∧ ∃ node newNodes workspace withConfigs,
      resolved resetWorld TUndefined emptySt node newNodes workspace
      ∧ confirmationWarning demoSite = confirmationWarning node
      ∧ confirmationItems resetWorld true = confirmationItems resetWorld withConfigs
      ∧ ∃ fsPath defaultNode,
          getDeployFsPath resetWorld TUndefined None = inr fsPath
          ∧ getContainingWorkspace resetWorld fsPath = Some workspace
          ∧ picked (getDefaultWebAppToDeploy resetWorld workspace fsPath)
            = inr (defaultNode, withConfigs).
Proof.
  split; [exact resetWorld_asked|].
  exact (reset_default_is_offered_for_defaults resetWorld true TUndefined emptySt _ _
           resetWorld_asked).
Defined.

Lemma cancel_step_after_the_modal_witness :
  ShowWarningMessage (confirmationWarning demoSite) (confirmationItems resetWorld true)
  ∈ trace (deploy resetWorld true TUndefined emptySt)
  ∧ telemetry (final (deploy resetWorld true TUndefined emptySt)) !! "cancelStep"
    = Some (cancelStepAfter
              (chosen resetWorld (confirmationWarning demoSite)
                 (confirmationItems resetWorld true))).
Proof.
  split; [exact resetWorld_asked|].
  exact (cancel_step_after_the_modal resetWorld true TUndefined emptySt _ _
           resetWorld_asked).
Defined.

Lemma deployWorld_asked :
  ShowWarningMessage (confirmationWarning demoSite) (confirmationItems deployWorld false)
  ∈ trace (deploy deployWorld true (TNode demoSite) emptySt).
Proof. apply (list_elem_of_lookup_2 _ 3). vm_compute. reflexivity. Defined.

Lemma modal_is_shown_once_witness :
  ShowWarningMessage (confirmationWarning demoSite) (confirmationItems deployWorld false)
  ∈ trace (deploy deployWorld true (TNode demoSite) emptySt)
  ∧ true = true
  ∧ ∃ node newNodes workspace siteConfig before after,
      resolved deployWorld (TNode demoSite) emptySt node newNodes workspace
      ∧ (∀ newApp, newApp ∈ newNodes → fullId newApp ≠ fullId node)
      ∧ getSiteConfig deployWorld node = inr siteConfig
      ∧ scmType siteConfig ≠ Some (ScmType_LocalGit (constants deployWorld))
      ∧ confirmationWarning demoSite = confirmationWarning node
      ∧ trace (deploy deployWorld true (TNode demoSite) emptySt)
        = before
          ++ Delay 500
          :: ShowWarningMessage (confirmationWarning demoSite)
               (confirmationItems deployWorld false)
          :: after
      ∧ Forall (fun e => is_confirmation e = false) before
      ∧ Forall (fun e => is_confirmation e = false) after.
Proof.
  split; [exact deployWorld_asked|].
  exact (modal_is_shown_once deployWorld true (TNode demoSite) emptySt _ _
           deployWorld_asked).
Defined.

Lemma dismissWorld_asked :
  ShowWarningMessage (confirmationWarning demoSite) (confirmationItems dismissWorld false)
  ∈ trace (deploy dismissWorld true (TNode demoSite) emptySt).
Proof. apply (list_elem_of_lookup_2 _ 3). vm_compute. reflexivity. Defined.

Lemma dismissed_modal_ends_the_run_witness :
  ShowWarningMessage (confirmationWarning demoSite) (confirmationItems dismissWorld false)
  ∈ trace (deploy dismissWorld true (TNode demoSite) emptySt)
  ∧ chosen dismissWorld (confirmationWarning demoSite) (confirmationItems dismissWorld false)
    = None
  ∧ result (deploy dismissWorld true (TNode demoSite) emptySt) = inl UserCancelledError
  ∧ last (trace (deploy dismissWorld true (TNode demoSite) emptySt))
    = Some (ShowWarningMessage (confirmationWarning demoSite)
              (confirmationItems dismissWorld false))
  ∧ Forall (fun e => is_transfer e = false)
      (trace (deploy dismissWorld true (TNode demoSite) emptySt)).
Proof.
  assert (chosen dismissWorld (confirmationWarning demoSite)
            (confirmationItems dismissWorld false) = None) as H2
    by (vm_compute; reflexivity).
  split; [exact dismissWorld_asked|]. split; [exact H2|].
  exact (dismissed_modal_ends_the_run dismissWorld true (TNode demoSite) emptySt _ _
           dismissWorld_asked H2).
Defined.

Lemma transferred_path_is_resolved_or_picked_witness :
  AppserviceDeploy demoSite "/ws" ∈ trace (deploy deployWorld true (TNode demoSite) emptySt)
  ∧ (∃ newNodes workspace,
       resolved deployWorld (TNode demoSite) emptySt demoSite newNodes workspace)
  ∧ (Forall (fun e => is_pick e = false)
       (trace (deploy deployWorld true (TNode demoSite) emptySt))
     ∧ resolvesTo deployWorld (TNode demoSite) "/ws"
     ∨ ∃ files placeHolder,
         ShowQuickPick placeHolder
         ∈ trace (deploy deployWorld true (TNode demoSite) emptySt)
         ∧ ui_quickPick deployWorld files placeHolder = inr "/ws").
Proof.
  split; [exact deployWorld_transferred|].
  exact (transferred_path_is_resolved_or_picked deployWorld true (TNode demoSite) emptySt
           demoSite "/ws" deployWorld_transferred).
Defined.

Lemma returned_path_was_picked_or_browsed_witness :
  answer
    (showWorkspaceFoldersQuickPick (demoWorkbench (Some 1) None) demoConstants
       "Select the folder to deploy" ∅ (Some "deploySubpath"))
  = inr "/ws/dist"
  ∧ properties
      (showWorkspaceFoldersQuickPick (demoWorkbench (Some 1) None) demoConstants
       "Select the folder to deploy" ∅ (Some "deploySubpath"))
    = ∅
  ∧ ((∃ folders i folder,
        workspaceFolders (demoWorkbench (Some 1) None) = Some folders
        ∧ window_showQuickPick (demoWorkbench (Some 1) None)
            (folderQuickPickItems (demoWorkbench (Some 1) None) demoConstants (Some "deploySubpath"))
            "Select the folder to deploy" = Some (S i)
        ∧ folders !! i = Some folder
        ∧ "/ws/dist"
          = qp_description
              (folderQuickPickItem (demoWorkbench (Some 1) None) demoConstants
                 (Some "deploySubpath") folder)
        ∧ interactions
            (showWorkspaceFoldersQuickPick (demoWorkbench (Some 1) None) demoConstants
       "Select the folder to deploy" ∅ (Some "deploySubpath"))
          = [QuickPickShown
               (folderQuickPickItems (demoWorkbench (Some 1) None) demoConstants (Some "deploySubpath"))
               "Select the folder to deploy"])
     ∨ ∃ i item rest,
         window_showQuickPick (demoWorkbench (Some 1) None)
           (folderQuickPickItems (demoWorkbench (Some 1) None) demoConstants (Some "deploySubpath"))
           "Select the folder to deploy" = Some i
         ∧ (folderQuickPickItems (demoWorkbench (Some 1) None) demoConstants (Some "deploySubpath")) !! i
           = Some item
         ∧ Js.truthy_opt (qp_data item) = false
         ∧ window_showOpenDialog (demoWorkbench (Some 1) None)
             (workspaceFolders (demoWorkbench (Some 1) None) ≫= (fun l => uri_fsPath <$> head l))
           = Some ("/ws/dist" :: rest)
         ∧ interactions
             (showWorkspaceFoldersQuickPick (demoWorkbench (Some 1) None) demoConstants
       "Select the folder to deploy" ∅ (Some "deploySubpath"))
           = [QuickPickShown
                (folderQuickPickItems (demoWorkbench (Some 1) None) demoConstants (Some "deploySubpath"))
                "Select the folder to deploy";
              OpenDialogShown
                (workspaceFolders (demoWorkbench (Some 1) None) ≫= (fun l => uri_fsPath <$> head l))]).
Proof.
  assert (answer (showWorkspaceFoldersQuickPick (demoWorkbench (Some 1) None) demoConstants
                    "Select the folder to deploy" ∅ (Some "deploySubpath"))
          = inr "/ws/dist") as H1 by (vm_compute; reflexivity).
  split; [exact H1|].
  exact (returned_path_was_picked_or_browsed (demoWorkbench (Some 1) None) demoConstants
           "Select the folder to deploy" ∅ (Some "deploySubpath") "/ws/dist" H1).
Defined.

Lemma cancel_step_tells_where_witness :
  answer (showWorkspaceFoldersQuickPick (demoWorkbench (Some 0) None) demoConstants
            "Select the folder to deploy" ∅ None)
  = inl UserCancelledError
  ∧ ∃ defaultUri,
      interactions (showWorkspaceFoldersQuickPick (demoWorkbench (Some 0) None)
                      demoConstants "Select the folder to deploy" ∅ None)
      = [QuickPickShown (folderQuickPickItems (demoWorkbench (Some 0) None) demoConstants None)
           "Select the folder to deploy";
         OpenDialogShown defaultUri]
      ∧ properties (showWorkspaceFoldersQuickPick (demoWorkbench (Some 0) None)
                      demoConstants "Select the folder to deploy" ∅ None)
        = <["cancelStep" := "showWorkspaceFoldersBrowse"]> ∅.
Proof.
  assert (answer (showWorkspaceFoldersQuickPick (demoWorkbench (Some 0) None) demoConstants
                    "Select the folder to deploy" ∅ None)
          = inl UserCancelledError) as H1 by (vm_compute; reflexivity).
  split; [exact H1|].
  pose proof (cancel_step_tells_where (demoWorkbench (Some 0) None) demoConstants
                "Select the folder to deploy" ∅ None UserCancelledError H1) as H.
  destruct H as [[H _]|(defaultUri & H2 & _ & H3)]; [discriminate H|].
  exists defaultUri. split; [exact H2|exact H3].
Defined.

End FurtherWitnesses.
